(** * SpeedAF carrier client: cipher codec, transport client and order builder

    A shallow embedding of [speedaf_api.py] and of the client start-up in
    [main.py], with the cipher codec the client imports from [tool]. *)

From Stdlib Require Import ZArith List Bool Lia Floats DecimalString.
From Stdlib.Strings Require Import Byte Ascii String.
From stdpp Require Import gmap strings list.
Import ListNotations.

#[local] Set Warnings "-register-all".

(** ** The 64-bit block cipher

    Blocks and keys are bit lists, most significant bit first; the tables are
    the 1-based position tables of the standard. *)

Module DES.

Definition bits := list bool.

Definition permute (tbl : list nat) (b : bits) : bits :=
  map (fun i => nth (i - 1) b false) tbl.

Fixpoint xor_bits (a b : bits) : bits :=
  match a, b with
  | x :: a', y :: b' => xorb x y :: xor_bits a' b'
  | _, _ => []
  end.

Definition rotl (n : nat) (b : bits) : bits := skipn n b ++ firstn n b.

Definition bits_to_nat (b : bits) : nat :=
  fold_left (fun acc (x : bool) => 2 * acc + (if x then 1 else 0)) b 0.

Definition nibble (n : nat) : bits :=
  [Nat.testbit n 3; Nat.testbit n 2; Nat.testbit n 1; Nat.testbit n 0].

Definition IP : list nat :=
  [58; 50; 42; 34; 26; 18; 10; 2;  60; 52; 44; 36; 28; 20; 12; 4;
   62; 54; 46; 38; 30; 22; 14; 6;  64; 56; 48; 40; 32; 24; 16; 8;
   57; 49; 41; 33; 25; 17; 9; 1;   59; 51; 43; 35; 27; 19; 11; 3;
   61; 53; 45; 37; 29; 21; 13; 5;  63; 55; 47; 39; 31; 23; 15; 7].

Definition FP : list nat :=
  [40; 8; 48; 16; 56; 24; 64; 32;  39; 7; 47; 15; 55; 23; 63; 31;
   38; 6; 46; 14; 54; 22; 62; 30;  37; 5; 45; 13; 53; 21; 61; 29;
   36; 4; 44; 12; 52; 20; 60; 28;  35; 3; 43; 11; 51; 19; 59; 27;
   34; 2; 42; 10; 50; 18; 58; 26;  33; 1; 41; 9; 49; 17; 57; 25].

Definition E : list nat :=
  [32; 1; 2; 3; 4; 5;       4; 5; 6; 7; 8; 9;
   8; 9; 10; 11; 12; 13;    12; 13; 14; 15; 16; 17;
   16; 17; 18; 19; 20; 21;  20; 21; 22; 23; 24; 25;
   24; 25; 26; 27; 28; 29;  28; 29; 30; 31; 32; 1].

Definition P : list nat :=
  [16; 7; 20; 21; 29; 12; 28; 17;  1; 15; 23; 26; 5; 18; 31; 10;
   2; 8; 24; 14; 32; 27; 3; 9;     19; 13; 30; 6; 22; 11; 4; 25].

Definition PC1 : list nat :=
  [57; 49; 41; 33; 25; 17; 9;   1; 58; 50; 42; 34; 26; 18;
   10; 2; 59; 51; 43; 35; 27;   19; 11; 3; 60; 52; 44; 36;
   63; 55; 47; 39; 31; 23; 15;  7; 62; 54; 46; 38; 30; 22;
   14; 6; 61; 53; 45; 37; 29;   21; 13; 5; 28; 20; 12; 4].

Definition PC2 : list nat :=
  [14; 17; 11; 24; 1; 5;     3; 28; 15; 6; 21; 10;
   23; 19; 12; 4; 26; 8;     16; 7; 27; 20; 13; 2;
   41; 52; 31; 37; 47; 55;   30; 40; 51; 45; 33; 48;
   44; 49; 39; 56; 34; 53;   46; 42; 50; 36; 29; 32].

Definition SHIFTS : list nat := [1; 1; 2; 2; 2; 2; 2; 2; 1; 2; 2; 2; 2; 2; 2; 1].

Definition SBOX : list (list nat) :=
  [ [14; 4; 13; 1; 2; 15; 11; 8; 3; 10; 6; 12; 5; 9; 0; 7;
     0; 15; 7; 4; 14; 2; 13; 1; 10; 6; 12; 11; 9; 5; 3; 8;
     4; 1; 14; 8; 13; 6; 2; 11; 15; 12; 9; 7; 3; 10; 5; 0;
     15; 12; 8; 2; 4; 9; 1; 7; 5; 11; 3; 14; 10; 0; 6; 13];
    [15; 1; 8; 14; 6; 11; 3; 4; 9; 7; 2; 13; 12; 0; 5; 10;
     3; 13; 4; 7; 15; 2; 8; 14; 12; 0; 1; 10; 6; 9; 11; 5;
     0; 14; 7; 11; 10; 4; 13; 1; 5; 8; 12; 6; 9; 3; 2; 15;
     13; 8; 10; 1; 3; 15; 4; 2; 11; 6; 7; 12; 0; 5; 14; 9];
    [10; 0; 9; 14; 6; 3; 15; 5; 1; 13; 12; 7; 11; 4; 2; 8;
     13; 7; 0; 9; 3; 4; 6; 10; 2; 8; 5; 14; 12; 11; 15; 1;
     13; 6; 4; 9; 8; 15; 3; 0; 11; 1; 2; 12; 5; 10; 14; 7;
     1; 10; 13; 0; 6; 9; 8; 7; 4; 15; 14; 3; 11; 5; 2; 12];
    [7; 13; 14; 3; 0; 6; 9; 10; 1; 2; 8; 5; 11; 12; 4; 15;
     13; 8; 11; 5; 6; 15; 0; 3; 4; 7; 2; 12; 1; 10; 14; 9;
     10; 6; 9; 0; 12; 11; 7; 13; 15; 1; 3; 14; 5; 2; 8; 4;
     3; 15; 0; 6; 10; 1; 13; 8; 9; 4; 5; 11; 12; 7; 2; 14];
    [2; 12; 4; 1; 7; 10; 11; 6; 8; 5; 3; 15; 13; 0; 14; 9;
     14; 11; 2; 12; 4; 7; 13; 1; 5; 0; 15; 10; 3; 9; 8; 6;
     4; 2; 1; 11; 10; 13; 7; 8; 15; 9; 12; 5; 6; 3; 0; 14;
     11; 8; 12; 7; 1; 14; 2; 13; 6; 15; 0; 9; 10; 4; 5; 3];
    [12; 1; 10; 15; 9; 2; 6; 8; 0; 13; 3; 4; 14; 7; 5; 11;
     10; 15; 4; 2; 7; 12; 9; 5; 6; 1; 13; 14; 0; 11; 3; 8;
     9; 14; 15; 5; 2; 8; 12; 3; 7; 0; 4; 10; 1; 13; 11; 6;
     4; 3; 2; 12; 9; 5; 15; 10; 11; 14; 1; 7; 6; 0; 8; 13];
    [4; 11; 2; 14; 15; 0; 8; 13; 3; 12; 9; 7; 5; 10; 6; 1;
     13; 0; 11; 7; 4; 9; 1; 10; 14; 3; 5; 12; 2; 15; 8; 6;
     1; 4; 11; 13; 12; 3; 7; 14; 10; 15; 6; 8; 0; 5; 9; 2;
     6; 11; 13; 8; 1; 4; 10; 7; 9; 5; 0; 15; 14; 2; 3; 12];
    [13; 2; 8; 4; 6; 15; 11; 1; 10; 9; 3; 14; 5; 0; 12; 7;
     1; 15; 13; 8; 10; 3; 7; 4; 12; 5; 6; 11; 0; 14; 9; 2;
     7; 11; 4; 1; 9; 12; 14; 2; 0; 6; 10; 13; 15; 3; 5; 8;
     2; 1; 14; 7; 4; 10; 8; 13; 15; 12; 9; 0; 3; 5; 6; 11] ].

(* one S-box: six input bits select a row (outer bits) and a column (inner bits) *)
Definition sbox_lookup (box : list nat) (six : bits) : bits :=
  match six with
  | [b1; b2; b3; b4; b5; b6] =>
      nibble (nth (16 * bits_to_nat [b1; b6] + bits_to_nat [b2; b3; b4; b5]) box 0)
  | _ => nibble 0
  end.

Fixpoint sboxes (boxes : list (list nat)) (b : bits) : bits :=
  match boxes with
  | [] => []
  | box :: rest => sbox_lookup box (firstn 6 b) ++ sboxes rest (skipn 6 b)
  end.

Definition feistel_f (r k : bits) : bits :=
  permute P (sboxes SBOX (xor_bits (permute E r) k)).

Fixpoint schedule (shifts : list nat) (c d : bits) : list bits :=
  match shifts with
  | [] => []
  | s :: rest =>
      let c' := rotl s c in
      let d' := rotl s d in
      permute PC2 (c' ++ d') :: schedule rest c' d'
  end.

Definition subkeys (key : bits) : list bits :=
  let k := permute PC1 key in
  schedule SHIFTS (firstn 28 k) (skipn 28 k).

Definition round (lr : bits * bits) (k : bits) : bits * bits :=
  (snd lr, xor_bits (fst lr) (feistel_f (snd lr) k)).

Definition crypt (ks : list bits) (block : bits) : bits :=
  let ip := permute IP block in
  let lr := fold_left round ks (firstn 32 ip, skipn 32 ip) in
  permute FP (snd lr ++ fst lr).

(** Modelled from the spec: the block primitive of the cipher codec in
    [tool] (the module is not among the sources), the DES block function
    under one 64-bit key; three of them make the triple cipher. *)
Definition encrypt_block (key block : bits) : bits := crypt (subkeys key) block.

(** Modelled from the spec: the inverse block function of the codec in
    [tool], the same rounds under the sub-keys in reverse order. *)
Definition decrypt_block (key block : bits) : bits := crypt (rev (subkeys key)) block.

(** The two halves exchanged, and the shape of a well-formed pair. *)
Definition swap (lr : bits * bits) : bits * bits := (snd lr, fst lr).

Definition halves_ok (lr : bits * bits) : Prop :=
  length (fst lr) = 32 /\ length (snd lr) = 32.

End DES.

(** ** The cipher codec

    [speedaf_api.py] imports [triple_des_encrypt] and [triple_des_decrypt]
    from the module [tool], which is not among the sources.  The codec below
    is the byte-level encrypt/decrypt pair of that module: key derivation,
    block padding, the triple block cipher over 8-byte blocks and the text
    representation of the ciphertext. *)

Module Codec.

Definition bytes := list byte.

Definition BLOCK : nat := 8.
Definition KEY_LENGTH : nat := 24.

(** *** Bytes and bits *)

Definition byte_to_bits (b : byte) : DES.bits :=
  let '(b0, (b1, (b2, (b3, (b4, (b5, (b6, b7))))))) := Byte.to_bits b in
  [b7; b6; b5; b4; b3; b2; b1; b0].

Definition bytes_to_bits (l : bytes) : DES.bits := flat_map byte_to_bits l.

Fixpoint bits_to_bytes (l : DES.bits) : bytes :=
  match l with
  | b7 :: b6 :: b5 :: b4 :: b3 :: b2 :: b1 :: b0 :: rest =>
      Byte.of_bits (b0, (b1, (b2, (b3, (b4, (b5, (b6, b7))))))) :: bits_to_bytes rest
  | _ => []
  end.

(** *** Key derivation

    The configured secret is cut or zero-filled to exactly [KEY_LENGTH]
    bytes, which are the three 8-byte keys of the triple cipher. *)

Definition derive_key (key_material : bytes) : bytes :=
  take KEY_LENGTH (key_material ++ repeat x00%byte KEY_LENGTH).

Definition key1 (k : bytes) : DES.bits := bytes_to_bits (take 8 k).
Definition key2 (k : bytes) : DES.bits := bytes_to_bits (take 8 (drop 8 k)).
Definition key3 (k : bytes) : DES.bits := bytes_to_bits (take 8 (drop 16 k)).

(** *** The triple cipher on one 8-byte block (encrypt-decrypt-encrypt) *)

Definition triple_encrypt_block (k : bytes) (block : bytes) : bytes :=
  bits_to_bytes
    (DES.encrypt_block (key3 k)
       (DES.decrypt_block (key2 k)
          (DES.encrypt_block (key1 k) (bytes_to_bits block)))).

Definition triple_decrypt_block (k : bytes) (block : bytes) : bytes :=
  bits_to_bytes
    (DES.decrypt_block (key1 k)
       (DES.encrypt_block (key2 k)
          (DES.decrypt_block (key3 k) (bytes_to_bits block)))).

(** *** Block padding

    [n] bytes of value [n] are appended, [n] between 1 and [BLOCK], so that
    the padded length is a multiple of [BLOCK]; an aligned input gets a full
    block of padding. *)

Definition pad_byte (n : nat) : byte :=
  match Byte.of_nat n with Some b => b | None => x00%byte end.

Definition pad_length (len : nat) : nat := BLOCK - len mod BLOCK.

Definition pad (x : bytes) : bytes :=
  let n := pad_length (length x) in x ++ repeat (pad_byte n) n.

Definition unpad (y : bytes) : option bytes :=
  match last y with
  | None => None
  | Some v =>
      let n := Byte.to_nat v in
      if (1 <=? n) && (n <=? BLOCK) && (n <=? length y)
         && forallb (Byte.eqb v) (drop (length y - n) y)
      then Some (take (length y - n) y)
      else None
  end.

(** *** Block-by-block operation *)

Fixpoint blocks (l : bytes) : list bytes :=
  match l with
  | a :: b :: c :: d :: e :: f :: g :: h :: rest =>
      [a; b; c; d; e; f; g; h] :: blocks rest
  | _ => []
  end.

Definition map_blocks (f : bytes -> bytes) (l : bytes) : bytes :=
  concat (map f (blocks l)).

(** *** Text representation: two lower-case hexadecimal digits per byte *)

Definition hex_digit (n : N) : ascii :=
  ascii_of_N (if (n <? 10)%N then 48 + n else 87 + n)%N.

Definition hex_value (c : ascii) : option N :=
  let n := N_of_ascii c in
  if ((48 <=? n) && (n <=? 57))%N then Some (n - 48)%N
  else if ((97 <=? n) && (n <=? 102))%N then Some (n - 87)%N
  else if ((65 <=? n) && (n <=? 70))%N then Some (n - 55)%N
  else None.

Fixpoint encode (l : bytes) : string :=
  match l with
  | [] => EmptyString
  | b :: rest =>
      let n := Byte.to_N b in
      String (hex_digit (n / 16)) (String (hex_digit (n mod 16)) (encode rest))
  end.

Fixpoint decode (s : string) : option bytes :=
  match s with
  | EmptyString => Some []
  | String hi (String lo rest) =>
      match hex_value hi, hex_value lo, decode rest with
      | Some h, Some l, Some bs =>
          match Byte.of_N (16 * h + l) with
          | Some b => Some (b :: bs)
          | None => None
          end
      | _, _, _ => None
      end
  | String _ EmptyString => None
  end.

(** *** The codec *)

Inductive CodecError : Type :=
| BadText      (* the text is not a hexadecimal string *)
| BadLength    (* the ciphertext is not a whole number of blocks *)
| BadPadding.  (* the trailing padding bytes are not valid *)

(** Modelled from the spec: [encrypt] of the cipher codec in [tool] (the
    module is not among the sources): the plaintext is padded to whole
    8-byte blocks and every block goes through the triple cipher under the
    key derived from the key material. *)
Definition encrypt (plaintext key_material : bytes) : bytes :=
  map_blocks (triple_encrypt_block (derive_key key_material)) (pad plaintext).

(** Modelled from the spec: [decrypt] of the cipher codec in [tool] (the
    module is not among the sources): a ciphertext that is not a whole
    number of blocks, or whose trailing padding is invalid, is refused. *)
Definition decrypt (ciphertext key_material : bytes) : CodecError + bytes :=
  if negb (length ciphertext mod BLOCK =? 0) then inl BadLength
  else
    match unpad (map_blocks (triple_decrypt_block (derive_key key_material)) ciphertext) with
    | Some x => inr x
    | None => inl BadPadding
    end.

(** Modelled from the spec: the codec with the ciphertext in its text
    representation, as the transport carries it. *)
Definition encrypt_text (plaintext key_material : bytes) : string :=
  encode (encrypt plaintext key_material).

(** Modelled from the spec: decryption from the text representation; a
    text that is not hexadecimal is refused. *)
Definition decrypt_text (text : string) (key_material : bytes) : CodecError + bytes :=
  match decode text with
  | Some c => decrypt c key_material
  | None => inl BadText
  end.

End Codec.

(** ** Python values and exceptions *)

Module Py.

(** The values that travel through the client: request payloads, parsed
    responses. A [dict] keeps its entries in insertion order. *)
Inductive value : Type :=
| VNone
| VBool (b : bool)
| VInt (z : Z)
| VFloat (f : float)
| VStr (s : string)
| VList (l : list value)
| VDict (d : list (string * value)).

(** Truth value of an object in a condition. *)
Definition truthy (v : value) : bool :=
  match v with
  | VNone => false
  | VBool b => b
  | VInt z => negb (z =? 0)%Z
  | VFloat f => negb (PrimFloat.eqb f 0%float)
  | VStr s => negb (String.eqb s "")
  | VList l => match l with [] => false | _ => true end
  | VDict d => match d with [] => false | _ => true end
  end.

(** [type(v).__name__] *)
Definition type_name (v : value) : string :=
  match v with
  | VNone => "NoneType"
  | VBool _ => "bool"
  | VInt _ => "int"
  | VFloat _ => "float"
  | VStr _ => "str"
  | VList _ => "list"
  | VDict _ => "dict"
  end.

Fixpoint lookup_key (d : list (string * value)) (k : string) : option value :=
  match d with
  | [] => None
  | (k', v) :: rest => if String.eqb k' k then Some v else lookup_key rest k
  end.

(** The exception classes the client meets. The last six belong to
    [requests.exceptions]. *)
Inductive exc_class : Type :=
| Exception
| ValueError
| OverflowError
| AttributeError
| KeyError
| TypeError
| UnicodeDecodeError
| JSONDecodeError            (* json.JSONDecodeError *)
| RequestException
| HTTPError
| ConnectionError
| Timeout
| InvalidJSONError
| RequestsJSONDecodeError.   (* requests.exceptions.JSONDecodeError *)

Definition exc_class_eqb (a b : exc_class) : bool :=
  match a, b with
  | Exception, Exception | ValueError, ValueError
  | OverflowError, OverflowError | AttributeError, AttributeError
  | KeyError, KeyError | TypeError, TypeError
  | UnicodeDecodeError, UnicodeDecodeError | JSONDecodeError, JSONDecodeError
  | RequestException, RequestException | HTTPError, HTTPError
  | ConnectionError, ConnectionError | Timeout, Timeout
  | InvalidJSONError, InvalidJSONError
  | RequestsJSONDecodeError, RequestsJSONDecodeError => true
  | _, _ => false
  end.

(** The proper ancestors of a class (below [BaseException]). Since
    requests 2.27 the error raised by [Response.json] derives from both
    [InvalidJSONError] and [json.JSONDecodeError]. *)
Definition ancestors (c : exc_class) : list exc_class :=
  match c with
  | Exception => []
  | ValueError | OverflowError | AttributeError | KeyError | TypeError => [Exception]
  | UnicodeDecodeError | JSONDecodeError => [ValueError; Exception]
  | RequestException => [Exception]
  | HTTPError | ConnectionError | Timeout | InvalidJSONError =>
      [RequestException; Exception]
  | RequestsJSONDecodeError =>
      [InvalidJSONError; RequestException; JSONDecodeError; ValueError; Exception]
  end.

(** [except c as e] catches the instances of [c] and of its subclasses. *)
Definition is_instance (c target : exc_class) : bool :=
  exc_class_eqb c target || existsb (exc_class_eqb target) (ancestors c).

(** A raised exception: its class and [str(e)]. *)
Record exc : Type := Raise { exc_cls : exc_class; exc_str : string }.

(** [int(f)]: truncation towards zero; not defined on NaN and infinities. *)
Definition int_of_float (f : float) : exc + Z :=
  match Prim2SF f with
  | S754_zero _ => inr 0%Z
  | S754_finite s m e =>
      let magnitude := Z.shiftl (Z.pos m) e in
      inr (if s then (- magnitude)%Z else magnitude)
  | S754_infinity _ =>
      inl (Raise OverflowError "cannot convert float infinity to integer")
  | S754_nan =>
      inl (Raise ValueError "cannot convert float NaN to integer")
  end.

(** The greatest integer not above a finite float. *)
Definition floor_of_float (f : float) : option Z :=
  match Prim2SF f with
  | S754_zero _ => Some 0%Z
  | S754_finite s m e => Some (Z.shiftl (if s then Z.neg m else Z.pos m) e)
  | _ => None
  end.

(** [str(n)] for an integer: decimal digits, a minus sign when negative. *)
Definition str_of_int (z : Z) : string := NilZero.string_of_int (Z.to_int z).

End Py.

(** ** The transport client ([speedaf_api.py], class [SpeedAFAPI]) *)

Module Client.
Import Py.

Definition bytes := list byte.

(** *** What the client calls and does not define *)

(** The two functions imported from [tool]: [triple_des_encrypt(data,
    timeline)] signs and encrypts a payload and gives the request body;
    [triple_des_decrypt(data)] gives the plaintext bytes of a response. *)
Record Tool : Type := {
  triple_des_encrypt : value -> string -> string;
  triple_des_decrypt : value -> exc + bytes
}.

(** Built-ins of the language: [bytes.decode] (the message of the
    [UnicodeDecodeError] on the left), [json.loads] (the message of the
    [json.JSONDecodeError] on the left) and the text of a value in an
    f-string. *)
Record Runtime : Type := {
  bytes_decode : bytes -> string + string;
  json_loads : string -> string + value;
  py_repr : value -> string
}.

Inductive http_method : Type := GET | POST.

Record Request : Type := {
  req_method : http_method;
  req_url : string;
  req_data : string;
  req_headers : list (string * string)
}.

(** A response of [requests]: [resp_json] is what [response.json()] gives,
    a parsed value or the message of the decoding error. *)
Record Response : Type := {
  status_code : Z;
  reason : string;
  resp_url : string;
  resp_json : string + value
}.

(** The ways [requests.post] fails without a response. *)
Inductive failure : Type := ConnectionFailed | TimedOut.

Definition failure_class (f : failure) : exc_class :=
  match f with
  | ConnectionFailed => ConnectionError
  | TimedOut => Timeout
  end.

Inductive post_result : Type :=
| Responded (r : Response)
| Failed (f : failure) (message : string).

(** The world outside during one call: the clock and the carrier. *)
Record Outside : Type := {
  time_time : float;
  requests_post : Request -> post_result
}.

(** *** The client object and the record of what a call did *)

Record SpeedAFAPI : Type := {
  app_code : string;
  secret_key : string;
  base_url : string;
  headers : list (string * string)
}.

Inductive Event : Type :=
| EvEncrypt (data : value) (timeline : string)
| EvPost (r : Request)
| EvDecrypt (data : value).

Record State : Type := { self : SpeedAFAPI; trace : list Event }.

(** The requests sent, the payloads handed to encryption with their
    timestamp, and the texts handed to decryption, in order. *)
Definition posts (tr : list Event) : list Request :=
  omap (fun ev => match ev with EvPost r => Some r | _ => None end) tr.

Definition encrypts (tr : list Event) : list (value * string) :=
  omap (fun ev => match ev with EvEncrypt d t => Some (d, t) | _ => None end) tr.

Definition decrypts (tr : list Event) : list value :=
  omap (fun ev => match ev with EvDecrypt d => Some d | _ => None end) tr.

(** *** Computations that read the outside, change the state and may raise *)

Definition M (A : Type) : Type := Outside -> State -> (exc + A) * State.

#[export] Instance M_ret : MRet M := fun A a _ st => (inr a, st).

#[export] Instance M_bind : MBind M := fun A B f m out st =>
  match m out st with
  | (inr a, st') => f a out st'
  | (inl e, st') => (inl e, st')
  end.

Definition raise {A : Type} (e : exc) : M A := fun _ st => (inl e, st).

Definition lift {A : Type} (r : exc + A) : M A := fun _ st => (r, st).

(** [try: body  except ...: handler] *)
Definition try_except {A : Type} (body : M A) (handler : exc -> M A) : M A :=
  fun out st =>
    match body out st with
    | (inl e, st') => handler e out st'
    | r => r
    end.

Definition outside : M Outside := fun out st => (inr out, st).

Definition get_self : M SpeedAFAPI := fun _ st => (inr (self st), st).

Definition log (ev : Event) : M unit := fun _ st =>
  (inr tt, {| self := self st; trace := trace st ++ [ev] |}).

Definition SpeedAFAPI__init__ (app_code secret_key : string)
    (base_url : option string) : SpeedAFAPI :=
  {| app_code := app_code;
     secret_key := secret_key;
     base_url := default "https://uat-api.speedaf.com" base_url;
     headers := [("Content-Type", "text/plain")] |}.

Section Methods.
Variable tool : Tool.
Variable rt : Runtime.

Definition call_encrypt (data : value) (timeline : string) : M string :=
  _ ← log (EvEncrypt data timeline);
  mret (triple_des_encrypt tool data timeline).

Definition call_decrypt (data : value) : M bytes :=
  _ ← log (EvDecrypt data);
  lift (triple_des_decrypt tool data).

(** [requests.post(url, data=..., headers=...)] *)
Definition post (url data : string) (hdrs : list (string * string)) : M Response :=
  let req := {| req_method := POST; req_url := url;
                req_data := data; req_headers := hdrs |} in
  _ ← log (EvPost req);
  out ← outside;
  match requests_post out req with
  | Responded r => mret r
  | Failed f message => raise (Raise (failure_class f) message)
  end.

(** [response.raise_for_status()] *)
Definition http_error_msg (r : Response) : option string :=
  if ((400 <=? status_code r) && (status_code r <? 500))%Z then
    Some (str_of_int (status_code r) +:+ " Client Error: " +:+ reason r
          +:+ " for url: " +:+ resp_url r)
  else if ((500 <=? status_code r) && (status_code r <? 600))%Z then
    Some (str_of_int (status_code r) +:+ " Server Error: " +:+ reason r
          +:+ " for url: " +:+ resp_url r)
  else None.

Definition raise_for_status (r : Response) : M unit :=
  match http_error_msg r with
  | Some message => raise (Raise HTTPError message)
  | None => mret tt
  end.

(** [response.json()] *)
Definition response_json (r : Response) : M value :=
  match resp_json r with
  | inr v => mret v
  | inl message => raise (Raise RequestsJSONDecodeError message)
  end.

(** [result.get(key)]: only a [dict] has the method. *)
Definition py_get (result : value) (key : string) : M value :=
  match result with
  | VDict d => mret (default VNone (lookup_key d key))
  | _ => raise (Raise AttributeError
                    ("'" +:+ type_name result +:+ "' object has no attribute 'get'"))
  end.

(** [result[key]] for a key that is a text without quotes: the text of a
    [KeyError] is the [repr] of the key; the texts of the [TypeError] are
    those of CPython 3.11 and later. *)
Definition py_getitem (result : value) (key : string) : M value :=
  match result with
  | VDict d =>
      match lookup_key d key with
      | Some v => mret v
      | None => raise (Raise KeyError ("'" +:+ key +:+ "'"))
      end
  | VList _ =>
      raise (Raise TypeError "list indices must be integers or slices, not str")
  | VStr _ =>
      raise (Raise TypeError "string indices must be integers, not 'str'")
  | _ => raise (Raise TypeError
                  ("'" +:+ type_name result +:+ "' object is not subscriptable"))
  end.

Definition decode (b : bytes) : M string :=
  match bytes_decode rt b with
  | inr s => mret s
  | inl message => raise (Raise UnicodeDecodeError message)
  end.

Definition loads (s : string) : M value :=
  match json_loads rt s with
  | inr v => mret v
  | inl message => raise (Raise JSONDecodeError message)
  end.

(** The two [except] clauses of [_make_request], in their order. *)
Definition handler {A : Type} (e : exc) : M A :=
  if is_instance (exc_cls e) RequestException then
    raise (Raise Exception ("网络请求失败: " +:+ exc_str e))
  else if is_instance (exc_cls e) JSONDecodeError then
    raise (Raise Exception ("响应数据解析失败: " +:+ exc_str e))
  else raise e.

Definition _make_request (endpoint : string) (data : value) : M value :=
  out ← outside;
  ms ← lift (int_of_float ((time_time out + 0.5) * 1000)%float);
  let timeline := str_of_int ms in
  encrypted_data ← call_encrypt data timeline;
  api ← get_self;
  let url := base_url api +:+ endpoint +:+ "?appCode=" +:+ app_code api
             +:+ "&timestamp=" +:+ timeline in
  try_except
    (response ← post url encrypted_data (headers api);
     _ ← raise_for_status response;
     result ← response_json response;
     success ← py_get result "success";
     ok ← (if truthy success
           then d ← py_get result "data"; mret (truthy d)
           else mret false);
     if (ok : bool) then
       enc ← py_getitem result "data";
       decrypted_data ← call_decrypt enc;
       text ← decode decrypted_data;
       loads text
     else
       raise (Raise Exception ("API调用失败: " +:+ py_repr rt result)))
    handler.

Definition create_order (order_data : value) : M value :=
  let endpoint := "/open-api/express/order/createOrder" in
  _make_request endpoint order_data.

Definition query_track (mail_no_list : list string) : M value :=
  let endpoint := "/open-api/express/track/query" in
  let data := VDict [("mailNoList", VList (map VStr mail_no_list))] in
  _make_request endpoint data.

Definition cancel_order (customer_code bill_code : string)
    (cancel_reason : option string) : M value :=
  let cancel_reason := default "customer cancel" cancel_reason in
  let endpoint := "/open-api/express/order/cancelOrder" in
  let data := VList
    [ VDict [ ("customerCode", VStr customer_code);
              ("billCode", VStr bill_code);
              ("cancelReason", VStr cancel_reason) ] ] in
  _make_request endpoint data.

Definition update_order (order_data : value) : M value :=
  let endpoint := "/open-api/express/order/updateOrder" in
  let data := VList [order_data] in
  _make_request endpoint data.

(** The four operations of the client, as the service calls them, and a
    run of several of them, each against its own outside. *)
Inductive operation : Type :=
| CreateOrder (order_data : value)
| QueryTrack (mail_no_list : list string)
| CancelOrder (customer_code bill_code : string) (cancel_reason : option string)
| UpdateOrder (order_data : value).

Definition perform (op : operation) : M value :=
  match op with
  | CreateOrder order_data => create_order order_data
  | QueryTrack mail_no_list => query_track mail_no_list
  | CancelOrder customer_code bill_code cancel_reason =>
      cancel_order customer_code bill_code cancel_reason
  | UpdateOrder order_data => update_order order_data
  end.

Fixpoint perform_all (calls : list (operation * Outside)) (st : State) : State :=
  match calls with
  | [] => st
  | (op, out) :: rest => perform_all rest (snd (perform op out st))
  end.

End Methods.

End Client.

(** ** Start-up of the service ([main.py]) *)

Module Main.
Import Client.

(** [os.getenv(key, default)] over the process environment. *)
Definition getenv (environ : gmap string string) (key default_value : string) : string :=
  default default_value (environ !! key).

Definition APP_CODE (environ : gmap string string) : string :=
  getenv environ "SPEEDAF_APP_CODE" "11111111".
Definition SECRET_KEY (environ : gmap string string) : string :=
  getenv environ "SPEEDAF_SECRET_KEY" "uYMGr8eU".
Definition BASE_URL (environ : gmap string string) : string :=
  getenv environ "SPEEDAF_BASE_URL" "https://uat-api.speedaf.com".

(** The process-wide client. *)
Definition speedaf_api (environ : gmap string string) : SpeedAFAPI :=
  SpeedAFAPI__init__ (APP_CODE environ) (SECRET_KEY environ) (Some (BASE_URL environ)).

End Main.

(** ** One call, described: its timestamp, its request, the states it
    passes through *)

Module Call.
Import Py Client.

(** The timestamp of a call and the request it sends. *)
Definition timestamp (out : Outside) : exc + Z :=
  int_of_float ((time_time out + 0.5) * 1000)%float.

Definition request_of (tool : Tool) (api : SpeedAFAPI) (endpoint : string)
    (data : value) (z : Z) : Request :=
  {| req_method := POST;
     req_url := base_url api +:+ endpoint +:+ "?appCode=" +:+ app_code api
                +:+ "&timestamp=" +:+ str_of_int z;
     req_data := triple_des_encrypt tool data (str_of_int z);
     req_headers := headers api |}.

Definition sent (tool : Tool) (endpoint : string) (data : value) (z : Z)
    (st : State) : State :=
  {| self := self st;
     trace := trace st ++ [EvEncrypt data (str_of_int z);
                            EvPost (request_of tool (self st) endpoint data z)] |}.

(** What happens to a response that passed [raise_for_status] and parsed. *)
Definition on_result (tool : Tool) (rt : Runtime) (result : value) : M value :=
  try_except
    (success ← py_get result "success";
     ok ← (if truthy success
           then d ← py_get result "data"; mret (truthy d)
           else mret false);
     if (ok : bool) then
       enc ← py_getitem result "data";
       decrypted_data ← call_decrypt tool enc;
       text ← decode rt decrypted_data;
       loads rt text
     else
       raise (Raise Exception ("API调用失败: " +:+ py_repr rt result)))
    handler.

(** The state after the decryption of [enc] was attempted. *)
Definition decrypted (enc : value) (st : State) : State :=
  {| self := self st; trace := trace st ++ [EvDecrypt enc] |}.

(** The failures at the level of HTTP, with the text of their cause:
    no response at all, or a response [raise_for_status] refuses. *)
Definition http_failure (answer : post_result) : option string :=
  match answer with
  | Failed _ message => Some message
  | Responded r => http_error_msg r
  end.

(** A computation that leaves the client object as it found it. *)
Definition keeps_self {A : Type} (m : M A) : Prop :=
  forall out st, self (snd (m out st)) = self st.

(** The statuses of a response without a body: for 1xx, 204 and 304
    [http.client] and [urllib3] read a body of length zero, whatever the
    server sent, and [response.json()] fails on it. *)
Definition bodiless (status : Z) : bool :=
  ((100 <=? status) && (status <? 200) || (status =? 204) || (status =? 304))%Z.

(** A response as [requests.post] can return it. *)
Definition deliverable (r : Response) : bool :=
  if bodiless (status_code r)
  then match resp_json r with inl _ => true | inr _ => false end
  else true.

(** The failure on a status outside 200..299 as the specification states
    it: every such response makes the call fail with the exception of the
    network failure. *)
Definition non_2xx_fails_as_stated : Prop :=
  forall tool rt endpoint data out st z r,
    timestamp out = inr z ->
    requests_post out (request_of tool (self st) endpoint data z) = Responded r ->
    deliverable r = true ->
    ((status_code r <? 200) || (300 <=? status_code r))%Z = true ->
    exists cause,
      fst (_make_request tool rt endpoint data out st)
      = inl (Raise Exception ("网络请求失败: " +:+ cause)).

End Call.

(** ** Stand-ins for running the client on concrete inputs

    Simple versions of the functions the client calls and does not define,
    and a carrier that answers from a table. *)

Module Standins.
Import Py Client.

Definition key_material : Codec.bytes := list_byte_of_string "uYMGr8eU".

(** A text representation of values in the style of [repr]; floats are not
    rendered. *)
Fixpoint repr (v : value) : string :=
  match v with
  | VNone => "None"
  | VBool true => "True"
  | VBool false => "False"
  | VInt z => str_of_int z
  | VFloat _ => "<float>"
  | VStr s => "'" +:+ s +:+ "'"
  | VList l =>
      "[" +:+ (fix items (l : list value) : string :=
                 match l with
                 | [] => ""
                 | [x] => repr x
                 | x :: rest => repr x +:+ ", " +:+ items rest
                 end) l +:+ "]"
  | VDict d =>
      "{" +:+ (fix entries (d : list (string * value)) : string :=
                 match d with
                 | [] => ""
                 | [(k, x)] => "'" +:+ k +:+ "': " +:+ repr x
                 | (k, x) :: rest =>
                     "'" +:+ k +:+ "': " +:+ repr x +:+ ", " +:+ entries rest
                 end) d +:+ "}"
  end.

(** The request body is the codec's text of the timestamp followed by the
    payload's text; a response is decrypted by the codec. *)
Definition tool : Tool :=
  {| triple_des_encrypt := fun data timeline =>
       Codec.encrypt_text (list_byte_of_string (timeline +:+ repr data)) key_material;
     triple_des_decrypt := fun data =>
       match data with
       | VStr text =>
           match Codec.decrypt_text text key_material with
           | inr b => inr b
           | inl _ => inl (Raise ValueError "malformed ciphertext")
           end
       | _ => inl (Raise TypeError "expected str")
       end |}.

(** [json_loads] knows the empty object and the empty array only. *)
Definition rt : Runtime :=
  {| bytes_decode := fun b => inr (string_of_list_byte b);
     json_loads := fun s =>
       if String.eqb s "{}" then inr (VDict [])
       else if String.eqb s "[]" then inr (VList [])
       else inl "Expecting value: line 1 column 1 (char 0)";
     py_repr := repr |}.

Definition client : SpeedAFAPI :=
  SpeedAFAPI__init__ "11111111" "uYMGr8eU" None.

Definition start : State := {| self := client; trace := [] |}.

(** 2024-10-27 03:33:20.125 UTC, as [time.time()] reads it. *)
Definition now : float := 1730000000.125%float.

(** The ciphertext of the empty object, as the carrier would send it. *)
Definition empty_object_ciphertext : string :=
  Eval vm_compute in Codec.encrypt_text (list_byte_of_string "{}") key_material.

Definition envelope (success : bool) : value :=
  VDict [("success", VBool success); ("data", VStr empty_object_ciphertext)].

Definition response (status : Z) (phrase : string) (body : string + value) : Response :=
  {| status_code := status; reason := phrase;
     resp_url := "https://uat-api.speedaf.com"; resp_json := body |}.

Definition carrier (answer : post_result) : Outside :=
  {| time_time := now; requests_post := fun _ => answer |}.

End Standins.

(** ** The order builder ([speedaf_api.py], class [OrderBuilder])

    A builder owns a [dict], [order_data]; the setters write into it and
    [add_item] appends to the list stored under ["itemList"].  [build]
    returns a shallow copy, so the list is shared between the builder and
    the copies: dictionaries and lists live in a store, and a dictionary
    holds a list by reference. *)

Module Builder.
Import Py.

Abbreviation loc := positive.

(** What a dictionary of the builder holds under a key. *)
Inductive entry : Type :=
| Imm (v : value)    (* a string, a number, [None] *)
| Ref (l : loc).     (* a list object of the store *)

Definition dict := list (string * entry).

Inductive object : Type :=
| DictObj (d : dict)
| ListObj (items : list value).

Abbreviation heap := (gmap positive object).

Fixpoint dict_get (d : dict) (k : string) : option entry :=
  match d with
  | [] => None
  | (k', v) :: rest => if String.eqb k' k then Some v else dict_get rest k
  end.

(** [d[k] = v]: an existing key keeps its place, a new one goes last. *)
Fixpoint dict_set (d : dict) (k : string) (v : entry) : dict :=
  match d with
  | [] => [(k, v)]
  | (k', v') :: rest =>
      if String.eqb k' k then (k', v) :: rest else (k', v') :: dict_set rest k v
  end.

(** [d.update({...})] *)
Definition dict_update (d : dict) (kvs : list (string * entry)) : dict :=
  fold_left (fun acc kv => dict_set acc (fst kv) (snd kv)) kvs d.

(** Computations on the store that may raise. *)
Definition B (A : Type) : Type := heap -> (exc + A) * heap.

#[export] Instance B_ret : MRet B := fun A a h => (inr a, h).

#[export] Instance B_bind : MBind B := fun A B0 f m h =>
  match m h with
  | (inr a, h') => f a h'
  | (inl e, h') => (inl e, h')
  end.

Definition throw {A : Type} (e : exc) : B A := fun h => (inl e, h).

Definition alloc (o : object) : B loc := fun h =>
  let l := fresh (dom h) in (inr l, <[l := o]> h).

Definition store (l : loc) (o : object) : B unit := fun h =>
  (inr tt, <[l := o]> h).

Definition load_dict (l : loc) : B dict := fun h =>
  match h !! l with
  | Some (DictObj d) => (inr d, h)
  | _ => (inl (Raise TypeError "not a dict"), h)
  end.

Record OrderBuilder : Type := { order_data : loc }.

(** [self.order_data = {}] *)
Definition OrderBuilder__init__ : B OrderBuilder :=
  l ← alloc (DictObj []);
  mret {| order_data := l |}.

(** [self.order_data[k] = v] *)
Definition setitem (self : OrderBuilder) (k : string) (v : entry) : B unit :=
  d ← load_dict (order_data self);
  store (order_data self) (DictObj (dict_set d k v)).

(** [self.order_data.update({...})] *)
Definition update (self : OrderBuilder) (kvs : list (string * entry)) : B unit :=
  d ← load_dict (order_data self);
  store (order_data self) (DictObj (dict_update d kvs)).

(** [if x is not None: self.order_data[k] = x] *)
Definition setitem_if (self : OrderBuilder) (k : string) (v : option entry) : B unit :=
  match v with
  | Some e => setitem self k e
  | None => mret tt
  end.

Definition str (s : string) : entry := Imm (VStr s).
Definition str_or (d : string) (s : option string) : entry := Imm (VStr (default d s)).
(* a float parameter whose default is the integer literal [0] *)
Definition float_or_0 (f : option float) : entry :=
  Imm (match f with Some x => VFloat x | None => VInt 0 end).
Definition int_or (d : Z) (z : option Z) : entry := Imm (VInt (default d z)).

Definition set_custom_order_no (self : OrderBuilder) (custom_order_no : string)
    : B OrderBuilder :=
  _ ← setitem self "customOrderNo" (str custom_order_no);
  mret self.

Definition set_customer_code (self : OrderBuilder) (customer_code : string)
    : B OrderBuilder :=
  _ ← setitem self "customerCode" (str customer_code);
  mret self.

(** The optional parameters of [set_sender] and [set_receiver]; [None] is
    a parameter left out. *)
Record contact_options : Type := {
  company_name : option string;
  phone : option string;
  email : option string;
  province_code : option string;
  province_name : option string;
  city_code : option string;
  city_name : option string;
  district_code : option string;
  district_name : option string;
  post_code : option string
}.

Definition set_sender (self : OrderBuilder) (name mobile address : string)
    (country_code : option string) (o : contact_options) : B OrderBuilder :=
  _ ← update self
        [ ("sendName", str name);
          ("sendMobile", str mobile);
          ("sendAddress", str address);
          ("sendCountryCode", str_or "CN" country_code);
          ("sendCompanyName", str_or "" (company_name o));
          ("sendPhone", str_or "" (phone o));
          ("sendMail", str_or "" (email o));
          ("sendProvinceCode", str_or "" (province_code o));
          ("sendProvinceName", str_or "" (province_name o));
          ("sendCityCode", str_or "" (city_code o));
          ("sendCityName", str_or "" (city_name o));
          ("sendDistrictCode", str_or "" (district_code o));
          ("sendDistrictName", str_or "" (district_name o));
          ("sendPostCode", str_or "" (post_code o)) ];
  mret self.

Definition set_receiver (self : OrderBuilder) (name mobile address country_code : string)
    (o : contact_options) : B OrderBuilder :=
  _ ← update self
        [ ("acceptName", str name);
          ("acceptMobile", str mobile);
          ("acceptAddress", str address);
          ("acceptCountryCode", str country_code);
          ("acceptCompanyName", str_or "" (company_name o));
          ("acceptPhone", str_or "" (phone o));
          ("acceptEmail", str_or "" (email o));
          ("acceptProvinceCode", str_or "" (province_code o));
          ("acceptProvinceName", str_or "" (province_name o));
          ("acceptCityCode", str_or "" (city_code o));
          ("acceptCityName", str_or "" (city_name o));
          ("acceptDistrictCode", str_or "" (district_code o));
          ("acceptDistrictName", str_or "" (district_name o));
          ("acceptPostCode", str_or "" (post_code o)) ];
  mret self.

Definition set_parcel_info (self : OrderBuilder) (weight : float)
    (volume : option float) (length width height : option Z) (piece : option Z)
    : B OrderBuilder :=
  _ ← update self
        [ ("parcelWeight", Imm (VFloat weight));
          ("piece", int_or 1 piece) ];
  _ ← setitem_if self "parcelVolume" (Imm ∘ VFloat <$> volume);
  _ ← setitem_if self "parcelLength" (Imm ∘ VInt <$> length);
  _ ← setitem_if self "parcelWidth" (Imm ∘ VInt <$> width);
  _ ← setitem_if self "parcelHigh" (Imm ∘ VInt <$> height);
  mret self.

(** The parameters of [add_item]. *)
Record item_args : Type := {
  goods_name : string;
  goods_qty : Z;
  goods_value : float;
  goods_weight : float;
  goods_name_dialect : option string;
  goods_type : option string;
  battery : option Z;
  bl_insure : option Z;
  duty_money : option float;
  goods_id : option string;
  sku : option string;
  goods_material : option string;
  goods_remark : option string;
  goods_rule : option string;
  goods_unit_price : option float;
  make_country : option string;
  sale_path : option string;
  unit_ : option string;
  goods_length : option Z;
  goods_width : option Z;
  goods_height : option Z;
  goods_volume : option float
}.

Definition vstr_or (d : string) (s : option string) : value := VStr (default d s).
Definition vfloat_or_0 (f : option float) : value :=
  match f with Some x => VFloat x | None => VInt 0 end.

Definition optional (k : string) (v : option value) : list (string * value) :=
  match v with Some x => [(k, x)] | None => [] end.

(** The dictionary [add_item] builds for one item. *)
Definition make_item (a : item_args) : value :=
  VDict
    ([ ("goodsName", VStr (goods_name a));
       ("goodsNameDialect",
        VStr (let dialect := default "" (goods_name_dialect a) in
              if String.eqb dialect "" then goods_name a else dialect));
       ("goodsQTY", VInt (goods_qty a));
       ("goodsValue", VFloat (goods_value a));
       ("goodsWeight", VFloat (goods_weight a));
       ("goodsType", vstr_or "IT02" (goods_type a));
       ("battery", VInt (default 0%Z (battery a)));
       ("blInsure", VInt (default 0%Z (bl_insure a)));
       ("dutyMoney", vfloat_or_0 (duty_money a));
       ("goodsId", vstr_or "" (goods_id a));
       ("sku", vstr_or "" (sku a));
       ("goodsMaterial", vstr_or "" (goods_material a));
       ("goodsRemark", vstr_or "" (goods_remark a));
       ("goodsRule", vstr_or "" (goods_rule a));
       ("goodsUnitPrice", vfloat_or_0 (goods_unit_price a));
       ("makeCountry", vstr_or "" (make_country a));
       ("salePath", vstr_or "" (sale_path a));
       ("unit", vstr_or "" (unit_ a)) ]
     ++ optional "goodsLength" (VInt <$> goods_length a)
     ++ optional "goodsWidth" (VInt <$> goods_width a)
     ++ optional "goodsHigh" (VInt <$> goods_height a)
     ++ optional "goodsVolume" (VFloat <$> goods_volume a)).

(** [self.order_data["itemList"].append(item)] *)
Definition append_item (self : OrderBuilder) (item : value) : B unit :=
  d ← load_dict (order_data self);
  match dict_get d "itemList" with
  | None => throw (Raise KeyError "itemList")
  | Some (Imm _) => throw (Raise AttributeError "object has no attribute 'append'")
  | Some (Ref l) => fun h =>
      match h !! l with
      | Some (ListObj items) => (inr tt, <[l := ListObj (items ++ [item])]> h)
      | _ => (inl (Raise AttributeError "object has no attribute 'append'"), h)
      end
  end.

Definition add_item (self : OrderBuilder) (a : item_args) : B OrderBuilder :=
  d ← load_dict (order_data self);
  _ ← match dict_get d "itemList" with
      | None =>
          l ← alloc (ListObj []);
          setitem self "itemList" (Ref l)
      | Some _ => mret tt
      end;
  _ ← append_item self (make_item a);
  mret self.

(** The parameters of [set_service_options]. *)
Record service_args : Type := {
  delivery_type : option string;
  pay_method : option string;
  parcel_type : option string;
  ship_type : option string;
  transport_type : option string;
  platform_source : option string;
  cod_fee : option float;
  insure_price : option float;
  shipping_fee : option float;
  remark : option string
}.

Definition set_service_options (self : OrderBuilder) (o : service_args)
    : B OrderBuilder :=
  _ ← update self
        [ ("deliveryType", str_or "DE01" (delivery_type o));
          ("payMethod", str_or "PA01" (pay_method o));
          ("parcelType", str_or "PT01" (parcel_type o));
          ("shipType", str_or "ST01" (ship_type o));
          ("transportType", str_or "TT01" (transport_type o));
          ("platformSource", str_or "TEST22" (platform_source o));
          ("codFee", float_or_0 (cod_fee o));
          ("insurePrice", float_or_0 (insure_price o));
          ("shippingFee", float_or_0 (shipping_fee o));
          ("remark", str_or "" (remark o)) ];
  mret self.

(** [item["goodsQTY"]] *)
Definition item_qty (item : value) : exc + Z :=
  match item with
  | VDict kvs =>
      match lookup_key kvs "goodsQTY" with
      | Some (VInt q) => inr q
      | Some _ => inl (Raise TypeError "unsupported operand type(s) for +")
      | None => inl (Raise KeyError "goodsQTY")
      end
  | _ => inl (Raise TypeError "object is not subscriptable")
  end.

(** [sum(item["goodsQTY"] for item in items)]; the quantities are the
    [int]s [add_item] declares, the sum of other numbers is not modelled. *)
Fixpoint sum_qty (acc : Z) (items : list value) : exc + Z :=
  match items with
  | [] => inr acc
  | item :: rest =>
      match item_qty item with
      | inr q => sum_qty (acc + q) rest
      | inl e => inl e
      end
  end.

(** The list under ["itemList"], when the key is there and the list is
    not empty. *)
Definition items_to_count (self : OrderBuilder) : B (option (list value)) :=
  d ← load_dict (order_data self);
  match dict_get d "itemList" with
  | None => mret None
  | Some (Imm (VList [])) => mret None
  | Some (Imm (VList items)) => mret (Some items)
  | Some (Imm v) =>
      if truthy v then throw (Raise TypeError "object is not iterable")
      else mret None
  | Some (Ref l) => fun h =>
      match h !! l with
      | Some (ListObj []) => (inr None, h)
      | Some (ListObj items) => (inr (Some items), h)
      | _ => (inl (Raise TypeError "not a list"), h)
      end
  end.

Definition build (self : OrderBuilder) : B loc :=
  counted ← items_to_count self;
  _ ← match counted with
      | Some items =>
          match sum_qty 0 items with
          | inr total_qty => setitem self "goodsQTY" (Imm (VInt total_qty))
          | inl e => throw e
          end
      | None => mret tt
      end;
  d ← load_dict (order_data self);
  alloc (DictObj d).

(** The calls a user of the builder makes, and a run of several of them. *)
Inductive call : Type :=
| SetCustomOrderNo (custom_order_no : string)
| SetCustomerCode (customer_code : string)
| SetSender (name mobile address : string) (country_code : option string)
    (o : contact_options)
| SetReceiver (name mobile address country_code : string) (o : contact_options)
| SetParcelInfo (weight : float) (volume : option float)
    (length width height : option Z) (piece : option Z)
| AddItem (a : item_args)
| SetServiceOptions (o : service_args)
| Build.

Definition perform (self : OrderBuilder) (c : call) : B unit :=
  match c with
  | SetCustomOrderNo s => _ ← set_custom_order_no self s; mret tt
  | SetCustomerCode s => _ ← set_customer_code self s; mret tt
  | SetSender n m a c o => _ ← set_sender self n m a c o; mret tt
  | SetReceiver n m a c o => _ ← set_receiver self n m a c o; mret tt
  | SetParcelInfo w v l wd ht p => _ ← set_parcel_info self w v l wd ht p; mret tt
  | AddItem a => _ ← add_item self a; mret tt
  | SetServiceOptions o => _ ← set_service_options self o; mret tt
  | Build => _ ← build self; mret tt
  end.

Fixpoint perform_all (self : OrderBuilder) (calls : list call) : B unit :=
  match calls with
  | [] => mret tt
  | c :: rest => _ ← perform self c; perform_all self rest
  end.

(** The items [add_item] was called with, in order. *)
Definition added (calls : list call) : list item_args :=
  omap (fun c => match c with AddItem a => Some a | _ => None end) calls.

(** The list a builder holds under ["itemList"]. *)
Definition item_list (self : OrderBuilder) (h : heap) : option (list value) :=
  match h !! order_data self with
  | Some (DictObj d) =>
      match dict_get d "itemList" with
      | Some (Ref l) =>
          match h !! l with
          | Some (ListObj items) => Some items
          | _ => None
          end
      | _ => None
      end
  | _ => None
  end.

(** The state of a builder on which [add_item] ran for [items], within a
    store whose part [frame] the builder does not own: its dictionary is
    in the store, and the list under ["itemList"], once there, holds the
    dictionaries of [items]. *)
Definition inv (self : OrderBuilder) (items : list item_args) (frame h : heap) : Prop :=
  frame ⊆ h /\ frame !! order_data self = None /\
  exists d,
    h !! order_data self = Some (DictObj d) /\
    match dict_get d "itemList" with
    | None => items = []
    | Some (Ref l) =>
        frame !! l = None /\ h !! l = Some (ListObj (make_item <$> items))
    | Some (Imm _) => False
    end.

(** The builder's dictionary holds [v] under [k]. *)
Definition holds (self : OrderBuilder) (k : string) (v : entry) (h : heap) : Prop :=
  exists d, h !! order_data self = Some (DictObj d) /\ dict_get d k = Some v.

(** The sum of the quantities [add_item] was given. *)
Definition total (items : list item_args) : Z :=
  foldr Z.add 0%Z (goods_qty <$> items).

(** [m] started in a store where [P] holds returns without raising, in a
    store where [Q] holds of its result. *)
Definition ok {A : Type} (P : heap -> Prop) (m : B A) (Q : A -> heap -> Prop) : Prop :=
  forall h, P h -> exists a h', m h = (inr a, h') /\ Q a h'.

End Builder.

(** ** A sample order for running the builder *)

Module Sample.
Import Py Builder.

Definition plain_item (name : string) (qty : Z) (value weight : float) : item_args :=
  {| goods_name := name; goods_qty := qty;
     goods_value := value; goods_weight := weight;
     goods_name_dialect := None; goods_type := None; battery := None;
     bl_insure := None; duty_money := None; goods_id := None; sku := None;
     goods_material := None; goods_remark := None; goods_rule := None;
     goods_unit_price := None; make_country := None; sale_path := None;
     unit_ := None; goods_length := None; goods_width := None;
     goods_height := None; goods_volume := None |}.

Definition calls : list call :=
  [ SetCustomerCode "MA000027";
    AddItem (plain_item "shirt" 2 190 1.5);
    AddItem (plain_item "shoes" 3 45 0.75) ].

(** A builder made in the empty store, after [calls]. *)
Definition builder : OrderBuilder :=
  {| order_data := fresh (dom (∅ : gmap positive object)) |}.

Definition store0 : gmap positive object :=
  snd (OrderBuilder__init__ ∅).

Definition store1 : gmap positive object :=
  snd (perform_all builder calls store0).

End Sample.

(** ** Further concrete cases for running the client *)

Module Cases.
Import Py Client.

(** The ciphertext of a text that is not JSON. *)
Definition not_json_ciphertext : string :=
  Eval vm_compute in
    Codec.encrypt_text (list_byte_of_string "oops") Standins.key_material.

(** A runtime whose [bytes.decode] refuses every input. *)
Definition strict_rt : Runtime :=
  {| bytes_decode := fun _ => inl "'utf-8' codec can't decode byte";
     json_loads := json_loads Standins.rt;
     py_repr := py_repr Standins.rt |}.

Definition accepted (data : value) : value :=
  VDict [("success", VBool true); ("data", data)].

Definition ok_response (body : string + value) : Response :=
  Standins.response 200 "OK" body.

Definition answering (body : string + value) : Outside :=
  Standins.carrier (Responded (ok_response body)).

End Cases.

(** ** The keys a call of the builder writes *)

Module BuilderKeys.
Import Py Builder.

(** The builder's dictionary, and what it holds under a key. *)
Definition data (self : OrderBuilder) (h : heap) : option dict :=
  match h !! order_data self with
  | Some (DictObj d) => Some d
  | _ => None
  end.

Definition entry_of (self : OrderBuilder) (h : heap) (k : string) : option entry :=
  match data self h with
  | Some d => dict_get d k
  | None => None
  end.

Definition given {A : Type} (k : string) (x : option A) : list string :=
  match x with Some _ => [k] | None => [] end.

(** The keys of [order_data] a call assigns: the literal keys of its
    [update], and the keys under an [if ... is not None]. *)
Definition written (c : call) : list string :=
  match c with
  | SetCustomOrderNo _ => ["customOrderNo"]
  | SetCustomerCode _ => ["customerCode"]
  | SetSender _ _ _ _ _ =>
      [ "sendName"; "sendMobile"; "sendAddress"; "sendCountryCode";
        "sendCompanyName"; "sendPhone"; "sendMail"; "sendProvinceCode";
        "sendProvinceName"; "sendCityCode"; "sendCityName";
        "sendDistrictCode"; "sendDistrictName"; "sendPostCode" ]
  | SetReceiver _ _ _ _ _ =>
      [ "acceptName"; "acceptMobile"; "acceptAddress"; "acceptCountryCode";
        "acceptCompanyName"; "acceptPhone"; "acceptEmail"; "acceptProvinceCode";
        "acceptProvinceName"; "acceptCityCode"; "acceptCityName";
        "acceptDistrictCode"; "acceptDistrictName"; "acceptPostCode" ]
  | SetParcelInfo _ volume length width height _ =>
      [ "parcelWeight"; "piece" ]
      ++ given "parcelVolume" volume ++ given "parcelLength" length
      ++ given "parcelWidth" width ++ given "parcelHigh" height
  | AddItem _ => ["itemList"]
  | SetServiceOptions _ =>
      [ "deliveryType"; "payMethod"; "parcelType"; "shipType";
        "transportType"; "platformSource"; "codFee"; "insurePrice";
        "shippingFee"; "remark" ]
  | Build => ["goodsQTY"]
  end.

(** [d'] differs from [d] at keys of [ks] only, and has every key of [d]. *)
Definition changes_only (ks : list string) (d d' : dict) : Prop :=
  (forall k, k ∉ ks -> dict_get d' k = dict_get d k)
  /\ (forall k, is_Some (dict_get d k) -> is_Some (dict_get d' k)).

(** The builder's invariant with its dictionary named. *)
Definition at_dict (self : OrderBuilder) (items : list item_args) (frame : heap)
    (d : dict) (h : heap) : Prop :=
  inv self items frame h /\ data self h = Some d.

(** A store reached from [d] by writing keys of [ks] only. *)
Definition moved (self : OrderBuilder) (items : list item_args) (frame : heap)
    (ks : list string) (d : dict) (h : heap) : Prop :=
  exists d', at_dict self items frame d' h /\ changes_only ks d d'.

(** The dictionary after [build] ran on [d] with [items] in the list. *)
Definition counted (items : list item_args) (d : dict) : dict :=
  match items with
  | [] => d
  | _ => dict_set d "goodsQTY" (Imm (VInt (total items)))
  end.

(** What one call does to the dictionary. *)
Definition effect (c : call) (items : list item_args) (d d' : dict) : Prop :=
  changes_only (written c) d d'
  /\ match c with
     | SetCustomerCode s => dict_get d' "customerCode" = Some (Imm (VStr s))
     | AddItem _ => is_Some (dict_get d "itemList") -> d' = d
     | Build => d' = counted items d
     | _ => True
     end.

(** The argument of the last [set_customer_code] among the calls. *)
Definition last_customer_code (calls : list call) : option string :=
  last (omap (fun c => match c with SetCustomerCode s => Some s | _ => None end) calls).

End BuilderKeys.

(** ** The endpoints of the service ([main.py])

    An endpoint takes a validated request, calls the process-wide client
    and answers with a body, or raises [HTTPException]. *)

Module Service.
Import Py Client.

Record HTTPException : Type := { exc_status : Z; exc_detail : string }.

(** An endpoint: like a call of the client, ending in a body or in an
    [HTTPException]. *)
Definition Endpoint : Type := Outside -> State -> (HTTPException + value) * State.

(** The frame of every endpoint:
    [try: result = ...; return {"success": True, "data": result, "message": ...}]
    [except Exception as e: raise HTTPException(status_code=500, detail=str(e))];
    every class of [exc_class] derives from [Exception]. *)
Definition guarded (message : string) (call : M value) : Endpoint :=
  fun out st =>
    match call out st with
    | (inr result, st') =>
        (inr (VDict [ ("success", VBool true);
                      ("data", result);
                      ("message", VStr message) ]), st')
    | (inl e, st') =>
        (inl {| exc_status := 500; exc_detail := exc_str e |}, st')
    end.

(** The request models, after validation.  A field declared [Optional]
    holds [None] when the request gives [null] (or gives nothing and the
    default is [None]). *)
Record SenderInfo : Type := {
  sender_name : string;
  sender_mobile : string;
  sender_address : string;
  sender_country_code : string;
  sender_company_name : option string;
  sender_phone : option string;
  sender_email : option string
}.

Record ReceiverInfo : Type := {
  receiver_name : string;
  receiver_mobile : string;
  receiver_address : string;
  receiver_country_code : string;
  receiver_company_name : option string;
  receiver_phone : option string;
  receiver_email : option string
}.

Record ParcelInfo : Type := {
  parcel_weight : float;
  parcel_volume : option float;
  parcel_length : option Z;
  parcel_width : option Z;
  parcel_height : option Z;
  parcel_piece : Z
}.

Record ItemInfo : Type := {
  item_goods_name : string;
  item_goods_qty : Z;
  item_goods_value : float;
  item_goods_weight : float;
  item_goods_name_dialect : option string;
  item_goods_type : string;
  item_sku : option string
}.

Record ServiceOptions : Type := {
  service_delivery_type : string;
  service_pay_method : string;
  service_parcel_type : string;
  service_remark : option string
}.

Record TrackQueryRequest : Type := { mail_no_list : list string }.

Record CancelOrderRequest : Type := {
  cancel_customer_code : string;
  cancel_bill_code : string;
  cancel_reason : string
}.

Record UpdateOrderRequest : Type := {
  update_bill_code : string;
  update_customer_code : string;
  update_custom_order_no : option string;
  update_sender : option SenderInfo;
  update_receiver : option ReceiverInfo;
  update_parcel : option ParcelInfo;
  update_items : option (list ItemInfo);
  update_service : option ServiceOptions
}.

(** [POST /api/track/query] *)
Definition query_track (tool : Tool) (rt : Runtime) (request : TrackQueryRequest)
    : Endpoint :=
  guarded "查询成功" (Client.query_track tool rt (mail_no_list request)).

(** [POST /api/order/cancel] *)
Definition cancel_order (tool : Tool) (rt : Runtime) (request : CancelOrderRequest)
    : Endpoint :=
  guarded "取消请求已提交"
    (Client.cancel_order tool rt (cancel_customer_code request)
       (cancel_bill_code request) (Some (cancel_reason request))).

(** Assignment to a key of a local [dict], and [dict.update]. *)
Fixpoint set_key (d : list (string * value)) (k : string) (v : value)
    : list (string * value) :=
  match d with
  | [] => [(k, v)]
  | (k', v') :: rest =>
      if String.eqb k' k then (k', v) :: rest else (k', v') :: set_key rest k v
  end.

Definition update_keys (d kvs : list (string * value)) : list (string * value) :=
  fold_left (fun acc kv => set_key acc (fst kv) (snd kv)) kvs d.

(** A field that may hold [None]. *)
Definition text_or_none (s : option string) : value :=
  match s with Some x => VStr x | None => VNone end.

Definition nonempty (s : option string) : bool :=
  match s with Some x => negb (String.eqb x "") | None => false end.

Definition nonzero (f : option float) : bool :=
  match f with Some x => truthy (VFloat x) | None => false end.

(** The dictionary [update_order] builds from the fields the request
    gives. *)
Definition update_data (request : UpdateOrderRequest) : list (string * value) :=
  let d := [ ("billCode", VStr (update_bill_code request));
             ("customerCode", VStr (update_customer_code request)) ] in
  let d := if nonempty (update_custom_order_no request)
           then set_key d "customOrderNo"
                  (text_or_none (update_custom_order_no request))
           else d in
  let d := match update_sender request with
           | Some s =>
               update_keys d
                 [ ("sendName", VStr (sender_name s));
                   ("sendMobile", VStr (sender_mobile s));
                   ("sendAddress", VStr (sender_address s));
                   ("sendCountryCode", VStr (sender_country_code s)) ]
           | None => d
           end in
  let d := match update_receiver request with
           | Some r =>
               update_keys d
                 [ ("acceptName", VStr (receiver_name r));
                   ("acceptMobile", VStr (receiver_mobile r));
                   ("acceptAddress", VStr (receiver_address r));
                   ("acceptCountryCode", VStr (receiver_country_code r)) ]
           | None => d
           end in
  let d := match update_parcel request with
           | Some p =>
               let d := set_key d "parcelWeight" (VFloat (parcel_weight p)) in
               match parcel_volume p with
               | Some v => if nonzero (Some v)
                           then set_key d "parcelVolume" (VFloat v) else d
               | None => d
               end
           | None => d
           end in
  let d := match update_items request with
           | Some (i :: items) =>
               set_key d "itemList"
                 (VList
                    (map (fun item =>
                            VDict [ ("goodsName", VStr (item_goods_name item));
                                    ("goodsQTY", VInt (item_goods_qty item));
                                    ("goodsValue", VFloat (item_goods_value item));
                                    ("goodsWeight", VFloat (item_goods_weight item)) ])
                         (i :: items)))
           | _ => d
           end in
  match update_service request with
  | Some s => set_key d "remark" (text_or_none (service_remark s))
  | None => d
  end.

(** [POST /api/order/update] *)
Definition update_order (tool : Tool) (rt : Runtime) (request : UpdateOrderRequest)
    : Endpoint :=
  guarded "订单更新成功" (Client.update_order tool rt (VDict (update_data request))).

End Service.

(** ** The endpoint that creates an order ([main.py], [create_order])

    The endpoint fills an [OrderBuilder] from the request, builds the order
    and hands it to the client: it works on the store of the builder and on
    the state of the client. *)

Module ServiceCreate.
Import Py Client Builder Service.

Record CreateOrderRequest : Type := {
  create_custom_order_no : string;
  create_customer_code : string;
  create_sender : SenderInfo;
  create_receiver : ReceiverInfo;
  create_parcel : ParcelInfo;
  create_items : list ItemInfo;
  create_service : option ServiceOptions
}.

Definition text_entry (s : option string) : entry := Imm (text_or_none s).

(** The dictionary literal of [set_sender] on the arguments the endpoint
    gives ([name] ... [email]); the other parameters take their defaults,
    and a field of the request that is [None] is stored as [None]. *)
Definition sender_entries (s : SenderInfo) : list (string * entry) :=
  [ ("sendName", str (sender_name s));
    ("sendMobile", str (sender_mobile s));
    ("sendAddress", str (sender_address s));
    ("sendCountryCode", str (sender_country_code s));
    ("sendCompanyName", text_entry (sender_company_name s));
    ("sendPhone", text_entry (sender_phone s));
    ("sendMail", text_entry (sender_email s));
    ("sendProvinceCode", str "");
    ("sendProvinceName", str "");
    ("sendCityCode", str "");
    ("sendCityName", str "");
    ("sendDistrictCode", str "");
    ("sendDistrictName", str "");
    ("sendPostCode", str "") ].

(** [builder.set_sender(name=..., ..., email=...)] *)
Definition set_sender_of (self : OrderBuilder) (s : SenderInfo) : B OrderBuilder :=
  _ ← update self (sender_entries s);
  mret self.

(** The dictionary literal of [set_receiver], likewise. *)
Definition receiver_entries (r : ReceiverInfo) : list (string * entry) :=
  [ ("acceptName", str (receiver_name r));
    ("acceptMobile", str (receiver_mobile r));
    ("acceptAddress", str (receiver_address r));
    ("acceptCountryCode", str (receiver_country_code r));
    ("acceptCompanyName", text_entry (receiver_company_name r));
    ("acceptPhone", text_entry (receiver_phone r));
    ("acceptEmail", text_entry (receiver_email r));
    ("acceptProvinceCode", str "");
    ("acceptProvinceName", str "");
    ("acceptCityCode", str "");
    ("acceptCityName", str "");
    ("acceptDistrictCode", str "");
    ("acceptDistrictName", str "");
    ("acceptPostCode", str "") ].

(** [builder.set_receiver(name=..., ..., email=...)] *)
Definition set_receiver_of (self : OrderBuilder) (r : ReceiverInfo) : B OrderBuilder :=
  _ ← update self (receiver_entries r);
  mret self.

(** The dictionary [add_item] makes on the arguments the endpoint gives
    ([goods_name] ... [sku]); a [sku] that is [None] is stored as [None]. *)
Definition item_of (i : ItemInfo) : value :=
  VDict
    [ ("goodsName", VStr (item_goods_name i));
      ("goodsNameDialect",
       VStr (match item_goods_name_dialect i with
             | Some dialect =>
                 if String.eqb dialect "" then item_goods_name i else dialect
             | None => item_goods_name i
             end));
      ("goodsQTY", VInt (item_goods_qty i));
      ("goodsValue", VFloat (item_goods_value i));
      ("goodsWeight", VFloat (item_goods_weight i));
      ("goodsType", VStr (item_goods_type i));
      ("battery", VInt 0);
      ("blInsure", VInt 0);
      ("dutyMoney", VInt 0);
      ("goodsId", VStr "");
      ("sku", text_or_none (item_sku i));
      ("goodsMaterial", VStr "");
      ("goodsRemark", VStr "");
      ("goodsRule", VStr "");
      ("goodsUnitPrice", VInt 0);
      ("makeCountry", VStr "");
      ("salePath", VStr "");
      ("unit", VStr "") ].

(** The body of [add_item] once the item's dictionary is made. *)
Definition add_item_value (self : OrderBuilder) (item : value) : B OrderBuilder :=
  d ← load_dict (order_data self);
  _ ← match dict_get d "itemList" with
      | None =>
          l ← alloc (ListObj []);
          setitem self "itemList" (Ref l)
      | Some _ => mret tt
      end;
  _ ← append_item self item;
  mret self.

(** [for item in request.items: builder.add_item(...)] *)
Fixpoint add_items (self : OrderBuilder) (items : list ItemInfo) : B unit :=
  match items with
  | [] => mret tt
  | i :: rest => _ ← add_item_value self (item_of i); add_items self rest
  end.

(** The dictionary literal of [set_service_options]: on the four
    arguments the endpoint gives when the request has a service part, on
    the defaults otherwise. *)
Definition service_entries (s : option ServiceOptions) : list (string * entry) :=
  match s with
  | Some o =>
      [ ("deliveryType", str (service_delivery_type o));
        ("payMethod", str (service_pay_method o));
        ("parcelType", str (service_parcel_type o));
        ("shipType", str "ST01");
        ("transportType", str "TT01");
        ("platformSource", str "TEST22");
        ("codFee", Imm (VInt 0));
        ("insurePrice", Imm (VInt 0));
        ("shippingFee", Imm (VInt 0));
        ("remark", text_entry (service_remark o)) ]
  | None =>
      [ ("deliveryType", str "DE01");
        ("payMethod", str "PA01");
        ("parcelType", str "PT01");
        ("shipType", str "ST01");
        ("transportType", str "TT01");
        ("platformSource", str "TEST22");
        ("codFee", Imm (VInt 0));
        ("insurePrice", Imm (VInt 0));
        ("shippingFee", Imm (VInt 0));
        ("remark", str "") ]
  end.

(** [if request.service: builder.set_service_options(delivery_type=...,
    pay_method=..., parcel_type=..., remark=...)]
    [else: builder.set_service_options()] *)
Definition set_service_options_of (self : OrderBuilder) (s : option ServiceOptions)
    : B OrderBuilder :=
  _ ← update self (service_entries s);
  mret self.

(** The builder part of the endpoint, up to [builder.build()]. *)
Definition order_of (request : CreateOrderRequest) : B loc :=
  builder ← OrderBuilder__init__;
  _ ← set_custom_order_no builder (create_custom_order_no request);
  _ ← set_customer_code builder (create_customer_code request);
  _ ← set_sender_of builder (create_sender request);
  _ ← set_receiver_of builder (create_receiver request);
  _ ← set_parcel_info builder
        (parcel_weight (create_parcel request))
        (parcel_volume (create_parcel request))
        (parcel_length (create_parcel request))
        (parcel_width (create_parcel request))
        (parcel_height (create_parcel request))
        (Some (parcel_piece (create_parcel request)));
  _ ← add_items builder (create_items request);
  _ ← set_service_options_of builder (create_service request);
  build builder.

(** The value a dictionary of the store stands for when it is handed to
    the client: a reference is followed to its list.  The builder stores
    lists only, so a reference to anything else does not occur. *)
Definition entry_value (h : heap) (e : entry) : value :=
  match e with
  | Imm v => v
  | Ref l =>
      match h !! l with
      | Some (ListObj items) => VList items
      | _ => VNone
      end
  end.

Definition snapshot (h : heap) (r : loc) : value :=
  match h !! r with
  | Some (DictObj d) => VDict (map (fun kv => (fst kv, entry_value h (snd kv))) d)
  | _ => VNone
  end.

(** [POST /api/order/create] *)
Definition create_order (tool : Tool) (rt : Runtime) (request : CreateOrderRequest)
    (out : Outside) (w : heap * State)
    : (HTTPException + value) * (heap * State) :=
  match order_of request (fst w) with
  | (inl e, h') =>
      (inl {| exc_status := 500; exc_detail := exc_str e |}, (h', snd w))
  | (inr order_data, h') =>
      let '(answer, st') :=
        guarded "订单创建成功"
          (Client.create_order tool rt (snapshot h' order_data)) out (snd w) in
      (answer, (h', st'))
  end.

(** The sum of the quantities of the request's items. *)
Definition quantity (items : list ItemInfo) : Z :=
  foldr Z.add 0%Z (item_goods_qty <$> items).

(** The builder's dictionary is [d], and the list under its ["itemList"],
    once there, holds [items]. *)
Definition own (self : OrderBuilder) (d : dict) (items : list value) (h : heap)
    : Prop :=
  h !! order_data self = Some (DictObj d) /\
  match dict_get d "itemList" with
  | None => items = []
  | Some (Ref l) => l <> order_data self /\ h !! l = Some (ListObj items)
  | Some (Imm _) => False
  end.

(** [d'] has what [d] has under every key but ["itemList"]. *)
Definition same_but_items (d d' : dict) : Prop :=
  forall k, k <> "itemList" -> dict_get d' k = dict_get d k.

Definition set_if (d : dict) (k : string) (v : option entry) : dict :=
  match v with Some e => dict_set d k e | None => d end.

(** The dictionary after the setters the endpoint chains. *)
Definition header (request : CreateOrderRequest) : dict :=
  let d := dict_set [] "customOrderNo" (str (create_custom_order_no request)) in
  let d := dict_set d "customerCode" (str (create_customer_code request)) in
  let d := dict_update d (sender_entries (create_sender request)) in
  let d := dict_update d (receiver_entries (create_receiver request)) in
  let p := create_parcel request in
  let d := dict_update d [ ("parcelWeight", Imm (VFloat (parcel_weight p)));
                           ("piece", Imm (VInt (parcel_piece p))) ] in
  let d := set_if d "parcelVolume" (Imm ∘ VFloat <$> parcel_volume p) in
  let d := set_if d "parcelLength" (Imm ∘ VInt <$> parcel_length p) in
  let d := set_if d "parcelWidth" (Imm ∘ VInt <$> parcel_width p) in
  set_if d "parcelHigh" (Imm ∘ VInt <$> parcel_height p).

(** The dictionary without the items: the header and the service
    entries. *)
Definition plain (request : CreateOrderRequest) : dict :=
  dict_update (header request) (service_entries (create_service request)).

(** What [build] adds when the list has items. *)
Definition with_total (items : list ItemInfo) (d : dict) : dict :=
  match items with
  | [] => d
  | _ => dict_set d "goodsQTY" (Imm (VInt (quantity items)))
  end.

(** A sample request. *)
Definition sample_request : CreateOrderRequest :=
  {| create_custom_order_no := "189795601";
     create_customer_code := "MA000027";
     create_sender :=
       {| sender_name := "Zhang San"; sender_mobile := "13800138000";
          sender_address := "Beijing"; sender_country_code := "CN";
          sender_company_name := None; sender_phone := Some "";
          sender_email := Some "" |};
     create_receiver :=
       {| receiver_name := "John Doe"; receiver_mobile := "1778922222";
          receiver_address := "Lagos"; receiver_country_code := "NG";
          receiver_company_name := Some ""; receiver_phone := Some "";
          receiver_email := None |};
     create_parcel :=
       {| parcel_weight := 2.5%float; parcel_volume := Some 1.5%float;
          parcel_length := None; parcel_width := None; parcel_height := None;
          parcel_piece := 1%Z |};
     create_items :=
       [ {| item_goods_name := "shirt"; item_goods_qty := 2%Z;
            item_goods_value := 190%float; item_goods_weight := 1.5%float;
            item_goods_name_dialect := Some ""; item_goods_type := "IT02";
            item_sku := Some "" |};
         {| item_goods_name := "shoes"; item_goods_qty := 3%Z;
            item_goods_value := 45%float; item_goods_weight := 0.75%float;
            item_goods_name_dialect := None; item_goods_type := "IT02";
            item_sku := Some "S-1" |} ];
     create_service := None |}.

(** The same request without items. *)
Definition sample_without_items : CreateOrderRequest :=
  {| create_custom_order_no := create_custom_order_no sample_request;
     create_customer_code := create_customer_code sample_request;
     create_sender := create_sender sample_request;
     create_receiver := create_receiver sample_request;
     create_parcel := create_parcel sample_request;
     create_items := [];
     create_service :=
       Some {| service_delivery_type := "DE01"; service_pay_method := "PA01";
               service_parcel_type := "PT01"; service_remark := None |} |}.

End ServiceCreate.

(** * The block cipher: decryption inverts encryption *)

Module DESFacts.
Import DES.

(* Turn [H : length b = n], for a literal [n], into [b = [x1; ...; xn]]. *)
Ltac peel H b :=
  repeat match type of H with
  | length b = S _ =>
      destruct b as [| ? b]; [discriminate H | simpl in H; apply Nat.succ_inj in H]
  end;
  apply length_zero_iff_nil in H; subst b.

Lemma permute_length tbl b : length (permute tbl b) = length tbl.
Proof. unfold permute. apply length_map. Qed.

Lemma FP_IP b : length b = 64 -> permute FP (permute IP b) = b.
Proof. intros H. peel H b. reflexivity. Qed.

Lemma IP_FP b : length b = 64 -> permute IP (permute FP b) = b.
Proof. intros H. peel H b. reflexivity. Qed.

Lemma xor_bits_length a : forall b,
  length (xor_bits a b) = Nat.min (length a) (length b).
Proof.
  induction a as [| x a IH]; intros [| y b]; simpl; try reflexivity.
  now rewrite IH.
Qed.

Lemma xor_bits_cancel a : forall f,
  length a <= length f -> xor_bits (xor_bits a f) f = a.
Proof.
  induction a as [| x a IH]; intros [| y f] H; simpl in *; try reflexivity; try lia.
  rewrite IH by lia. now destruct x, y.
Qed.

Lemma feistel_f_length r k : length (feistel_f r k) = 32.
Proof. unfold feistel_f. now rewrite permute_length. Qed.

Lemma round_halves lr k : halves_ok lr -> halves_ok (round lr k).
Proof.
  intros [Hl Hr]. split; simpl; [exact Hr |].
  rewrite xor_bits_length, feistel_f_length, Hl. reflexivity.
Qed.

Lemma round_undo lr k : halves_ok lr -> round (swap (round lr k)) k = swap lr.
Proof.
  intros [Hl Hr]. destruct lr as [l r]. unfold round, swap. simpl in *.
  rewrite xor_bits_cancel; [reflexivity |].
  rewrite feistel_f_length. lia.
Qed.

Lemma rounds_halves ks : forall lr,
  halves_ok lr -> halves_ok (fold_left round ks lr).
Proof.
  induction ks as [| k ks IH]; intros lr H; simpl; [exact H |].
  apply IH, round_halves, H.
Qed.

Lemma rounds_undo ks : forall lr,
  halves_ok lr ->
  fold_left round (rev ks) (swap (fold_left round ks lr)) = swap lr.
Proof.
  induction ks as [| k ks IH]; intros lr H; simpl; [reflexivity |].
  rewrite fold_left_app. simpl.
  rewrite IH by (apply round_halves, H).
  apply round_undo, H.
Qed.

Lemma crypt_length ks b : length (crypt ks b) = 64.
Proof. unfold crypt. now rewrite permute_length. Qed.

Lemma crypt_undo ks b : length b = 64 -> crypt (rev ks) (crypt ks b) = b.
Proof.
  intros Hb. unfold crypt.
  set (ip := permute IP b).
  assert (Hip : length ip = 64) by (unfold ip; now rewrite permute_length).
  set (lr0 := (firstn 32 ip, skipn 32 ip)).
  assert (H0 : halves_ok lr0).
  { split; unfold lr0; cbn [fst snd]; [rewrite length_firstn | rewrite length_skipn]; lia. }
  pose proof (rounds_halves ks lr0 H0) as [Hl Hr].
  set (lr := fold_left round ks lr0) in *.
  rewrite IP_FP by (rewrite length_app; lia).
  rewrite (take_app_length' (snd lr) (fst lr) 32 (eq_sym Hr)).
  rewrite (drop_app_length' (snd lr) (fst lr) 32 (eq_sym Hr)).
  change (snd lr, fst lr) with (swap lr).
  unfold lr. rewrite rounds_undo by exact H0.
  unfold lr0, swap. cbn [fst snd]. rewrite firstn_skipn.
  apply FP_IP, Hb.
Qed.

Lemma decrypt_encrypt_block key b :
  length b = 64 -> decrypt_block key (encrypt_block key b) = b.
Proof. intros H. unfold decrypt_block, encrypt_block. now apply crypt_undo. Qed.

Lemma encrypt_decrypt_block key b :
  length b = 64 -> encrypt_block key (decrypt_block key b) = b.
Proof.
  intros H. unfold decrypt_block, encrypt_block.
  rewrite <- (rev_involutive (subkeys key)) at 1. now apply crypt_undo.
Qed.

(** The worked example of the standard: key 133457799BBCDFF1, block
    0123456789ABCDEF, cipher block 85E813540F0AB405. *)
Example known_answer :
  encrypt_block
    (Codec.bytes_to_bits [x13; x34; x57; x79; x9b; xbc; xdf; xf1]%byte)
    (Codec.bytes_to_bits [x01; x23; x45; x67; x89; xab; xcd; xef]%byte)
  = Codec.bytes_to_bits [x85; xe8; x13; x54; x0f; x0a; xb4; x05]%byte.
Proof. vm_compute. reflexivity. Qed.

End DESFacts.

(** * The codec: padding, blocks and text, each with its inverse *)

Module CodecFacts.
Import Codec.

Lemma byte_to_bits_of_bits b0 b1 b2 b3 b4 b5 b6 b7 :
  byte_to_bits (Byte.of_bits (b0, (b1, (b2, (b3, (b4, (b5, (b6, b7))))))))
  = [b7; b6; b5; b4; b3; b2; b1; b0].
Proof. unfold byte_to_bits. now rewrite Byte.to_bits_of_bits. Qed.

Lemma bits_of_byte_to_bits b rest :
  bits_to_bytes (byte_to_bits b ++ rest) = b :: bits_to_bytes rest.
Proof.
  unfold byte_to_bits.
  pose proof (Byte.of_bits_to_bits b) as H.
  destruct (Byte.to_bits b) as [b0 [b1 [b2 [b3 [b4 [b5 [b6 b7]]]]]]].
  cbn [app bits_to_bytes]. now rewrite H.
Qed.

Lemma bits_to_bytes_to_bits l : bits_to_bytes (bytes_to_bits l) = l.
Proof.
  induction l as [| b l IH]; [reflexivity |].
  unfold bytes_to_bits in *. cbn [flat_map].
  now rewrite bits_of_byte_to_bits, IH.
Qed.

Lemma byte_to_bits_length b : length (byte_to_bits b) = 8.
Proof.
  unfold byte_to_bits.
  now destruct (Byte.to_bits b) as [b0 [b1 [b2 [b3 [b4 [b5 [b6 b7]]]]]]].
Qed.

Lemma bytes_to_bits_length l : length (bytes_to_bits l) = 8 * length l.
Proof.
  induction l as [| b l IH]; [reflexivity |].
  unfold bytes_to_bits in *. cbn [flat_map length].
  rewrite length_app, byte_to_bits_length, IH. lia.
Qed.

Lemma bytes_to_bits_to_bytes b :
  length b = 64 -> bytes_to_bits (bits_to_bytes b) = b.
Proof.
  intros H. DESFacts.peel H b.
  unfold bytes_to_bits. cbn [bits_to_bytes flat_map].
  now rewrite !byte_to_bits_of_bits.
Qed.

Lemma bits_to_bytes_length b : length b = 64 -> length (bits_to_bytes b) = 8.
Proof. intros H. DESFacts.peel H b. reflexivity. Qed.

(** One block through the triple cipher and back. *)
Lemma triple_encrypt_block_length k blk : length (triple_encrypt_block k blk) = 8.
Proof. apply bits_to_bytes_length, DESFacts.crypt_length. Qed.

Lemma triple_decrypt_encrypt_block k blk :
  length blk = 8 -> triple_decrypt_block k (triple_encrypt_block k blk) = blk.
Proof.
  intros H. unfold triple_decrypt_block, triple_encrypt_block.
  assert (Hb : length (bytes_to_bits blk) = 64)
    by (rewrite bytes_to_bits_length, H; reflexivity).
  rewrite bytes_to_bits_to_bytes by apply DESFacts.crypt_length.
  rewrite DESFacts.decrypt_encrypt_block by apply DESFacts.crypt_length.
  rewrite DESFacts.encrypt_decrypt_block by apply DESFacts.crypt_length.
  rewrite DESFacts.decrypt_encrypt_block by exact Hb.
  apply bits_to_bytes_to_bits.
Qed.

(** Block-by-block operation, for any pair of inverse block functions. *)
Section Blocks.
Variables f g : bytes -> bytes.
Hypothesis f_length : forall blk, length (f blk) = BLOCK.
Hypothesis g_f : forall blk, length blk = BLOCK -> g (f blk) = blk.

Lemma blocks_app blk rest :
  length blk = BLOCK -> blocks (blk ++ rest) = blk :: blocks rest.
Proof. intros H. unfold BLOCK in H. DESFacts.peel H blk. reflexivity. Qed.

Lemma aligned_ind (P : bytes -> Prop) :
  P [] ->
  (forall blk rest, length blk = BLOCK -> P rest -> P (blk ++ rest)) ->
  forall l, length l mod BLOCK = 0 -> P l.
Proof.
  intros Hnil Hstep l.
  remember (length l) as n eqn:Hn. revert l Hn.
  induction n as [n IH] using lt_wf_ind. intros l Hn Hmod.
  destruct (Nat.eq_dec n 0) as [-> | Hpos].
  - symmetry in Hn. apply length_zero_iff_nil in Hn. now subst.
  - assert (Hge : BLOCK <= n).
    { unfold BLOCK in *. pose proof (Nat.div_mod_eq n 8). lia. }
    rewrite <- (firstn_skipn BLOCK l).
    apply Hstep.
    + rewrite length_firstn. lia.
    + apply (IH (n - BLOCK)).
      * unfold BLOCK in *. lia.
      * rewrite length_skipn. lia.
      * unfold BLOCK in *.
        pose proof (Nat.div_mod_eq n 8). pose proof (Nat.div_mod_eq (n - 8) 8).
        pose proof (Nat.mod_upper_bound (n - 8) 8). lia.
Qed.

Lemma map_blocks_app (h : bytes -> bytes) blk rest :
  length blk = BLOCK -> map_blocks h (blk ++ rest) = h blk ++ map_blocks h rest.
Proof. intros H. unfold map_blocks. now rewrite blocks_app. Qed.

Lemma map_blocks_length l :
  length l mod BLOCK = 0 -> length (map_blocks f l) = length l.
Proof.
  revert l. apply aligned_ind; [reflexivity |].
  intros blk rest Hb IH.
  rewrite map_blocks_app by exact Hb.
  rewrite !length_app, f_length, IH, Hb. reflexivity.
Qed.

Lemma map_blocks_undo l :
  length l mod BLOCK = 0 -> map_blocks g (map_blocks f l) = l.
Proof.
  revert l. apply aligned_ind; [reflexivity |].
  intros blk rest Hb IH.
  rewrite map_blocks_app by exact Hb.
  rewrite map_blocks_app by apply f_length.
  now rewrite g_f, IH.
Qed.
End Blocks.

(** Padding. *)
Lemma pad_length_range len : 1 <= pad_length len <= BLOCK.
Proof.
  unfold pad_length, BLOCK. pose proof (Nat.mod_upper_bound len 8). lia.
Qed.

Lemma pad_aligned x : length (pad x) mod BLOCK = 0.
Proof.
  unfold pad. rewrite length_app, repeat_length.
  unfold pad_length, BLOCK.
  pose proof (Nat.div_mod_eq (length x) 8) as Hd.
  pose proof (Nat.mod_upper_bound (length x) 8) as Hu.
  replace (length x + (8 - length x mod 8)) with ((length x / 8 + 1) * 8) by lia.
  apply Nat.Div0.mod_mul.
Qed.

Lemma to_nat_pad_byte n : n <= BLOCK -> Byte.to_nat (pad_byte n) = n.
Proof.
  unfold BLOCK. intros H.
  do 9 (destruct n as [| n]; [reflexivity |]). lia.
Qed.

Lemma forallb_eqb_repeat v n : forallb (Byte.eqb v) (repeat v n) = true.
Proof.
  induction n as [| n IH]; [reflexivity |].
  cbn [repeat forallb]. rewrite IH, andb_true_r.
  apply Byte.byte_dec_lb. reflexivity.
Qed.

Lemma unpad_pad x : unpad (pad x) = Some x.
Proof.
  unfold pad, unpad.
  pose proof (pad_length_range (length x)) as [Hlo Hhi].
  set (n := pad_length (length x)) in *.
  assert (Hlast : last (x ++ repeat (pad_byte n) n) = Some (pad_byte n)).
  { destruct n as [| m]; [lia |].
    cbn [repeat]. rewrite repeat_cons, app_assoc. apply last_snoc. }
  rewrite Hlast, to_nat_pad_byte by exact Hhi.
  rewrite length_app, repeat_length.
  replace (length x + n - n) with (length x) by lia.
  rewrite drop_app_length, take_app_length, forallb_eqb_repeat.
  replace (1 <=? n) with true by (symmetry; apply Nat.leb_le; lia).
  replace (n <=? BLOCK) with true by (symmetry; apply Nat.leb_le; lia).
  replace (n <=? length x + n) with true by (symmetry; apply Nat.leb_le; lia).
  reflexivity.
Qed.

(** Text representation. *)
Lemma decode_byte b rest :
  decode (encode (b :: rest))
  = match decode (encode rest) with Some bs => Some (b :: bs) | None => None end.
Proof.
  cbn [encode decode].
  destruct b; vm_compute hex_value; cbv iota beta;
    destruct (decode (encode rest)); reflexivity.
Qed.

Lemma decode_encode l : decode (encode l) = Some l.
Proof.
  induction l as [| b l IH]; [reflexivity |].
  now rewrite decode_byte, IH.
Qed.

(** The codec on small inputs. *)
Example encrypt_empty :
  encrypt_text [] Standins.key_material = "149c030c0670a98f"%string
  /\ decrypt_text "149c030c0670a98f" Standins.key_material = inr [].
Proof. split; vm_compute; reflexivity. Qed.

Example decrypt_partial_block :
  decrypt [x00; x01; x02]%byte Standins.key_material = inl BadLength.
Proof. reflexivity. Qed.

Example decrypt_bad_padding :
  decrypt_text "0011223344556677" Standins.key_material = inl BadPadding.
Proof. vm_compute. reflexivity. Qed.

Example decrypt_bad_text :
  decrypt_text "xyz" Standins.key_material = inl BadText.
Proof. reflexivity. Qed.

End CodecFacts.

(** * The transport client: one call, step by step *)

Module ClientFacts.
Import Py Client Call.

Lemma posts_app tr1 tr2 : posts (tr1 ++ tr2) = posts tr1 ++ posts tr2.
Proof. apply omap_app. Qed.

Lemma encrypts_app tr1 tr2 : encrypts (tr1 ++ tr2) = encrypts tr1 ++ encrypts tr2.
Proof. apply omap_app. Qed.

Lemma decrypts_app tr1 tr2 : decrypts (tr1 ++ tr2) = decrypts tr1 ++ decrypts tr2.
Proof. apply omap_app. Qed.

Ltac unfold_m :=
  unfold mbind, M_bind, mret, M_ret, lift, raise, try_except, outside,
    get_self, log in *.

Lemma make_request_unfold tool rt endpoint data out st z :
  timestamp out = inr z ->
  _make_request tool rt endpoint data out st =
  let st1 := sent tool endpoint data z st in
  match requests_post out (request_of tool (self st) endpoint data z) with
  | Failed f message =>
      (inl (Raise Exception ("网络请求失败: " +:+ message)), st1)
  | Responded r =>
      match http_error_msg r with
      | Some message =>
          (inl (Raise Exception ("网络请求失败: " +:+ message)), st1)
      | None =>
          match resp_json r with
          | inl message =>
              (inl (Raise Exception ("网络请求失败: " +:+ message)), st1)
          | inr result => on_result tool rt result out st1
          end
      end
  end.
Proof.
  unfold timestamp. intros Hz.
  unfold _make_request, on_result, call_encrypt, post, raise_for_status,
    response_json, sent, request_of.
  unfold_m. rewrite Hz. cbn.
  rewrite <- app_assoc. cbn.
  destruct (requests_post out _) as [r | f message].
  - destruct (http_error_msg r) as [message |]; [reflexivity |].
    destruct (resp_json r) as [message | result]; reflexivity.
  - destruct f; reflexivity.
Qed.

(** The three ways a parsed response ends. *)
Lemma on_result_rejected tool rt d out st :
  truthy (default VNone (lookup_key d "success"))
  && truthy (default VNone (lookup_key d "data")) = false ->
  on_result tool rt (VDict d) out st
  = (inl (Raise Exception ("API调用失败: " +:+ py_repr rt (VDict d))), st).
Proof.
  intros H. unfold on_result, py_get. unfold_m.
  destruct (truthy (default VNone (lookup_key d "success"))); cbn in H |- *.
  - now rewrite H.
  - reflexivity.
Qed.

Lemma truthy_lookup d key :
  truthy (default VNone (lookup_key d key)) = true ->
  exists v, lookup_key d key = Some v /\ truthy v = true.
Proof.
  destruct (lookup_key d key) as [v |]; cbn; [eauto | discriminate].
Qed.

Lemma on_result_accepted tool rt d enc out st :
  truthy (default VNone (lookup_key d "success")) = true ->
  lookup_key d "data" = Some enc ->
  truthy enc = true ->
  on_result tool rt (VDict d) out st
  = match triple_des_decrypt tool enc with
    | inl e => handler e out (decrypted enc st)
    | inr b =>
        match bytes_decode rt b with
        | inl message => (inl (Raise UnicodeDecodeError message), decrypted enc st)
        | inr text =>
            match json_loads rt text with
            | inl message =>
                (inl (Raise Exception ("响应数据解析失败: " +:+ message)),
                 decrypted enc st)
            | inr j => (inr j, decrypted enc st)
            end
        end
    end.
Proof.
  intros Hs Hd He.
  unfold on_result, py_get, py_getitem, call_decrypt, decode, loads, decrypted.
  unfold_m. rewrite Hs, Hd. cbn. rewrite He.
  destruct (triple_des_decrypt tool enc) as [e | b]; [reflexivity |].
  destruct (bytes_decode rt b) as [message | text]; [reflexivity |].
  destruct (json_loads rt text) as [message | j]; reflexivity.
Qed.

(** After the request is sent, the only event a call can add is one
    decryption. *)
Lemma handler_state {A : Type} (e : exc) out st :
  snd (handler (A := A) e out st) = st.
Proof.
  unfold handler, raise.
  destruct (is_instance _ RequestException); [reflexivity |].
  destruct (is_instance _ JSONDecodeError); reflexivity.
Qed.

Lemma on_result_state tool rt result out st :
  snd (on_result tool rt result out st) = st
  \/ exists enc, snd (on_result tool rt result out st) = decrypted enc st.
Proof.
  destruct result as [| b | z | f | s | l | d];
    try (left; reflexivity).
  destruct (truthy (default VNone (lookup_key d "success"))
            && truthy (default VNone (lookup_key d "data"))) eqn:Hok.
  - apply andb_true_iff in Hok as [Hs Hd].
    destruct (truthy_lookup _ _ Hd) as (enc & Hlk & He).
    right. exists enc.
    rewrite (on_result_accepted tool rt d enc out st Hs Hlk He).
    destruct (triple_des_decrypt tool enc) as [e | b]; [apply handler_state |].
    destruct (bytes_decode rt b) as [message | text]; [reflexivity |].
    destruct (json_loads rt text); reflexivity.
  - left. now rewrite on_result_rejected.
Qed.

Lemma make_request_state tool rt endpoint data out st z :
  timestamp out = inr z ->
  snd (_make_request tool rt endpoint data out st) = sent tool endpoint data z st
  \/ exists enc,
      snd (_make_request tool rt endpoint data out st)
      = decrypted enc (sent tool endpoint data z st).
Proof.
  intros Hz. rewrite (make_request_unfold _ _ _ _ _ _ _ Hz). cbv zeta.
  destruct (requests_post out _) as [r | f message]; [| now left].
  destruct (http_error_msg r); [now left |].
  destruct (resp_json r) as [message | result]; [now left |].
  apply on_result_state.
Qed.

Lemma make_request_posts tool rt endpoint data out st z :
  timestamp out = inr z ->
  posts (trace (snd (_make_request tool rt endpoint data out st)))
  = posts (trace st) ++ [request_of tool (self st) endpoint data z].
Proof.
  intros Hz.
  destruct (make_request_state tool rt endpoint data out st z Hz) as [-> | [enc ->]];
    cbn [decrypted sent trace]; rewrite ?posts_app; cbn; now rewrite ?app_nil_r.
Qed.

Lemma make_request_encrypts tool rt endpoint data out st z :
  timestamp out = inr z ->
  encrypts (trace (snd (_make_request tool rt endpoint data out st)))
  = encrypts (trace st) ++ [(data, str_of_int z)].
Proof.
  intros Hz.
  destruct (make_request_state tool rt endpoint data out st z Hz) as [-> | [enc ->]];
    cbn [decrypted sent trace]; rewrite ?encrypts_app; cbn; now rewrite ?app_nil_r.
Qed.

(** No step of a call assigns to the client object. *)
Lemma keeps_ret {A : Type} (a : A) : keeps_self (mret a).
Proof. now intros out st. Qed.

Lemma keeps_raise {A : Type} (e : exc) : keeps_self (raise (A := A) e).
Proof. now intros out st. Qed.

Lemma keeps_lift {A : Type} (r : exc + A) : keeps_self (lift r).
Proof. now intros out st. Qed.

Lemma keeps_outside : keeps_self outside.
Proof. now intros out st. Qed.

Lemma keeps_get_self : keeps_self get_self.
Proof. now intros out st. Qed.

Lemma keeps_log ev : keeps_self (log ev).
Proof. now intros out st. Qed.

Lemma keeps_bind {A B : Type} (m : M A) (f : A -> M B) :
  keeps_self m -> (forall a, keeps_self (f a)) -> keeps_self (m ≫= f).
Proof.
  intros Hm Hf out st. unfold mbind, M_bind.
  specialize (Hm out st).
  destruct (m out st) as [[e | a] st']; cbn in *; [exact Hm |].
  now rewrite Hf.
Qed.

Lemma keeps_try {A : Type} (body : M A) (h : exc -> M A) :
  keeps_self body -> (forall e, keeps_self (h e)) -> keeps_self (try_except body h).
Proof.
  intros Hm Hh out st. unfold try_except.
  specialize (Hm out st).
  destruct (body out st) as [[e | a] st']; cbn in *; [| exact Hm].
  now rewrite Hh.
Qed.

Lemma keeps_handler {A : Type} (e : exc) : keeps_self (handler (A := A) e).
Proof.
  unfold handler.
  destruct (is_instance _ RequestException); [apply keeps_raise |].
  destruct (is_instance _ JSONDecodeError); apply keeps_raise.
Qed.

Create HintDb keeps.

#[local] Hint Resolve keeps_ret keeps_raise keeps_lift keeps_outside
  keeps_get_self keeps_log keeps_handler : keeps.

Ltac keeps :=
  repeat first
    [ apply keeps_bind; [| intros ?]
    | apply keeps_try; [| intros ?]
    | progress eauto with keeps
    | match goal with
      | |- keeps_self (match ?x with _ => _ end) => destruct x
      | |- keeps_self (if ?x then _ else _) => destruct x
      end ].

Lemma keeps_make_request tool rt endpoint data :
  keeps_self (_make_request tool rt endpoint data).
Proof.
  unfold _make_request, call_encrypt, call_decrypt, post, raise_for_status,
    response_json, py_get, py_getitem, decode, loads.
  keeps.
Qed.

Lemma keeps_perform tool rt op : keeps_self (perform tool rt op).
Proof.
  destruct op; cbn; unfold create_order, query_track, cancel_order, update_order;
    apply keeps_make_request.
Qed.

(** [int] and the floor agree on the floats that are not negative. *)
Lemma int_of_float_floor f z :
  floor_of_float f = Some z -> (0 <= z)%Z -> int_of_float f = inr z.
Proof.
  unfold floor_of_float, int_of_float.
  destruct (Prim2SF f) as [s | s | | s m e]; try discriminate.
  - now intros [= <-] _.
  - intros [= <-] Hz. destruct s; [| reflexivity].
    apply Z.shiftl_nonneg in Hz. lia.
Qed.

(** The arithmetic is that of binary64 floats: for the float nearest to
    1.001 the product rounds up to 1501.0, one more than the floor of the
    exact product. *)
Example timestamp_rounding :
  int_of_float ((0x1.004189374bc6ap+0 + 0.5) * 1000)%float = inr 1501%Z.
Proof. vm_compute. reflexivity. Qed.

Example timestamp_of_nan :
  int_of_float nan = inl (Raise ValueError "cannot convert float NaN to integer").
Proof. vm_compute. reflexivity. Qed.

(** Which [except] clause catches what. *)
Example json_error_of_requests_is_request_exception :
  is_instance RequestsJSONDecodeError RequestException = true
  /\ is_instance RequestsJSONDecodeError JSONDecodeError = true
  /\ is_instance JSONDecodeError RequestException = false
  /\ is_instance Exception RequestException = false
  /\ is_instance Exception JSONDecodeError = false.
Proof. repeat split. Qed.

End ClientFacts.

(** * The order builder: what each call does to the store *)

Module BuilderFacts.
Import Py Builder.

(** Dictionaries. *)
Lemma dict_get_set_eq d k v : dict_get (dict_set d k v) k = Some v.
Proof.
  induction d as [| [k' v'] d IH]; cbn.
  - now rewrite String.eqb_refl.
  - destruct (String.eqb k' k) eqn:E; cbn; rewrite E; [reflexivity | exact IH].
Qed.

Lemma dict_get_set_ne d k k' v :
  k <> k' -> dict_get (dict_set d k v) k' = dict_get d k'.
Proof.
  intros Hne. induction d as [| [k0 v0] d IH]; cbn.
  - apply String.eqb_neq in Hne. now rewrite Hne.
  - destruct (String.eqb k0 k) eqn:E; cbn.
    + apply String.eqb_eq in E. subst k0.
      apply String.eqb_neq in Hne. now rewrite Hne.
    + now rewrite IH.
Qed.

Lemma dict_get_update_ne kvs k' : forall d,
  Forall (fun kv => fst kv <> k') kvs ->
  dict_get (dict_update d kvs) k' = dict_get d k'.
Proof.
  unfold dict_update.
  induction kvs as [| [k v] kvs IH]; intros d H; [reflexivity |].
  inversion H as [| ? ? Hk Hrest]; subst. cbn [fold_left fst snd].
  rewrite IH by exact Hrest. now apply dict_get_set_ne.
Qed.

(** Rules for [ok]. *)
Lemma ok_ret {A : Type} (P : heap -> Prop) (a : A) (Q : A -> heap -> Prop) :
  (forall h, P h -> Q a h) -> ok P (mret a) Q.
Proof. intros H h HP. exists a, h. split; [reflexivity | now apply H]. Qed.

Lemma ok_bind {A C : Type} (P : heap -> Prop) (m : B A) (R : A -> heap -> Prop)
    (f : A -> B C) (Q : C -> heap -> Prop) :
  ok P m R -> (forall a, ok (R a) (f a) Q) -> ok P (m ≫= f) Q.
Proof.
  intros Hm Hf h HP.
  destruct (Hm h HP) as (a & h' & Em & HR).
  destruct (Hf a h' HR) as (c & h'' & Ef & HQ).
  exists c, h''. split; [| exact HQ].
  unfold mbind, B_bind. now rewrite Em.
Qed.

Lemma ok_post {A : Type} (P : heap -> Prop) (m : B A) (Q Q' : A -> heap -> Prop) :
  ok P m Q -> (forall a h, Q a h -> Q' a h) -> ok P m Q'.
Proof.
  intros Hm HQ h HP. destruct (Hm h HP) as (a & h' & Em & Hq).
  exists a, h'. split; [exact Em | now apply HQ].
Qed.

(** Writing one key other than ["itemList"] into the builder's dictionary. *)
Lemma inv_store self items frame h d d' :
  inv self items frame h ->
  h !! order_data self = Some (DictObj d) ->
  dict_get d' "itemList" = dict_get d "itemList" ->
  inv self items frame (<[order_data self := DictObj d']> h).
Proof.
  intros (Hsub & Hself & d0 & Hd0 & Hitems) Hd Hsame.
  rewrite Hd in Hd0. injection Hd0 as <-.
  split; [| split; [exact Hself |]].
  - now apply insert_subseteq_r.
  - exists d'. split; [apply lookup_insert_eq |].
    rewrite Hsame.
    destruct (dict_get d "itemList") as [[v | l] |]; try exact Hitems.
    destruct Hitems as [Hl Hlist]. split; [exact Hl |].
    rewrite lookup_insert_ne; [exact Hlist |].
    intros <-. rewrite Hd in Hlist. discriminate Hlist.
Qed.

Lemma ok_setitem self items frame k v :
  k <> "itemList" ->
  ok (inv self items frame) (setitem self k v) (fun _ => inv self items frame).
Proof.
  intros Hk h Hinv.
  destruct Hinv as (Hsub & Hself & d & Hd & Hitems).
  exists tt, (<[order_data self := DictObj (dict_set d k v)]> h).
  split.
  - unfold setitem, load_dict, store, mbind, B_bind. now rewrite Hd.
  - apply (inv_store self items frame h d); [now repeat split; eauto | exact Hd |].
    now apply dict_get_set_ne.
Qed.

Lemma ok_update self items frame kvs :
  Forall (fun kv => fst kv <> "itemList") kvs ->
  ok (inv self items frame) (update self kvs) (fun _ => inv self items frame).
Proof.
  intros Hk h Hinv.
  destruct Hinv as (Hsub & Hself & d & Hd & Hitems).
  exists tt, (<[order_data self := DictObj (dict_update d kvs)]> h).
  split.
  - unfold update, load_dict, store, mbind, B_bind. now rewrite Hd.
  - apply (inv_store self items frame h d); [now repeat split; eauto | exact Hd |].
    now apply dict_get_update_ne.
Qed.

Lemma ok_setitem_if self items frame k v :
  k <> "itemList" ->
  ok (inv self items frame) (setitem_if self k v) (fun _ => inv self items frame).
Proof.
  intros Hk. destruct v as [e |]; cbn.
  - now apply ok_setitem.
  - now apply ok_ret.
Qed.

Ltac keys_differ :=
  repeat (apply List.Forall_cons; [discriminate |]); apply List.Forall_nil.

Lemma ok_set_custom_order_no self items frame s :
  ok (inv self items frame) (set_custom_order_no self s)
     (fun _ => inv self items frame).
Proof.
  unfold set_custom_order_no.
  eapply ok_bind; [apply ok_setitem; discriminate |].
  intros ?. now apply ok_ret.
Qed.

Lemma ok_set_customer_code self items frame s :
  ok (inv self items frame) (set_customer_code self s)
     (fun _ => inv self items frame).
Proof.
  unfold set_customer_code.
  eapply ok_bind; [apply ok_setitem; discriminate |].
  intros ?. now apply ok_ret.
Qed.

Lemma ok_set_sender self items frame n m a c o :
  ok (inv self items frame) (set_sender self n m a c o)
     (fun _ => inv self items frame).
Proof.
  unfold set_sender.
  eapply ok_bind; [apply ok_update; keys_differ |].
  intros ?. now apply ok_ret.
Qed.

Lemma ok_set_receiver self items frame n m a c o :
  ok (inv self items frame) (set_receiver self n m a c o)
     (fun _ => inv self items frame).
Proof.
  unfold set_receiver.
  eapply ok_bind; [apply ok_update; keys_differ |].
  intros ?. now apply ok_ret.
Qed.

Lemma ok_set_parcel_info self items frame w v l wd ht p :
  ok (inv self items frame) (set_parcel_info self w v l wd ht p)
     (fun _ => inv self items frame).
Proof.
  unfold set_parcel_info.
  eapply ok_bind; [apply ok_update; keys_differ |]. intros ?.
  do 4 (eapply ok_bind; [apply ok_setitem_if; discriminate |]; intros ?).
  now apply ok_ret.
Qed.

Lemma ok_set_service_options self items frame o :
  ok (inv self items frame) (set_service_options self o)
     (fun _ => inv self items frame).
Proof.
  unfold set_service_options.
  eapply ok_bind; [apply ok_update; keys_differ |].
  intros ?. now apply ok_ret.
Qed.

(** [add_item]: the list is created on the first call, then grown. *)
Lemma ok_add_item self items frame a :
  ok (inv self items frame) (add_item self a)
     (fun _ => inv self (items ++ [a]) frame).
Proof.
  intros h (Hsub & Hself & d & Hd & Hitems).
  unfold add_item, append_item, setitem, load_dict, store, alloc, throw,
    mbind, B_bind, mret, B_ret.
  rewrite Hd.
  destruct (dict_get d "itemList") as [[v | l] |] eqn:Hget; [destruct Hitems | |].
  - (* the list is there *)
    destruct Hitems as [Hl Hlist].
    rewrite Hd, Hget, Hlist.
    eexists _, _. split; [reflexivity |].
    assert (Hne : l <> order_data self)
      by (intros ->; rewrite Hd in Hlist; discriminate Hlist).
    split; [| split; [exact Hself |]].
    + now apply insert_subseteq_r.
    + exists d. rewrite lookup_insert_ne by exact Hne.
      split; [exact Hd |]. rewrite Hget.
      split; [exact Hl |].
      rewrite lookup_insert_eq, fmap_app. reflexivity.
  - (* first item: a new list *)
    subst items.
    set (l := fresh (dom h)).
    assert (Hfresh : h !! l = None) by (apply not_elem_of_dom, is_fresh).
    assert (Hne : l <> order_data self) by (intros E; rewrite E, Hd in Hfresh; discriminate).
    rewrite lookup_insert_ne by exact Hne. rewrite Hd.
    rewrite lookup_insert_eq, dict_get_set_eq.
    rewrite lookup_insert_ne by (intros E; apply Hne; now rewrite E).
    rewrite lookup_insert_eq.
    eexists _, _. split; [reflexivity |].
    assert (Hfl : frame !! l = None) by (eapply lookup_weaken_None; eassumption).
    split; [| split; [exact Hself |]].
    + apply insert_subseteq_r; [exact Hfl |].
      apply insert_subseteq_r; [exact Hself |].
      now apply insert_subseteq_r.
    + exists (dict_set d "itemList" (Ref l)).
      rewrite lookup_insert_ne by exact Hne.
      rewrite lookup_insert_eq, dict_get_set_eq.
      split; [reflexivity |]. split; [exact Hfl |].
      now rewrite lookup_insert_eq.
Qed.

(** The quantities of the items [add_item] made. *)
Lemma item_qty_make_item a : item_qty (make_item a) = inr (goods_qty a).
Proof. reflexivity. Qed.

Lemma sum_qty_make_item items : forall acc,
  sum_qty acc (make_item <$> items) = inr (acc + total items)%Z.
Proof.
  induction items as [| a items IH]; intros acc.
  - cbn. now rewrite Z.add_0_r.
  - cbn [fmap list_fmap sum_qty]. rewrite item_qty_make_item.
    change (make_item <$> items) with (list_fmap _ _ make_item items) in IH.
    rewrite IH. unfold total. cbn. now rewrite Z.add_assoc.
Qed.

Lemma ok_setitem_holds self items frame k v :
  k <> "itemList" ->
  ok (inv self items frame) (setitem self k v)
     (fun _ h => inv self items frame h /\ holds self k v h).
Proof.
  intros Hk h Hinv.
  destruct (ok_setitem self items frame k v Hk h Hinv) as ([] & h' & E & Hinv').
  exists tt, h'. split; [exact E |]. split; [exact Hinv' |].
  destruct Hinv as (_ & _ & d & Hd & _).
  unfold setitem, load_dict, store, mbind, B_bind in E. rewrite Hd in E.
  injection E as <-.
  exists (dict_set d k v). split; [apply lookup_insert_eq | apply dict_get_set_eq].
Qed.

Lemma ok_items_to_count self items frame :
  ok (inv self items frame) (items_to_count self)
     (fun counted h =>
        inv self items frame h
        /\ counted = match items with
                     | [] => None
                     | _ => Some (make_item <$> items)
                     end).
Proof.
  intros h Hinv. pose proof Hinv as (Hsub & Hself & d & Hd & Hitems).
  unfold items_to_count, load_dict, mbind, B_bind, mret, B_ret. rewrite Hd.
  destruct (dict_get d "itemList") as [[v | l] |]; [destruct Hitems | |].
  - destruct Hitems as [Hl Hlist]. rewrite Hlist.
    destruct items as [| a items]; cbn; eauto.
  - subst items. eauto.
Qed.

(** The copy [build] returns: a new dictionary with the entries the
    builder's dictionary has at that moment. *)
Lemma ok_copy self items frame (P : dict -> Prop) :
  ok (fun h => inv self items frame h
               /\ exists d, h !! order_data self = Some (DictObj d) /\ P d)
     (d ← load_dict (order_data self); alloc (DictObj d))
     (fun r h =>
        inv self items frame h /\ frame !! r = None /\ r <> order_data self
        /\ exists d, h !! r = Some (DictObj d) /\ P d).
Proof.
  intros h (Hinv & d & Hd & HP).
  pose proof Hinv as (Hsub & Hself & d0 & Hd0 & Hitems).
  unfold load_dict, alloc, mbind, B_bind. rewrite Hd.
  set (r := fresh (dom h)).
  assert (Hfresh : h !! r = None) by (apply not_elem_of_dom, is_fresh).
  assert (Hfr : frame !! r = None) by (eapply lookup_weaken_None; eassumption).
  assert (Hne : r <> order_data self)
    by (intros E; rewrite E, Hd in Hfresh; discriminate).
  exists r, (<[r := DictObj d]> h). split; [reflexivity |].
  split; [| split; [exact Hfr | split; [exact Hne |]]].
  - split; [now apply insert_subseteq_r | split; [exact Hself |]].
    exists d0. rewrite lookup_insert_ne by exact Hne.
    split; [exact Hd0 |].
    destruct (dict_get d0 "itemList") as [[v | l] |]; try exact Hitems.
    destruct Hitems as [Hl Hlist]. split; [exact Hl |].
    rewrite lookup_insert_ne; [exact Hlist |].
    intros <-. rewrite Hfresh in Hlist. discriminate Hlist.
  - exists d. split; [apply lookup_insert_eq | exact HP].
Qed.

Lemma ok_build self items frame :
  ok (inv self items frame) (build self)
     (fun r h =>
        inv self items frame h /\ frame !! r = None /\ r <> order_data self
        /\ exists d,
             h !! r = Some (DictObj d)
             /\ (items <> [] ->
                 dict_get d "goodsQTY" = Some (Imm (VInt (total items))))).
Proof.
  unfold build.
  eapply ok_bind; [apply ok_items_to_count |].
  intros counted.
  eapply ok_bind with
    (R := fun _ h =>
            inv self items frame h
            /\ exists d, h !! order_data self = Some (DictObj d)
                         /\ (items <> [] ->
                             dict_get d "goodsQTY" = Some (Imm (VInt (total items))))).
  - intros h [Hinv ->].
    destruct items as [| a items].
    + exists tt, h. split; [reflexivity |]. split; [exact Hinv |].
      destruct Hinv as (_ & _ & d & Hd & _). exists d. split; [exact Hd | congruence].
    + rewrite sum_qty_make_item, Z.add_0_l.
      destruct (ok_setitem_holds self (a :: items) frame "goodsQTY"
                  (Imm (VInt (total (a :: items)))) ltac:(discriminate) h Hinv)
        as ([] & h' & E & Hinv' & d & Hd & Hget).
      exists tt, h'. split; [exact E |]. split; [exact Hinv' |].
      exists d. split; [exact Hd | intros _; exact Hget].
  - intros ?. cbn beta. apply ok_copy.
Qed.

Lemma ok_perform self items frame c :
  ok (inv self items frame) (perform self c)
     (fun _ => inv self (items ++ added [c]) frame).
Proof.
  destruct c; cbn [perform added omap list_omap];
    rewrite ?app_nil_r;
    (eapply ok_bind; [| intros ?; apply ok_ret; intros h H; exact H]).
  - apply ok_set_custom_order_no.
  - apply ok_set_customer_code.
  - apply ok_set_sender.
  - apply ok_set_receiver.
  - apply ok_set_parcel_info.
  - apply ok_add_item.
  - apply ok_set_service_options.
  - eapply ok_post; [apply ok_build |]. now intros r h [H _].
Qed.

Lemma ok_perform_all self calls : forall items frame,
  ok (inv self items frame) (perform_all self calls)
     (fun _ => inv self (items ++ added calls) frame).
Proof.
  induction calls as [| c calls IH]; intros items frame.
  - cbn. rewrite app_nil_r. now apply ok_ret.
  - cbn [perform_all].
    eapply ok_bind; [apply ok_perform |]. intros ?. cbn beta.
    replace (added (c :: calls)) with (added [c] ++ added calls)
      by (unfold added; now rewrite <- omap_app).
    rewrite app_assoc. apply IH.
Qed.

(** A new builder, in any store, leaves that store as its frame. *)
Lemma init_inv h0 :
  exists self h1,
    OrderBuilder__init__ h0 = (inr self, h1) /\ inv self [] h0 h1.
Proof.
  set (l := fresh (dom h0)).
  assert (Hfresh : h0 !! l = None) by (apply not_elem_of_dom, is_fresh).
  exists {| order_data := l |}, (<[l := DictObj []]> h0).
  split; [reflexivity |].
  split; [now apply insert_subseteq | split; [exact Hfresh |]].
  exists []. split; [apply lookup_insert_eq | reflexivity].
Qed.

(** A dictionary of the store that is not the builder's own can join the
    frame. *)
Lemma inv_frame_insert self items frame h r d :
  inv self items frame h ->
  h !! r = Some (DictObj d) ->
  r <> order_data self ->
  inv self items (<[r := DictObj d]> frame) h.
Proof.
  intros (Hsub & Hself & d0 & Hd0 & Hitems) Hr Hne.
  split; [| split].
  - now apply insert_subseteq_l.
  - now rewrite lookup_insert_ne.
  - exists d0. split; [exact Hd0 |].
    destruct (dict_get d0 "itemList") as [[v | l] |]; try exact Hitems.
    destruct Hitems as [Hl Hlist]. split; [| exact Hlist].
    rewrite lookup_insert_ne; [exact Hl |].
    intros <-. rewrite Hr in Hlist. discriminate Hlist.
Qed.

Lemma inv_item_list self items frame h l :
  inv self items frame h -> item_list self h = Some l ->
  l = make_item <$> items.
Proof.
  intros (_ & _ & d & Hd & Hitems). unfold item_list. rewrite Hd.
  destruct (dict_get d "itemList") as [[v | r] |]; try discriminate.
  destruct Hitems as [_ ->]. now intros [= <-].
Qed.

End BuilderFacts.

(** * The order builder: what each call does to the dictionary *)

Module BuilderKeyFacts.
Import Py Builder BuilderKeys BuilderFacts.

Lemma data_lookup self h d :
  data self h = Some d <-> h !! order_data self = Some (DictObj d).
Proof.
  unfold data. destruct (h !! order_data self) as [[d0 | l] |]; split;
    intros H; try discriminate; now inversion H.
Qed.

Lemma dict_get_set_is_Some d k v k' :
  is_Some (dict_get d k') -> is_Some (dict_get (dict_set d k v) k').
Proof.
  intros H. destruct (String.eqb k k') eqn:E.
  - apply String.eqb_eq in E. subst. rewrite dict_get_set_eq. eauto.
  - apply String.eqb_neq in E. now rewrite dict_get_set_ne.
Qed.

Lemma dict_set_same d k v : dict_get d k = Some v -> dict_set d k v = d.
Proof.
  induction d as [| [k' v'] d IH]; cbn; [discriminate |].
  destruct (String.eqb k' k); [now intros [= ->] |].
  intros H. now rewrite IH.
Qed.

(** Rules for [changes_only]. *)
Lemma changes_only_refl ks d : changes_only ks d d.
Proof. now split. Qed.

Lemma changes_only_trans ks d1 d2 d3 :
  changes_only ks d1 d2 -> changes_only ks d2 d3 -> changes_only ks d1 d3.
Proof.
  intros [H1 K1] [H2 K2]. split.
  - intros k Hk. now rewrite H2, H1.
  - intros k Hk. now apply K2, K1.
Qed.

Lemma changes_only_weaken ks ks' d d' :
  (forall k, k ∈ ks -> k ∈ ks') -> changes_only ks d d' -> changes_only ks' d d'.
Proof.
  intros Hsub [H K]. split; [| exact K].
  intros k Hk. apply H. intros Hin. apply Hk, Hsub, Hin.
Qed.

Lemma changes_only_set ks d k v :
  k ∈ ks -> changes_only ks d (dict_set d k v).
Proof.
  intros Hin. split.
  - intros k' Hk'. apply dict_get_set_ne. intros ->. now apply Hk'.
  - intros k'. apply dict_get_set_is_Some.
Qed.

Lemma changes_only_update ks kvs : forall d,
  Forall (fun kv => fst kv ∈ ks) kvs -> changes_only ks d (dict_update d kvs).
Proof.
  unfold dict_update.
  induction kvs as [| [k v] kvs IH]; intros d H; [apply changes_only_refl |].
  inversion H as [| ? ? Hk Hrest]; subst. cbn [fold_left fst snd].
  eapply changes_only_trans; [apply changes_only_set, Hk | now apply IH].
Qed.

(** The steps of a setter, with the dictionary they leave. *)
Lemma ok_setitem_at self items frame d k v :
  k <> "itemList" ->
  ok (at_dict self items frame d) (setitem self k v)
     (fun _ => at_dict self items frame (dict_set d k v)).
Proof.
  intros Hk h [Hinv Hdata].
  destruct (ok_setitem self items frame k v Hk h Hinv) as ([] & h' & E & Hinv').
  exists tt, h'. split; [exact E |]. split; [exact Hinv' |].
  apply data_lookup in Hdata.
  unfold setitem, load_dict, store, mbind, B_bind in E. rewrite Hdata in E.
  injection E as <-. apply data_lookup, lookup_insert_eq.
Qed.

Lemma ok_update_at self items frame d kvs :
  Forall (fun kv => fst kv <> "itemList") kvs ->
  ok (at_dict self items frame d) (update self kvs)
     (fun _ => at_dict self items frame (dict_update d kvs)).
Proof.
  intros Hk h [Hinv Hdata].
  destruct (ok_update self items frame kvs Hk h Hinv) as ([] & h' & E & Hinv').
  exists tt, h'. split; [exact E |]. split; [exact Hinv' |].
  apply data_lookup in Hdata.
  unfold update, load_dict, store, mbind, B_bind in E. rewrite Hdata in E.
  injection E as <-. apply data_lookup, lookup_insert_eq.
Qed.

Lemma moved_start self items frame ks d h :
  at_dict self items frame d h -> moved self items frame ks d h.
Proof. intros H. exists d. split; [exact H | apply changes_only_refl]. Qed.

Lemma ok_moved_setitem self items frame ks d k v :
  k <> "itemList" -> k ∈ ks ->
  ok (moved self items frame ks d) (setitem self k v)
     (fun _ => moved self items frame ks d).
Proof.
  intros Hk Hin h (d1 & Hat & Hch).
  destruct (ok_setitem_at self items frame d1 k v Hk h Hat) as ([] & h' & E & Hat').
  exists tt, h'. split; [exact E |].
  exists (dict_set d1 k v). split; [exact Hat' |].
  eapply changes_only_trans; [exact Hch | now apply changes_only_set].
Qed.

Lemma ok_moved_setitem_if self items frame ks d k v :
  k <> "itemList" -> (is_Some v -> k ∈ ks) ->
  ok (moved self items frame ks d) (setitem_if self k v)
     (fun _ => moved self items frame ks d).
Proof.
  intros Hk Hin. destruct v as [e |]; cbn.
  - apply ok_moved_setitem; [exact Hk | apply Hin; eauto].
  - now apply ok_ret.
Qed.

Lemma ok_moved_update self items frame ks d kvs :
  Forall (fun kv => fst kv <> "itemList") kvs ->
  Forall (fun kv => fst kv ∈ ks) kvs ->
  ok (moved self items frame ks d) (update self kvs)
     (fun _ => moved self items frame ks d).
Proof.
  intros Hk Hin h (d1 & Hat & Hch).
  destruct (ok_update_at self items frame d1 kvs Hk h Hat) as ([] & h' & E & Hat').
  exists tt, h'. split; [exact E |].
  exists (dict_update d1 kvs). split; [exact Hat' |].
  eapply changes_only_trans; [exact Hch | now apply changes_only_update].
Qed.

Ltac keys_listed :=
  repeat (apply List.Forall_cons; [cbn [fst]; set_solver |]); apply List.Forall_nil.

Lemma ok_pre {A : Type} (P P' : heap -> Prop) (m : B A) (Q : A -> heap -> Prop) :
  (forall h, P h -> P' h) -> ok P' m Q -> ok P m Q.
Proof. intros HP Hm h Hh. apply Hm, HP, Hh. Qed.

Ltac moved_bind :=
  match goal with
  | |- ok (moved ?self ?items ?frame ?ks ?d) _ _ =>
      eapply ok_bind with (R := fun _ => moved self items frame ks d)
  end.

Ltac moved_pre :=
  match goal with
  | |- ok (at_dict ?self ?items ?frame ?d) _ (fun _ => moved _ _ _ ?ks _) =>
      apply ok_pre with (P' := moved self items frame ks d); [apply moved_start |]
  end.

Ltac setter_moved :=
  moved_pre;
  moved_bind;
    [ apply ok_moved_update; [keys_differ | cbn [written]; keys_listed]
    | intros ?; apply ok_ret; intros h H; exact H ].

Lemma ok_set_sender_moved self items frame d n m a c o :
  ok (at_dict self items frame d) (set_sender self n m a c o)
     (fun _ => moved self items frame (written (SetSender n m a c o)) d).
Proof. unfold set_sender. setter_moved. Qed.

Lemma ok_set_receiver_moved self items frame d n m a c o :
  ok (at_dict self items frame d) (set_receiver self n m a c o)
     (fun _ => moved self items frame (written (SetReceiver n m a c o)) d).
Proof. unfold set_receiver. setter_moved. Qed.

Lemma ok_set_service_options_moved self items frame d o :
  ok (at_dict self items frame d) (set_service_options self o)
     (fun _ => moved self items frame (written (SetServiceOptions o)) d).
Proof. unfold set_service_options. setter_moved. Qed.

Lemma ok_set_custom_order_no_moved self items frame d s :
  ok (at_dict self items frame d) (set_custom_order_no self s)
     (fun _ => moved self items frame (written (SetCustomOrderNo s)) d).
Proof.
  unfold set_custom_order_no.
  moved_pre.
  moved_bind; [apply ok_moved_setitem; [discriminate | set_solver] |].
  intros ?. apply ok_ret. now intros h H.
Qed.

Lemma ok_set_customer_code_moved self items frame d s :
  ok (at_dict self items frame d) (set_customer_code self s)
     (fun _ => moved self items frame (written (SetCustomerCode s)) d).
Proof.
  unfold set_customer_code.
  moved_pre.
  moved_bind; [apply ok_moved_setitem; [discriminate | set_solver] |].
  intros ?. apply ok_ret. now intros h H.
Qed.

Ltac optional_key x :=
  apply ok_moved_setitem_if; [discriminate |];
  intros [? ?]; destruct x; [cbn; set_solver | discriminate].

Lemma ok_set_parcel_info_moved self items frame d w v l wd ht p :
  ok (at_dict self items frame d) (set_parcel_info self w v l wd ht p)
     (fun _ => moved self items frame (written (SetParcelInfo w v l wd ht p)) d).
Proof.
  unfold set_parcel_info.
  moved_pre.
  moved_bind;
    [apply ok_moved_update; [keys_differ | cbn [written]; keys_listed] |].
  intros ?. moved_bind; [optional_key v |].
  intros ?. moved_bind; [optional_key l |].
  intros ?. moved_bind; [optional_key wd |].
  intros ?. moved_bind; [optional_key ht |].
  intros ?. apply ok_ret. now intros h H.
Qed.

(** [add_item] leaves the dictionary as it is once the list is there. *)
Lemma ok_add_item_effect self items frame d a :
  ok (at_dict self items frame d) (add_item self a)
     (fun _ h =>
        exists d', at_dict self (items ++ [a]) frame d' h
                   /\ effect (AddItem a) items d d').
Proof.
  intros h [Hinv Hdata].
  destruct (ok_add_item self items frame a h Hinv) as (r & h' & E & Hinv').
  exists r, h'. split; [exact E |].
  apply data_lookup in Hdata.
  destruct Hinv as (Hsub & Hself & d0 & Hd0 & Hitems).
  rewrite Hdata in Hd0. injection Hd0 as <-.
  unfold add_item, append_item, setitem, load_dict, store, alloc, throw,
    mbind, B_bind, mret, B_ret in E.
  rewrite Hdata in E.
  destruct (dict_get d "itemList") as [[v | l] |] eqn:Hget; [destruct Hitems | |].
  - destruct Hitems as [Hl Hlist].
    rewrite Hdata, Hget, Hlist in E. injection E as <- <-.
    assert (Hne : l <> order_data self)
      by (intros ->; rewrite Hdata in Hlist; discriminate Hlist).
    exists d. split; [split; [exact Hinv' |] |].
    + apply data_lookup. now rewrite lookup_insert_ne.
    + split; [apply changes_only_refl | reflexivity].
  - set (l := fresh (dom h)) in E.
    assert (Hfresh : h !! l = None) by (apply not_elem_of_dom, is_fresh).
    assert (Hne : l <> order_data self)
      by (intros Eq; rewrite Eq, Hdata in Hfresh; discriminate).
    rewrite lookup_insert_ne in E by exact Hne. rewrite Hdata in E.
    rewrite lookup_insert_eq, dict_get_set_eq in E.
    rewrite lookup_insert_ne in E by (intros Eq; apply Hne; now rewrite Eq).
    rewrite lookup_insert_eq in E. injection E as <- <-.
    exists (dict_set d "itemList" (Ref l)).
    split; [split; [exact Hinv' |] |].
    + apply data_lookup. rewrite lookup_insert_ne by exact Hne.
      apply lookup_insert_eq.
    + split; [apply changes_only_set; set_solver |].
      intros [x Hx]. rewrite Hget in Hx. discriminate Hx.
Qed.

(** [build], step by step. *)
Lemma items_to_count_pure self h : snd (items_to_count self h) = h.
Proof.
  unfold items_to_count, load_dict, throw, mbind, B_bind, mret, B_ret.
  repeat case_match; simplify_eq/=; done.
Qed.

Lemma ok_items_to_count_at self items frame d :
  ok (at_dict self items frame d) (items_to_count self)
     (fun c h =>
        at_dict self items frame d h
        /\ c = match items with
               | [] => None
               | _ => Some (make_item <$> items)
               end).
Proof.
  intros h [Hinv Hdata].
  destruct (ok_items_to_count self items frame h Hinv) as (c & h' & E & Hinv' & Hc).
  exists c, h'. split; [exact E |].
  pose proof (items_to_count_pure self h) as Hpure. rewrite E in Hpure.
  cbn in Hpure. subst h'. split; [split; assumption | exact Hc].
Qed.

Lemma ok_copy_at self items frame d :
  ok (at_dict self items frame d)
     (d0 ← load_dict (order_data self); alloc (DictObj d0))
     (fun r h =>
        at_dict self items frame d h /\ frame !! r = None
        /\ r <> order_data self /\ h !! r = Some (DictObj d)).
Proof.
  intros h [Hinv Hdata]. apply data_lookup in Hdata.
  destruct (ok_copy self items frame (fun x => x = d) h) as (r & h' & E & Hpost).
  { split; [exact Hinv |]. now exists d. }
  destruct Hpost as (Hinv' & Hfr & Hne & d' & Hr & ->).
  exists r, h'. split; [exact E |].
  unfold load_dict, alloc, mbind, B_bind in E. rewrite Hdata in E.
  injection E as <- <-.
  split; [split; [exact Hinv' |] | split; [exact Hfr | split; [exact Hne | exact Hr]]].
  apply data_lookup. now rewrite lookup_insert_ne.
Qed.

Lemma ok_build_effect self items frame d :
  ok (at_dict self items frame d) (build self)
     (fun r h =>
        at_dict self items frame (counted items d) h /\ frame !! r = None
        /\ r <> order_data self /\ h !! r = Some (DictObj (counted items d))).
Proof.
  unfold build.
  eapply ok_bind; [apply ok_items_to_count_at |].
  intros c.
  eapply ok_bind with (R := fun _ => at_dict self items frame (counted items d)).
  - intros h [Hat ->]. destruct items as [| a items].
    + exists tt, h. now split.
    + rewrite sum_qty_make_item, Z.add_0_l.
      apply (ok_setitem_at self (a :: items) frame d "goodsQTY"); [discriminate | exact Hat].
  - intros ?. cbn beta. apply ok_copy_at.
Qed.

(** One call, and a run of calls. *)
Lemma ok_perform_effect self items frame d c :
  ok (at_dict self items frame d) (perform self c)
     (fun _ h =>
        exists d', at_dict self (items ++ added [c]) frame d' h
                   /\ effect c items d d').
Proof.
  assert (Hmoved : forall (m : B OrderBuilder),
    added [c] = [] ->
    match c with SetCustomerCode _ | AddItem _ | Build => False | _ => True end ->
    ok (at_dict self items frame d) m
       (fun _ => moved self items frame (written c) d) ->
    ok (at_dict self items frame d) (_ ← m; mret tt)
       (fun _ h =>
          exists d', at_dict self (items ++ added [c]) frame d' h
                     /\ effect c items d d')).
  { intros m Hadd Hc Hm. rewrite Hadd, app_nil_r.
    eapply ok_bind; [exact Hm |].
    intros ?. apply ok_ret. intros h (d' & Hat & Hch).
    exists d'. split; [exact Hat |]. split; [exact Hch |].
    now destruct c. }
  destruct c; cbn [perform].
  - apply Hmoved; [reflexivity | exact I | apply ok_set_custom_order_no_moved].
  - (* set_customer_code *)
    cbn [added omap list_omap]. rewrite app_nil_r.
    unfold set_customer_code.
    intros h Hat.
    destruct (ok_setitem_at self items frame d "customerCode" (str customer_code)
                ltac:(discriminate) h Hat) as ([] & h' & E & Hat').
    exists tt, h'. split.
    + unfold mbind, B_bind in E |- *. rewrite E. reflexivity.
    + exists (dict_set d "customerCode" (str customer_code)).
      split; [exact Hat' |]. split.
      * apply changes_only_set. cbn. set_solver.
      * apply dict_get_set_eq.
  - apply Hmoved; [reflexivity | exact I | apply ok_set_sender_moved].
  - apply Hmoved; [reflexivity | exact I | apply ok_set_receiver_moved].
  - apply Hmoved; [reflexivity | exact I | apply ok_set_parcel_info_moved].
  - eapply ok_bind; [apply ok_add_item_effect |].
    intros ?. apply ok_ret. now intros h H.
  - apply Hmoved; [reflexivity | exact I | apply ok_set_service_options_moved].
  - cbn [added omap list_omap]. rewrite app_nil_r.
    eapply ok_bind; [apply ok_build_effect |].
    intros r. apply ok_ret. intros h (Hat & _).
    exists (counted items d). split; [exact Hat |]. split; [| reflexivity].
    destruct items as [| a items]; [apply changes_only_refl |].
    apply changes_only_set. cbn. set_solver.
Qed.

Lemma effect_changes_only c items d d' :
  effect c items d d' -> changes_only (written c) d d'.
Proof. now intros [H _]. Qed.

Lemma ok_perform_all_effect self calls : forall items frame d,
  ok (at_dict self items frame d) (perform_all self calls)
     (fun _ h =>
        exists d', at_dict self (items ++ added calls) frame d' h
                   /\ changes_only (concat (written <$> calls)) d d').
Proof.
  induction calls as [| c calls IH]; intros items frame d.
  - cbn. rewrite app_nil_r. apply ok_ret. intros h H.
    exists d. split; [exact H | apply changes_only_refl].
  - cbn [perform_all].
    eapply ok_bind; [apply ok_perform_effect |]. intros ?. cbn beta.
    intros h (d1 & Hat & Heff).
    destruct (IH _ _ d1 h Hat) as ([] & h' & E & d2 & Hat' & Hch).
    exists tt, h'. split; [exact E |].
    exists d2. split.
    + replace (added (c :: calls)) with (added [c] ++ added calls)
        by (unfold added; now rewrite <- omap_app).
      now rewrite app_assoc.
    + cbn [fmap list_fmap concat].
      eapply changes_only_trans.
      * eapply changes_only_weaken; [| exact (effect_changes_only _ _ _ _ Heff)].
        intros k Hk. apply elem_of_app. now left.
      * eapply changes_only_weaken; [| exact Hch].
        intros k Hk. apply elem_of_app. now right.
Qed.

(** A new builder, with its empty dictionary named. *)
Lemma init_at h0 :
  exists self h1,
    OrderBuilder__init__ h0 = (inr self, h1) /\ at_dict self [] h0 [] h1.
Proof.
  destruct (init_inv h0) as (self & h1 & E & Hinv).
  exists self, h1. split; [exact E |]. split; [exact Hinv |].
  unfold OrderBuilder__init__, alloc, mbind, B_bind, mret, B_ret in E.
  injection E as <- <-. apply data_lookup. cbn. apply lookup_insert_eq.
Qed.

End BuilderKeyFacts.

(** ** Facts about the endpoint that creates an order *)

Module CreateFacts.
Import Py Client Builder Service ServiceCreate BuilderFacts.

(** The calls of the endpoint are the builder's methods on its arguments. *)
Lemma set_sender_of_method self s company phone email :
  sender_company_name s = Some company ->
  sender_phone s = Some phone ->
  sender_email s = Some email ->
  set_sender_of self s
  = set_sender self (sender_name s) (sender_mobile s) (sender_address s)
      (Some (sender_country_code s))
      {| Builder.company_name := Some company; Builder.phone := Some phone;
         Builder.email := Some email;
         province_code := None; province_name := None; city_code := None;
         city_name := None; district_code := None; district_name := None;
         post_code := None |}.
Proof.
  intros Hc Hp He. unfold set_sender_of, set_sender, sender_entries, text_entry.
  now rewrite Hc, Hp, He.
Qed.

Lemma set_service_options_of_default self :
  set_service_options_of self None
  = set_service_options self
      {| delivery_type := None; pay_method := None; parcel_type := None;
         ship_type := None; transport_type := None; platform_source := None;
         cod_fee := None; insure_price := None; shipping_fee := None;
         remark := None |}.
Proof. reflexivity. Qed.

Lemma item_of_make_item i sku :
  item_sku i = Some sku ->
  item_of i
  = make_item
      {| goods_name := item_goods_name i;
         goods_qty := item_goods_qty i;
         goods_value := item_goods_value i;
         goods_weight := item_goods_weight i;
         goods_name_dialect := item_goods_name_dialect i;
         goods_type := Some (item_goods_type i);
         battery := None; bl_insure := None; duty_money := None;
         goods_id := None;
         Builder.sku := Some sku;
         goods_material := None; goods_remark := None; goods_rule := None;
         goods_unit_price := None; make_country := None; sale_path := None;
         unit_ := None; goods_length := None; goods_width := None;
         goods_height := None; goods_volume := None |}.
Proof.
  intros Hs. unfold item_of, make_item. cbn. rewrite Hs.
  now destruct (item_goods_name_dialect i).
Qed.

Lemma add_item_value_method self a :
  add_item self a = add_item_value self (make_item a).
Proof. reflexivity. Qed.

(** The store while the endpoint fills the builder. *)
Lemma own_store self d d' items h :
  own self d items h ->
  dict_get d' "itemList" = dict_get d "itemList" ->
  own self d' items (<[order_data self := DictObj d']> h).
Proof.
  intros [Hd Hl] Hsame. split; [apply lookup_insert_eq |].
  rewrite Hsame. destruct (dict_get d "itemList") as [[v | l] |]; try exact Hl.
  destruct Hl as [Hne Hl]. split; [exact Hne |].
  now rewrite lookup_insert_ne by congruence.
Qed.

Lemma ok_own_setitem self d items k v :
  k <> "itemList" ->
  ok (own self d items) (setitem self k v)
     (fun _ => own self (dict_set d k v) items).
Proof.
  intros Hk h Hown. exists tt, (<[order_data self := DictObj (dict_set d k v)]> h).
  split.
  - unfold setitem, load_dict, store, mbind, B_bind. now rewrite (proj1 Hown).
  - apply own_store with (d := d); [exact Hown | now apply dict_get_set_ne].
Qed.

Lemma ok_own_setitem_if self d items k v :
  k <> "itemList" ->
  ok (own self d items) (setitem_if self k v)
     (fun _ => own self (set_if d k v) items).
Proof.
  intros Hk. destruct v as [e |]; cbn [setitem_if set_if].
  - now apply ok_own_setitem.
  - apply ok_ret. now intros h H.
Qed.

Lemma ok_own_update self d items kvs :
  Forall (fun kv => fst kv <> "itemList") kvs ->
  ok (own self d items) (update self kvs)
     (fun _ => own self (dict_update d kvs) items).
Proof.
  intros Hk h Hown. exists tt, (<[order_data self := DictObj (dict_update d kvs)]> h).
  split.
  - unfold update, load_dict, store, mbind, B_bind. now rewrite (proj1 Hown).
  - apply own_store with (d := d); [exact Hown | now apply dict_get_update_ne].
Qed.

Lemma same_but_items_refl d : same_but_items d d.
Proof. now intros k _. Qed.

Lemma same_but_items_trans d1 d2 d3 :
  same_but_items d1 d2 -> same_but_items d2 d3 -> same_but_items d1 d3.
Proof. intros H1 H2 k Hk. now rewrite H2, H1. Qed.

Lemma ok_add_item_value self d items v :
  ok (own self d items) (add_item_value self v)
     (fun _ h => exists d', own self d' (items ++ [v]) h /\ same_but_items d d').
Proof.
  intros h [Hd Hl]. unfold add_item_value, append_item, setitem, load_dict, store, alloc,
    throw, mbind, B_bind, mret, B_ret.
  rewrite Hd.
  destruct (dict_get d "itemList") as [[v0 | l] |] eqn:Hget.
  - destruct Hl.
  - destruct Hl as [Hne Hl]. rewrite Hd, Hget, Hl.
    eexists _, _. split; [reflexivity |]. exists d. split; [| apply same_but_items_refl].
    split.
    + now rewrite lookup_insert_ne by congruence.
    + rewrite Hget. split; [exact Hne | apply lookup_insert_eq].
  - subst items.
    set (l := fresh (dom h)).
    assert (Hfresh : h !! l = None)
      by (apply not_elem_of_dom, is_fresh).
    assert (Hne : l <> order_data self) by (intros E; rewrite E, Hd in Hfresh; discriminate).
    rewrite lookup_insert_ne by exact Hne. rewrite Hd.
    rewrite lookup_insert_eq. rewrite dict_get_set_eq.
    rewrite lookup_insert_ne by congruence. rewrite lookup_insert_eq.
    eexists _, _. split; [reflexivity |].
    exists (dict_set d "itemList" (Ref l)). split.
    + split.
      * rewrite lookup_insert_ne by exact Hne. apply lookup_insert_eq.
      * rewrite dict_get_set_eq. split; [exact Hne | apply lookup_insert_eq].
    + intros k Hk. apply dict_get_set_ne. congruence.
Qed.

Lemma ok_add_items self infos : forall d items,
  ok (own self d items) (add_items self infos)
     (fun _ h =>
        exists d', own self d' (items ++ (item_of <$> infos)) h
                   /\ same_but_items d d'
                   /\ (infos = [] -> d' = d)).
Proof.
  induction infos as [| i infos IH]; intros d items; cbn [add_items].
  - apply ok_ret. intros h H. exists d. rewrite app_nil_r.
    split; [exact H |]. split; [apply same_but_items_refl | reflexivity].
  - intros h Hown.
    destruct (ok_add_item_value self d items (item_of i) h Hown)
      as (r & h1 & E1 & d1 & Hown1 & Hsame1).
    destruct (IH d1 (items ++ [item_of i]) h1 Hown1)
      as ([] & h2 & E2 & d2 & Hown2 & Hsame2 & _).
    exists tt, h2. split.
    + unfold mbind, B_bind. now rewrite E1.
    + exists d2. rewrite fmap_cons, cons_middle, app_assoc.
      split; [exact Hown2 |].
      split; [eapply same_but_items_trans; eassumption | discriminate].
Qed.

Lemma item_qty_item_of i : item_qty (item_of i) = inr (item_goods_qty i).
Proof. reflexivity. Qed.

Lemma sum_qty_item_of items : forall acc,
  sum_qty acc (item_of <$> items) = inr (acc + quantity items)%Z.
Proof.
  induction items as [| i items IH]; intros acc.
  - cbn. now rewrite Z.add_0_r.
  - cbn [fmap list_fmap sum_qty]. rewrite item_qty_item_of.
    change (item_of <$> items) with (list_fmap _ _ item_of items) in IH.
    rewrite IH. unfold quantity. cbn. now rewrite Z.add_assoc.
Qed.

(** [build] on the items of a request: the copy is a new dictionary, the
    list under its ["itemList"] is the builder's. *)
Lemma ok_own_build self d infos :
  ok (own self d (item_of <$> infos)) (build self)
     (fun r h => own {| order_data := r |} (with_total infos d) (item_of <$> infos) h).
Proof.
  intros h [Hd Hl].
  assert (Hcount :
    exists d', with_total infos d = d' /\
      (forall k, k <> "goodsQTY" -> dict_get d' k = dict_get d k) /\
      exists h1,
        h1 !! order_data self = Some (DictObj d') /\
        (forall l, l <> order_data self -> h1 !! l = h !! l) /\
        (c ← items_to_count self;
         match c with
         | Some items =>
             match sum_qty 0 items with
             | inr total_qty => setitem self "goodsQTY" (Imm (VInt total_qty))
             | inl e => throw e
             end
         | None => mret tt
         end) h = (inr tt, h1)).
  { unfold items_to_count, setitem, load_dict, store, throw, mbind, B_bind,
      mret, B_ret.
    rewrite Hd.
    destruct (dict_get d "itemList") as [[v0 | l] |] eqn:Hget.
    - destruct Hl.
    - destruct Hl as [Hne Hl]. rewrite Hl.
      destruct infos as [| i infos].
      + exists d. split; [reflexivity |]. split; [reflexivity |].
        exists h. now repeat split.
      + rewrite fmap_cons. rewrite <- fmap_cons.
        rewrite (sum_qty_item_of (i :: infos) 0), Z.add_0_l.
        destruct (item_of <$> i :: infos) as [| x xs] eqn:Hx; [discriminate |].
        rewrite Hd.
        exists (dict_set d "goodsQTY" (Imm (VInt (quantity (i :: infos))))).
        split; [reflexivity |].
        split; [intros k Hk; apply dict_get_set_ne; congruence |].
        eexists. split; [apply lookup_insert_eq |].
        split; [| reflexivity].
        intros l0 Hl0. now rewrite lookup_insert_ne by congruence.
    - apply fmap_nil_inv in Hl. subst infos.
      exists d. split; [reflexivity |]. split; [reflexivity |].
      exists h. now repeat split. }
  destruct Hcount as (d' & Hd' & Hsame & h1 & Hd1 & Hrest & Erun).
  set (r := fresh (dom h1)).
  assert (Hfresh : h1 !! r = None) by (apply not_elem_of_dom, is_fresh).
  exists r, (<[r := DictObj d']> h1). split.
  - unfold build.
    unfold mbind at 1 2. unfold B_bind at 1 2.
    unfold mbind, B_bind in Erun. 
    destruct (items_to_count self h) as [[e | c] h0] eqn:Ec.
    + discriminate Erun.
    + rewrite Erun. unfold load_dict, alloc, mbind, B_bind. now rewrite Hd1.
  - rewrite Hd'. split; [apply lookup_insert_eq |]. cbn [order_data].
    rewrite (Hsame "itemList") by discriminate.
    destruct (dict_get d "itemList") as [[v0 | l] |] eqn:Hget; try exact Hl.
    destruct Hl as [Hne Hl].
    assert (Hl1 : h1 !! l = Some (ListObj (item_of <$> infos)))
      by (now rewrite Hrest).
    assert (Hlr : l <> r) by (intros E; rewrite E, Hfresh in Hl1; discriminate).
    split; [exact Hlr |]. now rewrite lookup_insert_ne by congruence.
Qed.

(** The setters the endpoint calls. *)
Ltac returns_self :=
  eapply ok_bind; [| intros ?; apply ok_ret; intros ? H; exact H].

Lemma ok_own_set_custom_order_no self d items s :
  ok (own self d items) (set_custom_order_no self s)
     (fun _ => own self (dict_set d "customOrderNo" (str s)) items).
Proof.
  unfold set_custom_order_no. returns_self.
  now apply ok_own_setitem.
Qed.

Lemma ok_own_set_customer_code self d items s :
  ok (own self d items) (set_customer_code self s)
     (fun _ => own self (dict_set d "customerCode" (str s)) items).
Proof.
  unfold set_customer_code. returns_self.
  now apply ok_own_setitem.
Qed.

Lemma ok_own_set_sender_of self d items s :
  ok (own self d items) (set_sender_of self s)
     (fun _ => own self (dict_update d (sender_entries s)) items).
Proof.
  unfold set_sender_of. returns_self.
  apply ok_own_update. unfold sender_entries. keys_differ.
Qed.

Lemma ok_own_set_receiver_of self d items r :
  ok (own self d items) (set_receiver_of self r)
     (fun _ => own self (dict_update d (receiver_entries r)) items).
Proof.
  unfold set_receiver_of. returns_self.
  apply ok_own_update. unfold receiver_entries. keys_differ.
Qed.

Lemma ok_own_set_service_options_of self d items s :
  ok (own self d items) (set_service_options_of self s)
     (fun _ => own self (dict_update d (service_entries s)) items).
Proof.
  unfold set_service_options_of. returns_self.
  apply ok_own_update. destruct s; unfold service_entries; keys_differ.
Qed.

Lemma ok_own_set_parcel_info self d items w v l wd ht p :
  ok (own self d items) (set_parcel_info self w v l wd ht (Some p))
     (fun _ =>
        own self
          (set_if
             (set_if
                (set_if
                   (set_if
                      (dict_update d [ ("parcelWeight", Imm (VFloat w));
                                       ("piece", Imm (VInt p)) ])
                      "parcelVolume" (Imm ∘ VFloat <$> v))
                   "parcelLength" (Imm ∘ VInt <$> l))
                "parcelWidth" (Imm ∘ VInt <$> wd))
             "parcelHigh" (Imm ∘ VInt <$> ht))
          items).
Proof.
  unfold set_parcel_info.
  eapply ok_bind; [apply ok_own_update; keys_differ | intros ?].
  eapply ok_bind; [now apply ok_own_setitem_if | intros ?].
  eapply ok_bind; [now apply ok_own_setitem_if | intros ?].
  eapply ok_bind; [now apply ok_own_setitem_if | intros ?].
  eapply ok_bind; [now apply ok_own_setitem_if | intros ?].
  apply ok_ret. intros h H. exact H.
Qed.

Lemma init_own h :
  exists self h1, OrderBuilder__init__ h = (inr self, h1) /\ own self [] [] h1.
Proof.
  eexists _, _. split; [reflexivity |]. split; [apply lookup_insert_eq | reflexivity].
Qed.

(** The builder part of the endpoint never raises; the order it returns
    is the header with the service entries, the list of the items and
    their total. *)
Lemma order_of_runs request h :
  exists r h' d,
    order_of request h = (inr r, h')
    /\ own {| order_data := r |}
         (with_total (create_items request)
            (dict_update d (service_entries (create_service request))))
         (item_of <$> create_items request) h'
    /\ same_but_items (header request) d
    /\ (create_items request = [] -> d = header request).
Proof.
  destruct (init_own h) as (self & h1 & E1 & Hown1).
  assert (Hrest :
    ok (own self [] [])
       (_ ← set_custom_order_no self (create_custom_order_no request);
        _ ← set_customer_code self (create_customer_code request);
        _ ← set_sender_of self (create_sender request);
        _ ← set_receiver_of self (create_receiver request);
        _ ← set_parcel_info self
              (parcel_weight (create_parcel request))
              (parcel_volume (create_parcel request))
              (parcel_length (create_parcel request))
              (parcel_width (create_parcel request))
              (parcel_height (create_parcel request))
              (Some (parcel_piece (create_parcel request)));
        _ ← add_items self (create_items request);
        _ ← set_service_options_of self (create_service request);
        build self)
       (fun r h' =>
          exists d,
            own {| order_data := r |}
              (with_total (create_items request)
                 (dict_update d (service_entries (create_service request))))
              (item_of <$> create_items request) h'
            /\ same_but_items (header request) d
            /\ (create_items request = [] -> d = header request))).
  { eapply ok_bind; [apply ok_own_set_custom_order_no | intros ?].
    eapply ok_bind; [apply ok_own_set_customer_code | intros ?].
    eapply ok_bind; [apply ok_own_set_sender_of | intros ?].
    eapply ok_bind; [apply ok_own_set_receiver_of | intros ?].
    eapply ok_bind; [apply ok_own_set_parcel_info | intros ?].
    fold (header request).
    eapply ok_bind; [apply ok_add_items | intros ?].
    intros h2 (d & Hown & Hsame & Hnil). cbn [app] in Hown.
    assert (Hb : ok (own self d (item_of <$> create_items request))
                   (_ ← set_service_options_of self (create_service request);
                    build self)
                   (fun r h' =>
                      own {| order_data := r |}
                        (with_total (create_items request)
                           (dict_update d (service_entries (create_service request))))
                        (item_of <$> create_items request) h')).
    { eapply ok_bind; [apply ok_own_set_service_options_of | intros ?].
      apply ok_own_build. }
    destruct (Hb h2 Hown) as (r & h' & E & Hfinal).
    exists r, h'. split; [exact E |]. exists d.
    split; [exact Hfinal | split; assumption]. }
  destruct (Hrest h1 Hown1) as (r & h' & E & d & Hfinal).
  exists r, h', d. split; [| exact Hfinal].
  unfold order_of. unfold mbind at 1. unfold B_bind at 1. rewrite E1. exact E.
Qed.

Lemma lookup_snapshot h d k :
  lookup_key (map (fun kv => (fst kv, entry_value h (snd kv))) d) k
  = entry_value h <$> dict_get d k.
Proof.
  induction d as [| [k' e] d IH]; cbn; [reflexivity |].
  destruct (String.eqb k' k); [reflexivity | exact IH].
Qed.

Lemma dict_get_set d k v k' :
  dict_get (dict_set d k v) k' = if String.eqb k k' then Some v else dict_get d k'.
Proof.
  destruct (String.eqb k k') eqn:E.
  - apply String.eqb_eq in E. subst. apply dict_get_set_eq.
  - apply String.eqb_neq in E. now apply dict_get_set_ne.
Qed.

Lemma dict_get_update_same kvs k : forall d1 d2,
  dict_get d1 k = dict_get d2 k ->
  dict_get (dict_update d1 kvs) k = dict_get (dict_update d2 kvs) k.
Proof.
  unfold dict_update.
  induction kvs as [| [k0 v0] kvs IH]; intros d1 d2 H; [exact H |].
  cbn [fold_left fst snd]. apply IH. rewrite !dict_get_set. now rewrite H.
Qed.

Lemma dict_get_set_if_ne d k v k' :
  k <> k' -> dict_get (set_if d k v) k' = dict_get d k'.
Proof. intros H. destruct v; [now apply dict_get_set_ne | reflexivity]. Qed.

Lemma header_no_items request : dict_get (header request) "itemList" = None.
Proof.
  unfold header. cbv zeta.
  rewrite !dict_get_set_if_ne by discriminate.
  rewrite !dict_get_update_ne; [reflexivity | ..];
    unfold sender_entries, receiver_entries; keys_differ.
Qed.

Lemma plain_no_total request : dict_get (plain request) "goodsQTY" = None.
Proof.
  unfold plain, header. cbv zeta.
  rewrite dict_get_update_ne
    by (destruct (create_service request); unfold service_entries; keys_differ).
  rewrite !dict_get_set_if_ne by discriminate.
  rewrite !dict_get_update_ne; [reflexivity | ..];
    unfold sender_entries, receiver_entries; keys_differ.
Qed.

(** The mapping the endpoint hands to the client. *)
Lemma order_payload request h :
  exists r h' payload,
    order_of request h = (inr r, h')
    /\ snapshot h' r = VDict payload
    /\ (forall k v, k <> "itemList" -> k <> "goodsQTY" ->
          dict_get (plain request) k = Some (Imm v) ->
          lookup_key payload k = Some v)
    /\ lookup_key payload "itemList"
       = match create_items request with
         | [] => None
         | _ => Some (VList (item_of <$> create_items request))
         end
    /\ lookup_key payload "goodsQTY"
       = match create_items request with
         | [] => None
         | _ => Some (VInt (quantity (create_items request)))
         end.
Proof.
  destruct (order_of_runs request h) as (r & h' & d & E & [Hr Hl] & Hsame & Hnil).
  cbn [order_data] in Hr, Hl.
  set (svc := service_entries (create_service request)) in *.
  assert (Hsvc : Forall (fun kv => fst kv <> "itemList") svc
                 /\ Forall (fun kv => fst kv <> "goodsQTY") svc)
    by (subst svc; destruct (create_service request); unfold service_entries;
        split; keys_differ).
  destruct Hsvc as [Hsvc_items Hsvc_total].
  eexists r, h', _. split; [exact E |].
  split; [unfold snapshot; rewrite Hr; reflexivity |].
  split; [| split].
  - intros k v Hk Hq Hget. rewrite lookup_snapshot.
    assert (Hd : dict_get
                   (with_total (create_items request) (dict_update d svc)) k
                 = dict_get (plain request) k).
    { unfold with_total.
      assert (Hu : dict_get (dict_update d svc) k = dict_get (plain request) k)
        by (unfold plain; apply dict_get_update_same, Hsame, Hk).
      destruct (create_items request); [exact Hu |].
      rewrite dict_get_set_ne by congruence. exact Hu. }
    rewrite Hd, Hget. reflexivity.
  - rewrite lookup_snapshot.
    destruct (create_items request) as [| i infos] eqn:Hitems.
    + cbn [with_total]. rewrite (Hnil eq_refl).
      rewrite dict_get_update_ne by exact Hsvc_items.
      now rewrite header_no_items.
    + destruct (dict_get (with_total (i :: infos) (dict_update d svc)) "itemList")
        as [[v | l] |]; [destruct Hl | | discriminate Hl].
      destruct Hl as [_ Hl]. cbn [fmap option_fmap option_map entry_value].
      now rewrite Hl.
  - rewrite lookup_snapshot.
    destruct (create_items request) as [| i infos] eqn:Hitems.
    + cbn [with_total]. rewrite (Hnil eq_refl).
      change (dict_update (header request) svc) with (plain request).
      now rewrite plain_no_total.
    + cbn [with_total]. now rewrite dict_get_set_eq.
Qed.

Lemma create_order_unfold tool rt request out h st r h' :
  order_of request h = (inr r, h') ->
  ServiceCreate.create_order tool rt request out (h, st)
  = (fst (guarded "订单创建成功"
            (Client.create_order tool rt (snapshot h' r)) out st),
     (h', snd (guarded "订单创建成功"
                 (Client.create_order tool rt (snapshot h' r)) out st))).
Proof.
  intros E. unfold ServiceCreate.create_order. cbn [fst snd]. rewrite E.
  now destruct (guarded _ _ out st).
Qed.

End CreateFacts.

(** * Properties of the codec *)

Module CodecClaims.
Import Codec CodecFacts.

Lemma decrypt_encrypt (x key_material : bytes) :
  decrypt (encrypt x key_material) key_material = inr x.
Proof.
  unfold decrypt, encrypt.
  set (k := derive_key key_material).
  rewrite (map_blocks_length _ (triple_encrypt_block_length k))
    by apply pad_aligned.
  rewrite pad_aligned. cbn [Nat.eqb negb].
  rewrite (map_blocks_undo _ _ (triple_encrypt_block_length k)
             (triple_decrypt_encrypt_block k))
    by apply pad_aligned.
  now rewrite unpad_pad.
Qed.

(** C1: for every byte string [x] (the empty one and the ones whose length
    is not a multiple of the 8-byte block included) and every key material,
    decrypting the encryption of [x] under the same key material returns
    exactly [x], on the ciphertext bytes and on their text representation. *)
Theorem codec_round_trip :
  forall x key_material : Codec.bytes,
    Codec.decrypt (Codec.encrypt x key_material) key_material = inr x /\
    Codec.decrypt_text (Codec.encrypt_text x key_material) key_material = inr x.
Proof.
  intros x key_material. split.
  - apply decrypt_encrypt.
  - unfold decrypt_text, encrypt_text.
    rewrite decode_encode. apply decrypt_encrypt.
Qed.

End CodecClaims.

(** * Properties of the transport client *)

Module ClientClaims.
Import Py Client Call ClientFacts.

(** C2: every call made through [_make_request] sends one POST to
    [base_url + endpoint] with the query [appCode=...&timestamp=...], the
    output of the encryption step as body and the header
    [Content-Type: text/plain]; the timestamp of the query is the one
    handed to the encryption step with the payload. *)
Theorem request_shape :
  forall tool rt app secret base endpoint data out tr z,
    timestamp out = inr z ->
    let st := {| self := SpeedAFAPI__init__ app secret base; trace := tr |} in
    let st' := snd (_make_request tool rt endpoint data out st) in
    posts (trace st')
    = posts tr ++
      [ {| req_method := POST;
           req_url := default "https://uat-api.speedaf.com" base +:+ endpoint
                      +:+ "?appCode=" +:+ app +:+ "&timestamp=" +:+ str_of_int z;
           req_data := triple_des_encrypt tool data (str_of_int z);
           req_headers := [("Content-Type", "text/plain")] |} ]
    /\ encrypts (trace st') = encrypts tr ++ [(data, str_of_int z)].
Proof.
  intros tool rt app secret base endpoint data out tr z Hz st st'.
  subst st'. split.
  - now rewrite (make_request_posts _ _ _ _ _ _ _ Hz).
  - now rewrite (make_request_encrypts _ _ _ _ _ _ _ Hz).
Qed.

Lemma request_shape_witness :
  timestamp (Standins.carrier (Failed TimedOut "timed out")) = inr 1730000000625%Z
  /\ posts (trace (snd (_make_request Standins.tool Standins.rt
                          "/open-api/express/track/query" (VDict [])
                          (Standins.carrier (Failed TimedOut "timed out"))
                          Standins.start)))
     = [ {| req_method := POST;
            req_url := "https://uat-api.speedaf.com/open-api/express/track/query?appCode=11111111&timestamp=1730000000625";
            req_data := triple_des_encrypt Standins.tool (VDict []) "1730000000625";
            req_headers := [("Content-Type", "text/plain")] |} ].
Proof.
  assert (Hz : timestamp (Standins.carrier (Failed TimedOut "timed out"))
               = inr 1730000000625%Z) by (vm_compute; reflexivity).
  split; [exact Hz |].
  exact (proj1 (request_shape Standins.tool Standins.rt "11111111" "uYMGr8eU" None
                  "/open-api/express/track/query" (VDict [])
                  (Standins.carrier (Failed TimedOut "timed out")) [] _ Hz)).
Defined.

(** C3: [cancel_order] and [update_order] hand to the encryption step a
    list of one element, the record itself (for a cancellation the mapping
    with the keys customerCode, billCode and cancelReason, for an update the
    given order); the record is not unwrapped on the way. *)
Theorem cancel_update_payload :
  forall tool rt out st z customer_code bill_code cancel_reason order_data,
    timestamp out = inr z ->
    encrypts (trace (snd (cancel_order tool rt customer_code bill_code
                            cancel_reason out st)))
    = encrypts (trace st) ++
      [ (VList [ VDict [ ("customerCode", VStr customer_code);
                         ("billCode", VStr bill_code);
                         ("cancelReason",
                          VStr (default "customer cancel" cancel_reason)) ] ],
         str_of_int z) ]
    /\ encrypts (trace (snd (update_order tool rt order_data out st)))
       = encrypts (trace st) ++ [ (VList [order_data], str_of_int z) ].
Proof.
  intros tool rt out st z customer_code bill_code cancel_reason order_data Hz.
  unfold cancel_order, update_order. cbv zeta.
  split; apply make_request_encrypts, Hz.
Qed.

Lemma cancel_update_payload_witness :
  timestamp (Standins.carrier (Failed TimedOut "timed out")) = inr 1730000000625%Z
  /\ encrypts (trace (snd (cancel_order Standins.tool Standins.rt
                             "NG000660" "NG0206830525525" None
                             (Standins.carrier (Failed TimedOut "timed out"))
                             Standins.start)))
     = [ (VList [ VDict [ ("customerCode", VStr "NG000660");
                          ("billCode", VStr "NG0206830525525");
                          ("cancelReason", VStr "customer cancel") ] ],
          "1730000000625") ].
Proof.
  assert (Hz : timestamp (Standins.carrier (Failed TimedOut "timed out"))
               = inr 1730000000625%Z) by (vm_compute; reflexivity).
  split; [exact Hz |].
  exact (proj1 (cancel_update_payload Standins.tool Standins.rt
                  (Standins.carrier (Failed TimedOut "timed out")) Standins.start
                  _ "NG000660" "NG0206830525525" None VNone Hz)).
Defined.

(** C4: when the parsed outer response has a falsy [success] or a falsy
    [data] (an absent field reads as [None]), the call raises the exception
    of the carrier rejection, whose text carries the whole outer response,
    returns no result, and attempts no decryption. *)
Theorem carrier_rejection :
  forall tool rt endpoint data out st z r d,
    timestamp out = inr z ->
    requests_post out (request_of tool (self st) endpoint data z) = Responded r ->
    http_error_msg r = None ->
    resp_json r = inr (VDict d) ->
    truthy (default VNone (lookup_key d "success")) = false
    \/ truthy (default VNone (lookup_key d "data")) = false ->
    _make_request tool rt endpoint data out st
    = (inl (Raise Exception ("API调用失败: " +:+ py_repr rt (VDict d))),
       sent tool endpoint data z st)
    /\ decrypts (trace (sent tool endpoint data z st)) = decrypts (trace st).
Proof.
  intros tool rt endpoint data out st z r d Hz Hpost Hstatus Hjson Hfalsy.
  split.
  - rewrite (make_request_unfold _ _ _ _ _ _ _ Hz). cbv zeta.
    rewrite Hpost, Hstatus, Hjson.
    apply on_result_rejected.
    destruct Hfalsy as [-> | ->]; [reflexivity | apply andb_false_r].
  - cbn [sent trace]. rewrite decrypts_app. cbn. apply app_nil_r.
Qed.

Lemma carrier_rejection_witness :
  fst (_make_request Standins.tool Standins.rt "/open-api/express/track/query"
         (VDict [])
         (Standins.carrier
            (Responded (Standins.response 200 "OK"
                          (inr (VDict [("success", VBool false)])))))
         Standins.start)
  = inl (Raise Exception "API调用失败: {'success': False}").
Proof.
  assert (H := carrier_rejection Standins.tool Standins.rt
              "/open-api/express/track/query" (VDict [])
              (Standins.carrier
                 (Responded (Standins.response 200 "OK"
                               (inr (VDict [("success", VBool false)])))))
              Standins.start 1730000000625%Z
              (Standins.response 200 "OK" (inr (VDict [("success", VBool false)])))
              [("success", VBool false)]).
  destruct H as [H _].
  - vm_compute. reflexivity.
  - reflexivity.
  - reflexivity.
  - reflexivity.
  - left. reflexivity.
  - rewrite H. reflexivity.
Defined.

(** C5: the timestamp a call sends is read from the clock at the call:
    the floor of [(now + 0.5) * 1000], the current time plus 500
    milliseconds in whole milliseconds, in the float arithmetic of the
    language. *)
Theorem timestamp_at_call_time :
  forall tool rt endpoint data out st z,
    floor_of_float ((time_time out + 0.5) * 1000)%float = Some z ->
    (0 <= z)%Z ->
    map req_url (posts (trace (snd (_make_request tool rt endpoint data out st))))
    = map req_url (posts (trace st)) ++
      [ base_url (self st) +:+ endpoint +:+ "?appCode=" +:+ app_code (self st)
        +:+ "&timestamp=" +:+ str_of_int z ].
Proof.
  intros tool rt endpoint data out st z Hfloor Hz.
  assert (Ht : timestamp out = inr z) by (apply int_of_float_floor; assumption).
  rewrite (make_request_posts _ _ _ _ _ _ _ Ht).
  now rewrite map_app.
Qed.

Lemma timestamp_at_call_time_witness :
  floor_of_float ((Standins.now + 0.5) * 1000)%float = Some 1730000000625%Z
  /\ map req_url
       (posts (trace (snd (_make_request Standins.tool Standins.rt
                             "/open-api/express/order/createOrder" (VDict [])
                             (Standins.carrier (Failed ConnectionFailed "refused"))
                             Standins.start))))
     = [ "https://uat-api.speedaf.com/open-api/express/order/createOrder?appCode=11111111&timestamp=1730000000625" ].
Proof.
  split; [vm_compute; reflexivity |].
  apply (timestamp_at_call_time Standins.tool Standins.rt
           "/open-api/express/order/createOrder" (VDict [])
           (Standins.carrier (Failed ConnectionFailed "refused"))
           Standins.start 1730000000625%Z).
  - vm_compute. reflexivity.
  - lia.
Defined.

(** C6 as stated fails: a response 300 (Multiple Choices; it carries a
    body, and [requests] does not follow it) with a well-formed envelope
    passes [raise_for_status], and the call returns the decrypted
    result. *)
Lemma multiple_choices_returns_a_result : ~ non_2xx_fails_as_stated.
Proof.
  intros H.
  destruct (H Standins.tool Standins.rt "/open-api/express/track/query" (VDict [])
              (Standins.carrier
                 (Responded (Standins.response 300 "Multiple Choices"
                               (inr (Standins.envelope true)))))
              Standins.start 1730000000625%Z
              (Standins.response 300 "Multiple Choices" (inr (Standins.envelope true))))
    as [cause Hcause].
  - vm_compute. reflexivity.
  - reflexivity.
  - reflexivity.
  - reflexivity.
  - vm_compute in Hcause. discriminate Hcause.
Qed.

(** A response 304 has no body: [response.json()] fails, and the call
    ends as a network failure does. *)
Example not_modified_fails_at_parsing :
  deliverable (Standins.response 304 "Not Modified"
                 (inl "Expecting value: line 1 column 1 (char 0)")) = true
  /\ fst (_make_request Standins.tool Standins.rt "/open-api/express/track/query"
            (VDict [])
            (Standins.carrier
               (Responded (Standins.response 304 "Not Modified"
                             (inl "Expecting value: line 1 column 1 (char 0)"))))
            Standins.start)
     = inl (Raise Exception
              "网络请求失败: Expecting value: line 1 column 1 (char 0)").
Proof. split; [reflexivity | vm_compute; reflexivity]. Qed.

(** [raise_for_status] lets every status outside 400..599 pass. *)
Lemma http_error_msg_none r :
  (status_code r < 400 \/ 600 <= status_code r)%Z -> http_error_msg r = None.
Proof.
  intros H. unfold http_error_msg.
  destruct (400 <=? status_code r)%Z eqn:E1, (status_code r <? 500)%Z eqn:E2,
    (500 <=? status_code r)%Z eqn:E3, (status_code r <? 600)%Z eqn:E4;
    cbn; try reflexivity; lia.
Qed.

(** C6 (amended): a call sends exactly one request, whatever it ends
    with: nothing is sent again.  When [requests.post] fails without a
    response (connection error, timeout) or the response has a status from
    400 to 599, the call raises the exception of the network failure,
    whose text carries the cause.  A response with any other status passes
    [raise_for_status]: the call goes on to [response.json()], and what it
    returns or raises depends on the body alone, not on the status. *)
Theorem transport_failure :
  forall tool rt endpoint data out st z,
    timestamp out = inr z ->
    posts (trace (snd (_make_request tool rt endpoint data out st)))
    = posts (trace st) ++ [request_of tool (self st) endpoint data z]
    /\ (forall cause,
          http_failure (requests_post out (request_of tool (self st) endpoint data z))
          = Some cause ->
          _make_request tool rt endpoint data out st
          = (inl (Raise Exception ("网络请求失败: " +:+ cause)),
             sent tool endpoint data z st))
    /\ (forall r,
          requests_post out (request_of tool (self st) endpoint data z)
          = Responded r ->
          (status_code r < 400 \/ 600 <= status_code r)%Z ->
          _make_request tool rt endpoint data out st
          = match resp_json r with
            | inr result => on_result tool rt result out (sent tool endpoint data z st)
            | inl message =>
                (inl (Raise Exception ("网络请求失败: " +:+ message)),
                 sent tool endpoint data z st)
            end).
Proof.
  intros tool rt endpoint data out st z Hz.
  split; [apply make_request_posts, Hz |]. split.
  - intros cause Hfail.
    rewrite (make_request_unfold _ _ _ _ _ _ _ Hz). cbv zeta.
    destruct (requests_post out _) as [r | f message]; cbn in Hfail.
    + now rewrite Hfail.
    + now injection Hfail as ->.
  - intros r Hpost Hstatus.
    rewrite (make_request_unfold _ _ _ _ _ _ _ Hz). cbv zeta.
    rewrite Hpost, (http_error_msg_none r Hstatus).
    now destruct (resp_json r).
Qed.

Lemma transport_failure_witness :
  fst (_make_request Standins.tool Standins.rt "/open-api/express/track/query"
         (VDict [])
         (Standins.carrier
            (Responded (Standins.response 502 "Bad Gateway" (inl "no JSON"))))
         Standins.start)
  = inl (Raise Exception
           "网络请求失败: 502 Server Error: Bad Gateway for url: https://uat-api.speedaf.com").
Proof.
  assert (H := transport_failure Standins.tool Standins.rt
                 "/open-api/express/track/query" (VDict [])
                 (Standins.carrier
                    (Responded (Standins.response 502 "Bad Gateway" (inl "no JSON"))))
                 Standins.start 1730000000625%Z).
  destruct H as (_ & H & _).
  - vm_compute. reflexivity.
  - rewrite (H "502 Server Error: Bad Gateway for url: https://uat-api.speedaf.com");
      reflexivity.
Defined.

(** The two stages at which a response fails to parse. *)
Lemma outer_parse_failure tool rt endpoint data out st z r message :
  timestamp out = inr z ->
  requests_post out (request_of tool (self st) endpoint data z) = Responded r ->
  http_error_msg r = None ->
  resp_json r = inl message ->
  fst (_make_request tool rt endpoint data out st)
  = inl (Raise Exception ("网络请求失败: " +:+ message)).
Proof.
  intros Hz Hpost Hstatus Hjson.
  rewrite (make_request_unfold _ _ _ _ _ _ _ Hz). cbv zeta.
  now rewrite Hpost, Hstatus, Hjson.
Qed.

Lemma inner_parse_failure tool rt endpoint data out st z r d enc b text message :
  timestamp out = inr z ->
  requests_post out (request_of tool (self st) endpoint data z) = Responded r ->
  http_error_msg r = None ->
  resp_json r = inr (VDict d) ->
  truthy (default VNone (lookup_key d "success")) = true ->
  lookup_key d "data" = Some enc ->
  truthy enc = true ->
  triple_des_decrypt tool enc = inr b ->
  bytes_decode rt b = inr text ->
  json_loads rt text = inl message ->
  fst (_make_request tool rt endpoint data out st)
  = inl (Raise Exception ("响应数据解析失败: " +:+ message)).
Proof.
  intros Hz Hpost Hstatus Hjson Hs Hd He Hdec Hb Hl.
  rewrite (make_request_unfold _ _ _ _ _ _ _ Hz). cbv zeta.
  rewrite Hpost, Hstatus, Hjson.
  rewrite (on_result_accepted _ _ _ _ _ _ Hs Hd He).
  now rewrite Hdec, Hb, Hl.
Qed.

(** C7, at a response 200 whose body is not JSON: the call raises the
    exception of the network failure, the one a refused connection gives,
    and not the one of the parse failure. *)
Theorem outer_parse_failure_is_network_failure :
  fst (_make_request Standins.tool Standins.rt "/open-api/express/track/query"
         (VDict [])
         (Standins.carrier
            (Responded (Standins.response 200 "OK"
                          (inl "Expecting value: line 1 column 1 (char 0)"))))
         Standins.start)
  = inl (Raise Exception
           "网络请求失败: Expecting value: line 1 column 1 (char 0)")
  /\ fst (_make_request Standins.tool Standins.rt "/open-api/express/track/query"
            (VDict [])
            (Standins.carrier (Failed ConnectionFailed "Connection refused"))
            Standins.start)
     = inl (Raise Exception "网络请求失败: Connection refused").
Proof.
  split.
  - apply (outer_parse_failure _ _ _ _ _ _ 1730000000625%Z
             (Standins.response 200 "OK"
                (inl "Expecting value: line 1 column 1 (char 0)")));
      vm_compute; reflexivity.
  - vm_compute. reflexivity.
Qed.

(** C8: [query_track] hands the payload [{"mailNoList": mail_no_list}] to
    the encryption step, posts to [/open-api/express/track/query], and
    returns the mapping the response decrypts to. *)
Theorem query_track_call :
  forall tool rt mail_no_list out st z r d enc b text j,
    timestamp out = inr z ->
    let data := VDict [("mailNoList", VList (map VStr mail_no_list))] in
    let req := request_of tool (self st) "/open-api/express/track/query" data z in
    requests_post out req = Responded r ->
    http_error_msg r = None ->
    resp_json r = inr (VDict d) ->
    truthy (default VNone (lookup_key d "success")) = true ->
    lookup_key d "data" = Some enc ->
    truthy enc = true ->
    triple_des_decrypt tool enc = inr b ->
    bytes_decode rt b = inr text ->
    json_loads rt text = inr j ->
    query_track tool rt mail_no_list out st
    = (inr j,
       {| self := self st;
          trace := trace st ++
                   [EvEncrypt data (str_of_int z); EvPost req; EvDecrypt enc] |}).
Proof.
  intros tool rt mail_no_list out st z r d enc b text j Hz data req
    Hpost Hstatus Hjson Hs Hd He Hdec Hb Hl.
  unfold query_track. cbv zeta. fold data.
  rewrite (make_request_unfold _ _ _ _ _ _ _ Hz). cbv zeta.
  fold req. rewrite Hpost, Hstatus, Hjson.
  rewrite (on_result_accepted _ _ _ _ _ _ Hs Hd He).
  rewrite Hdec, Hb, Hl.
  unfold decrypted, sent. cbn [self trace]. fold req.
  now rewrite <- app_assoc.
Qed.

Lemma query_track_call_witness :
  fst (query_track Standins.tool Standins.rt ["ABC123"]
         (Standins.carrier
            (Responded (Standins.response 200 "OK" (inr (Standins.envelope true)))))
         Standins.start)
  = inr (VDict []).
Proof.
  assert (H := query_track_call Standins.tool Standins.rt ["ABC123"]
                 (Standins.carrier
                    (Responded (Standins.response 200 "OK"
                                  (inr (Standins.envelope true)))))
                 Standins.start 1730000000625%Z
                 (Standins.response 200 "OK" (inr (Standins.envelope true)))
                 [("success", VBool true);
                  ("data", VStr Standins.empty_object_ciphertext)]
                 (VStr Standins.empty_object_ciphertext)
                 (list_byte_of_string "{}") "{}" (VDict [])).
  cbv zeta in H. rewrite H; reflexivity.
Defined.

(** C9: with none of the three variables set, the process-wide client is
    built with the sandbox URL and the placeholder credentials; whatever
    operations run afterwards, the client object stays as it was built. *)
Theorem default_configuration :
  forall environ : gmap string string,
    environ !! "SPEEDAF_APP_CODE" = None ->
    environ !! "SPEEDAF_SECRET_KEY" = None ->
    environ !! "SPEEDAF_BASE_URL" = None ->
    Main.speedaf_api environ
    = {| app_code := "11111111";
         secret_key := "uYMGr8eU";
         base_url := "https://uat-api.speedaf.com";
         headers := [("Content-Type", "text/plain")] |}
    /\ forall tool rt calls tr,
         self (perform_all tool rt calls
                 {| self := Main.speedaf_api environ; trace := tr |})
         = Main.speedaf_api environ.
Proof.
  intros environ Happ Hkey Hurl. split.
  - unfold Main.speedaf_api, Main.APP_CODE, Main.SECRET_KEY, Main.BASE_URL,
      Main.getenv.
    now rewrite Happ, Hkey, Hurl.
  - intros tool rt calls.
    generalize (Main.speedaf_api environ) as api.
    intros api tr.
    change api with (self {| self := api; trace := tr |}) at 2.
    generalize {| self := api; trace := tr |} as st.
    induction calls as [| [op out] calls IH]; intros st; [reflexivity |].
    cbn [perform_all]. rewrite IH. apply keeps_perform.
Qed.

Lemma default_configuration_witness :
  Main.speedaf_api ∅
  = {| app_code := "11111111";
       secret_key := "uYMGr8eU";
       base_url := "https://uat-api.speedaf.com";
       headers := [("Content-Type", "text/plain")] |}.
Proof.
  apply (default_configuration ∅); apply lookup_empty.
Defined.

End ClientClaims.

(** * Properties of the order builder *)

Module BuilderClaims.
Import Py Builder BuilderKeys BuilderFacts BuilderKeyFacts.

(** The calls on a new builder never raise. *)
Lemma calls_on_new_builder h0 calls :
  exists self h1 h2,
    OrderBuilder__init__ h0 = (inr self, h1)
    /\ perform_all self calls h1 = (inr tt, h2)
    /\ inv self (added calls) h0 h2.
Proof.
  destruct (init_inv h0) as (self & h1 & Hinit & Hinv).
  destruct (ok_perform_all self calls [] h0 h1 Hinv) as ([] & h2 & Hrun & Hinv2).
  now exists self, h1, h2.
Qed.

(** The calls on a new builder, with the dictionary they leave named. *)
Lemma calls_on_new_builder_at h0 calls :
  exists self h1 h2 d,
    OrderBuilder__init__ h0 = (inr self, h1)
    /\ perform_all self calls h1 = (inr tt, h2)
    /\ at_dict self (added calls) h0 d h2.
Proof.
  destruct (init_at h0) as (self & h1 & Hinit & Hat).
  destruct (ok_perform_all_effect self calls [] h0 [] h1 Hat)
    as ([] & h2 & Hrun & d & Hat2 & _).
  now exists self, h1, h2, d.
Qed.

(** The dictionary [build] returns is a new object of the store. *)
Lemma build_new self h r h' : build self h = (inr r, h') -> h !! r = None.
Proof.
  unfold build. unfold mbind at 1 2. unfold B_bind at 1 2.
  pose proof (items_to_count_pure self h) as Hpure.
  destruct (items_to_count self h) as [[e | c] h0]; [discriminate |].
  cbn [snd] in Hpure. subst h0.
  assert (Hcopy : forall h1,
            dom h ⊆ dom h1 ->
            (d ← load_dict (order_data self); alloc (DictObj d)) h1 = (inr r, h') ->
            h !! r = None).
  { intros h1 Hdom. unfold load_dict, alloc, mbind, B_bind.
    destruct (h1 !! order_data self) as [[d | l] |]; try discriminate.
    intros [= <- _]. apply not_elem_of_dom. intros Hin.
    exact (is_fresh (dom h1) (Hdom _ Hin)). }
  destruct c as [items |].
  - destruct (sum_qty 0 items) as [e | q]; [discriminate |].
    unfold setitem, load_dict, store, mbind, B_bind.
    destruct (h !! order_data self) as [[d | l] |]; try discriminate.
    apply Hcopy. rewrite dom_insert. set_solver.
  - now apply Hcopy.
Qed.

(** C10: when the order data a builder has accumulated holds a non-empty
    ["itemList"], [build] writes the sum of the ["goodsQTY"] of the items,
    the quantities [add_item] was given, under ["goodsQTY"] of the order
    data and returns a copy of it: a new dictionary of the store, not the
    builder's own, with the entries the order data has at that moment.
    Whatever calls follow on the builder, none raises and the entries of
    the returned mapping stay as they were. *)
Theorem build_total_and_copy :
  forall h0 before self h1 h2 items,
    OrderBuilder__init__ h0 = (inr self, h1) ->
    perform_all self before h1 = (inr tt, h2) ->
    item_list self h2 = Some items ->
    items <> [] ->
    exists r h3 d2 d,
      h2 !! order_data self = Some (DictObj d2)
      /\ build self h2 = (inr r, h3)
      /\ sum_qty 0 items = inr (total (added before))
      /\ d = dict_set d2 "goodsQTY" (Imm (VInt (total (added before))))
      /\ h3 !! order_data self = Some (DictObj d)
      /\ h2 !! r = None
      /\ r <> order_data self
      /\ h3 !! r = Some (DictObj d)
      /\ dict_get d "goodsQTY" = Some (Imm (VInt (total (added before))))
      /\ forall after,
           exists h4,
             perform_all self after h3 = (inr tt, h4)
             /\ h4 !! r = Some (DictObj d).
Proof.
  intros h0 before self h1 h2 items Hinit Hrun Hlist Hne.
  destruct (calls_on_new_builder_at h0 before)
    as (self' & h1' & h2' & d2 & Hinit' & Hrun' & Hat).
  rewrite Hinit in Hinit'. injection Hinit' as <- <-.
  rewrite Hrun in Hrun'. injection Hrun' as <-.
  pose proof (inv_item_list _ _ _ _ _ (proj1 Hat) Hlist) as ->.
  assert (Hadded : added before <> []) by (intros E; rewrite E in Hne; now apply Hne).
  destruct (ok_build_effect self (added before) h0 d2 h2 Hat)
    as (r & h3 & Hbuild & [Hinv3 Hdata3] & Hfr & Hr & Hd).
  assert (Hcounted : counted (added before) d2
                     = dict_set d2 "goodsQTY" (Imm (VInt (total (added before)))))
    by (unfold counted; now destruct (added before)).
  rewrite Hcounted in Hdata3, Hd.
  exists r, h3, d2, (dict_set d2 "goodsQTY" (Imm (VInt (total (added before))))).
  split; [now apply data_lookup, Hat |].
  split; [exact Hbuild |].
  split; [now rewrite sum_qty_make_item |].
  split; [reflexivity |].
  split; [now apply data_lookup |].
  split; [exact (build_new _ _ _ _ Hbuild) |].
  split; [exact Hr |].
  split; [exact Hd |].
  split; [apply dict_get_set_eq |].
  intros after.
  pose proof (inv_frame_insert _ _ _ _ _ _ Hinv3 Hd Hr) as Hinv3'.
  destruct (ok_perform_all self after _ _ h3 Hinv3') as ([] & h4 & Hafter & Hinv4).
  exists h4. split; [exact Hafter |].
  destruct Hinv4 as (Hsub & _).
  eapply lookup_weaken; [apply lookup_insert_eq | exact Hsub].
Qed.

Lemma build_total_and_copy_witness :
  item_list Sample.builder Sample.store1 <> Some []
  /\ exists r h3 d,
       build Sample.builder Sample.store1 = (inr r, h3)
       /\ h3 !! r = Some (DictObj d)
       /\ h3 !! order_data Sample.builder = Some (DictObj d)
       /\ r <> order_data Sample.builder
       /\ dict_get d "customerCode" = Some (Imm (VStr "MA000027"))
       /\ dict_get d "goodsQTY" = Some (Imm (VInt 5)).
Proof.
  split; [vm_compute; discriminate |].
  destruct (build_total_and_copy ∅ Sample.calls Sample.builder Sample.store0
              Sample.store1
              (make_item <$> added Sample.calls))
    as (r & h3 & d2 & d & Hd2 & Hbuild & _ & Hd & Hself & _ & Hr & Hcopy & Hqty & _).
  - reflexivity.
  - vm_compute. reflexivity.
  - vm_compute. reflexivity.
  - discriminate.
  - exists r, h3, d.
    split; [exact Hbuild |]. split; [exact Hcopy |]. split; [exact Hself |].
    split; [exact Hr |]. split; [| exact Hqty].
    assert (Hd2' : Sample.store1 !! order_data Sample.builder
                   = Some (DictObj d2)) by exact Hd2.
    vm_compute in Hd2'. injection Hd2' as <-.
    rewrite Hd. reflexivity.
Defined.

End BuilderClaims.

(** * Further properties of the transport client *)

Module ClientExtras.
Import Py Client Call ClientFacts.

(** X1: when the envelope is accepted and the decrypted, decoded text is
    not JSON, the call raises the exception of the parse failure, whose text
    carries the message of [json.loads], after one request and one
    decryption. *)
Theorem inner_parse_failure_reported :
  forall tool rt endpoint data out st z r d enc b text message,
    timestamp out = inr z ->
    requests_post out (request_of tool (self st) endpoint data z) = Responded r ->
    http_error_msg r = None ->
    resp_json r = inr (VDict d) ->
    truthy (default VNone (lookup_key d "success")) = true ->
    lookup_key d "data" = Some enc ->
    truthy enc = true ->
    triple_des_decrypt tool enc = inr b ->
    bytes_decode rt b = inr text ->
    json_loads rt text = inl message ->
    _make_request tool rt endpoint data out st
    = (inl (Raise Exception ("响应数据解析失败: " +:+ message)),
       decrypted enc (sent tool endpoint data z st)).
Proof.
  intros tool rt endpoint data out st z r d enc b text message
    Hz Hpost Hstatus Hjson Hs Hd He Hdec Hb Hl.
  rewrite (make_request_unfold _ _ _ _ _ _ _ Hz). cbv zeta.
  rewrite Hpost, Hstatus, Hjson.
  rewrite (on_result_accepted _ _ _ _ _ _ Hs Hd He).
  now rewrite Hdec, Hb, Hl.
Qed.

Lemma inner_parse_failure_reported_witness :
  fst (_make_request Standins.tool Standins.rt "/open-api/express/track/query"
         (VDict [])
         (Cases.answering (inr (Cases.accepted (VStr Cases.not_json_ciphertext))))
         Standins.start)
  = inl (Raise Exception
           "响应数据解析失败: Expecting value: line 1 column 1 (char 0)").
Proof.
  rewrite (inner_parse_failure_reported Standins.tool Standins.rt
             "/open-api/express/track/query" (VDict [])
             (Cases.answering (inr (Cases.accepted (VStr Cases.not_json_ciphertext))))
             Standins.start 1730000000625%Z
             (Cases.ok_response (inr (Cases.accepted (VStr Cases.not_json_ciphertext))))
             [("success", VBool true); ("data", VStr Cases.not_json_ciphertext)]
             (VStr Cases.not_json_ciphertext)
             (list_byte_of_string "oops") "oops"
             "Expecting value: line 1 column 1 (char 0)");
    reflexivity.
Defined.

(** X2: a response that passes [raise_for_status] and parses to something
    that is not an object (a list, a string, [null]) makes the call raise
    [AttributeError] at [result.get]; neither [except] clause rewrites it,
    and nothing is decrypted. *)
Theorem non_object_body_raises_attribute_error :
  forall tool rt endpoint data out st z r result,
    timestamp out = inr z ->
    requests_post out (request_of tool (self st) endpoint data z) = Responded r ->
    http_error_msg r = None ->
    resp_json r = inr result ->
    (forall d, result <> VDict d) ->
    exists message,
      _make_request tool rt endpoint data out st
      = (inl (Raise AttributeError message), sent tool endpoint data z st).
Proof.
  intros tool rt endpoint data out st z r result Hz Hpost Hstatus Hjson Hnot.
  rewrite (make_request_unfold _ _ _ _ _ _ _ Hz). cbv zeta.
  rewrite Hpost, Hstatus, Hjson.
  destruct result; try (eexists; reflexivity).
  now destruct (Hnot d).
Qed.

Lemma non_object_body_raises_attribute_error_witness :
  exists message,
    fst (_make_request Standins.tool Standins.rt "/open-api/express/track/query"
           (VDict []) (Cases.answering (inr (VList []))) Standins.start)
    = inl (Raise AttributeError message).
Proof.
  destruct (non_object_body_raises_attribute_error Standins.tool Standins.rt
              "/open-api/express/track/query" (VDict [])
              (Cases.answering (inr (VList []))) Standins.start
              1730000000625%Z (Cases.ok_response (inr (VList []))) (VList []))
    as [message H]; try reflexivity.
  - intros d. discriminate.
  - exists message. now rewrite H.
Defined.

(** X3: when the decrypted bytes do not decode, the [UnicodeDecodeError]
    leaves the call as it is: it is an instance of neither class the
    [except] clauses name. *)
Theorem decode_failure_is_not_rewritten :
  forall tool rt endpoint data out st z r d enc b message,
    timestamp out = inr z ->
    requests_post out (request_of tool (self st) endpoint data z) = Responded r ->
    http_error_msg r = None ->
    resp_json r = inr (VDict d) ->
    truthy (default VNone (lookup_key d "success")) = true ->
    lookup_key d "data" = Some enc ->
    truthy enc = true ->
    triple_des_decrypt tool enc = inr b ->
    bytes_decode rt b = inl message ->
    _make_request tool rt endpoint data out st
    = (inl (Raise UnicodeDecodeError message),
       decrypted enc (sent tool endpoint data z st)).
Proof.
  intros tool rt endpoint data out st z r d enc b message
    Hz Hpost Hstatus Hjson Hs Hd He Hdec Hb.
  rewrite (make_request_unfold _ _ _ _ _ _ _ Hz). cbv zeta.
  rewrite Hpost, Hstatus, Hjson.
  rewrite (on_result_accepted _ _ _ _ _ _ Hs Hd He).
  now rewrite Hdec, Hb.
Qed.

Lemma decode_failure_is_not_rewritten_witness :
  fst (_make_request Standins.tool Cases.strict_rt "/open-api/express/track/query"
         (VDict [])
         (Cases.answering (inr (Standins.envelope true)))
         Standins.start)
  = inl (Raise UnicodeDecodeError "'utf-8' codec can't decode byte").
Proof.
  rewrite (decode_failure_is_not_rewritten Standins.tool Cases.strict_rt
             "/open-api/express/track/query" (VDict [])
             (Cases.answering (inr (Standins.envelope true)))
             Standins.start 1730000000625%Z
             (Cases.ok_response (inr (Standins.envelope true)))
             [("success", VBool true);
              ("data", VStr Standins.empty_object_ciphertext)]
             (VStr Standins.empty_object_ciphertext)
             (list_byte_of_string "{}")
             "'utf-8' codec can't decode byte");
    reflexivity.
Defined.

(** X4: an exception of the decryption step that is an instance of neither
    [RequestException] nor [json.JSONDecodeError] leaves the call
    unchanged, with its own class and text. *)
Theorem decrypt_error_passes_through :
  forall tool rt endpoint data out st z r d enc e,
    timestamp out = inr z ->
    requests_post out (request_of tool (self st) endpoint data z) = Responded r ->
    http_error_msg r = None ->
    resp_json r = inr (VDict d) ->
    truthy (default VNone (lookup_key d "success")) = true ->
    lookup_key d "data" = Some enc ->
    truthy enc = true ->
    triple_des_decrypt tool enc = inl e ->
    is_instance (exc_cls e) RequestException = false ->
    is_instance (exc_cls e) JSONDecodeError = false ->
    _make_request tool rt endpoint data out st
    = (inl e, decrypted enc (sent tool endpoint data z st)).
Proof.
  intros tool rt endpoint data out st z r d enc e
    Hz Hpost Hstatus Hjson Hs Hd He Hdec Hreq Hjs.
  rewrite (make_request_unfold _ _ _ _ _ _ _ Hz). cbv zeta.
  rewrite Hpost, Hstatus, Hjson.
  rewrite (on_result_accepted _ _ _ _ _ _ Hs Hd He), Hdec.
  unfold handler. now rewrite Hreq, Hjs.
Qed.

Lemma decrypt_error_passes_through_witness :
  fst (_make_request Standins.tool Standins.rt "/open-api/express/track/query"
         (VDict [])
         (Cases.answering (inr (Cases.accepted (VStr "not hexadecimal"))))
         Standins.start)
  = inl (Raise ValueError "malformed ciphertext").
Proof.
  rewrite (decrypt_error_passes_through Standins.tool Standins.rt
             "/open-api/express/track/query" (VDict [])
             (Cases.answering (inr (Cases.accepted (VStr "not hexadecimal"))))
             Standins.start 1730000000625%Z
             (Cases.ok_response (inr (Cases.accepted (VStr "not hexadecimal"))))
             [("success", VBool true); ("data", VStr "not hexadecimal")]
             (VStr "not hexadecimal")
             (Raise ValueError "malformed ciphertext"));
    reflexivity.
Defined.

(** A clock reading [int] refuses ends the call before anything is sent. *)
Lemma make_request_clock_error tool rt endpoint data out st e :
  timestamp out = inl e ->
  _make_request tool rt endpoint data out st = (inl e, st).
Proof.
  unfold timestamp, _make_request. intros H.
  unfold mbind, M_bind, outside, lift. now rewrite H.
Qed.

(** X5: a call hands something to the decryption step only when the
    response passed [raise_for_status] and parsed to an object whose
    [success] and [data] are both truthy; what it hands over is that
    [data], once. *)
Theorem decryption_only_of_accepted_envelope :
  forall tool rt endpoint data out st,
    decrypts (trace (snd (_make_request tool rt endpoint data out st)))
    <> decrypts (trace st) ->
    exists z r d enc,
      timestamp out = inr z
      /\ requests_post out (request_of tool (self st) endpoint data z) = Responded r
      /\ http_error_msg r = None
      /\ resp_json r = inr (VDict d)
      /\ truthy (default VNone (lookup_key d "success")) = true
      /\ lookup_key d "data" = Some enc
      /\ truthy enc = true
      /\ decrypts (trace (snd (_make_request tool rt endpoint data out st)))
         = decrypts (trace st) ++ [enc].
Proof.
  intros tool rt endpoint data out st Hchanged.
  destruct (timestamp out) as [e | z] eqn:Hz.
  { rewrite (make_request_clock_error _ _ _ _ _ _ _ Hz) in Hchanged.
    now destruct Hchanged. }
  assert (Hsent : decrypts (trace (sent tool endpoint data z st)) = decrypts (trace st)).
  { cbn [sent trace]. rewrite decrypts_app. cbn. apply app_nil_r. }
  rewrite (make_request_unfold _ _ _ _ _ _ _ Hz) in Hchanged |- *.
  cbv zeta in Hchanged |- *.
  destruct (requests_post out _) as [r | f message] eqn:Hpost;
    [| now destruct Hchanged].
  destruct (http_error_msg r) eqn:Hstatus; [now destruct Hchanged |].
  destruct (resp_json r) as [message | result] eqn:Hjson; [now destruct Hchanged |].
  destruct result as [| b | n | f | s | l | d];
    try (now destruct Hchanged).
  destruct (truthy (default VNone (lookup_key d "success"))
            && truthy (default VNone (lookup_key d "data"))) eqn:Hok.
  - apply andb_true_iff in Hok as [Hs Hd].
    destruct (truthy_lookup _ _ Hd) as (enc & Hlk & He).
    exists z, r, d, enc. repeat (split; [assumption || reflexivity |]).
    rewrite (on_result_accepted _ _ _ _ _ _ Hs Hlk He).
    assert (Hdec : decrypts (trace (decrypted enc (sent tool endpoint data z st)))
                   = decrypts (trace st) ++ [enc]).
    { cbn [decrypted trace]. rewrite decrypts_app, Hsent. reflexivity. }
    destruct (triple_des_decrypt tool enc) as [e | b].
    + now rewrite handler_state.
    + destruct (bytes_decode rt b) as [message | text]; [exact Hdec |].
      destruct (json_loads rt text); exact Hdec.
  - rewrite (on_result_rejected _ _ _ _ _ Hok) in Hchanged. now destruct Hchanged.
Qed.

Lemma decryption_only_of_accepted_envelope_witness :
  exists enc,
    decrypts (trace (snd (_make_request Standins.tool Standins.rt
                            "/open-api/express/track/query" (VDict [])
                            (Cases.answering (inr (Standins.envelope true)))
                            Standins.start)))
    = [enc].
Proof.
  destruct (decryption_only_of_accepted_envelope Standins.tool Standins.rt
              "/open-api/express/track/query" (VDict [])
              (Cases.answering (inr (Standins.envelope true))) Standins.start)
    as (z & r & d & enc & _ & _ & _ & _ & _ & _ & _ & H).
  - vm_compute. discriminate.
  - exists enc. exact H.
Defined.

(** X6: [create_order] hands the order mapping itself, not a list around
    it, to the encryption step, posts to
    [/open-api/express/order/createOrder], and returns the mapping the
    response decrypts to. *)
Theorem create_order_call :
  forall tool rt order_data out st z r d enc b text j,
    timestamp out = inr z ->
    let req := request_of tool (self st) "/open-api/express/order/createOrder"
                 order_data z in
    requests_post out req = Responded r ->
    http_error_msg r = None ->
    resp_json r = inr (VDict d) ->
    truthy (default VNone (lookup_key d "success")) = true ->
    lookup_key d "data" = Some enc ->
    truthy enc = true ->
    triple_des_decrypt tool enc = inr b ->
    bytes_decode rt b = inr text ->
    json_loads rt text = inr j ->
    create_order tool rt order_data out st
    = (inr j,
       {| self := self st;
          trace := trace st ++
                   [EvEncrypt order_data (str_of_int z); EvPost req; EvDecrypt enc] |}).
Proof.
  intros tool rt order_data out st z r d enc b text j Hz req
    Hpost Hstatus Hjson Hs Hd He Hdec Hb Hl.
  unfold create_order. cbv zeta.
  rewrite (make_request_unfold _ _ _ _ _ _ _ Hz). cbv zeta.
  fold req. rewrite Hpost, Hstatus, Hjson.
  rewrite (on_result_accepted _ _ _ _ _ _ Hs Hd He).
  rewrite Hdec, Hb, Hl.
  unfold decrypted, sent. cbn [self trace]. fold req.
  now rewrite <- app_assoc.
Qed.

Lemma create_order_call_witness :
  fst (create_order Standins.tool Standins.rt
         (VDict [("customerCode", VStr "MA000027")])
         (Cases.answering (inr (Standins.envelope true)))
         Standins.start)
  = inr (VDict []).
Proof.
  assert (H := create_order_call Standins.tool Standins.rt
                 (VDict [("customerCode", VStr "MA000027")])
                 (Cases.answering (inr (Standins.envelope true)))
                 Standins.start 1730000000625%Z
                 (Cases.ok_response (inr (Standins.envelope true)))
                 [("success", VBool true);
                  ("data", VStr Standins.empty_object_ciphertext)]
                 (VStr Standins.empty_object_ciphertext)
                 (list_byte_of_string "{}") "{}" (VDict [])).
  cbv zeta in H. rewrite H; reflexivity.
Defined.

(** X7: [cancel_order] posts to [/open-api/express/order/cancelOrder] and
    [update_order] to [/open-api/express/order/updateOrder], each once,
    with the query of the client's app code and the timestamp. *)
Theorem cancel_update_endpoints :
  forall tool rt out st z customer_code bill_code cancel_reason order_data,
    timestamp out = inr z ->
    map req_url
      (posts (trace (snd (cancel_order tool rt customer_code bill_code
                            cancel_reason out st))))
    = map req_url (posts (trace st)) ++
      [ base_url (self st) +:+ "/open-api/express/order/cancelOrder"
        +:+ "?appCode=" +:+ app_code (self st)
        +:+ "&timestamp=" +:+ str_of_int z ]
    /\ map req_url (posts (trace (snd (update_order tool rt order_data out st))))
       = map req_url (posts (trace st)) ++
         [ base_url (self st) +:+ "/open-api/express/order/updateOrder"
           +:+ "?appCode=" +:+ app_code (self st)
           +:+ "&timestamp=" +:+ str_of_int z ].
Proof.
  intros tool rt out st z customer_code bill_code cancel_reason order_data Hz.
  unfold cancel_order, update_order. cbv zeta.
  rewrite !(make_request_posts _ _ _ _ _ _ _ Hz), !map_app.
  split; reflexivity.
Qed.

Lemma cancel_update_endpoints_witness :
  map req_url
    (posts (trace (snd (cancel_order Standins.tool Standins.rt
                          "NG000660" "NG0206830525525" None
                          (Cases.answering (inr (Standins.envelope true)))
                          Standins.start))))
  = [ "https://uat-api.speedaf.com/open-api/express/order/cancelOrder?appCode=11111111&timestamp=1730000000625" ].
Proof.
  apply (cancel_update_endpoints Standins.tool Standins.rt
           (Cases.answering (inr (Standins.envelope true))) Standins.start
           1730000000625%Z "NG000660" "NG0206830525525" None VNone).
  reflexivity.
Defined.

(** One operation sends one request. *)
Lemma perform_posts tool rt op out st z :
  timestamp out = inr z ->
  length (posts (trace (snd (perform tool rt op out st))))
  = S (length (posts (trace st))).
Proof.
  intros Hz.
  destruct op; cbn [perform];
    unfold create_order, query_track, cancel_order, update_order; cbv zeta;
    rewrite (make_request_posts _ _ _ _ _ _ _ Hz), length_app; cbn; lia.
Qed.

(** X8: a run of operations sends one request per operation, whatever
    each one ends with: a failure is not tried again and does not stop the
    operations after it. *)
Theorem one_request_per_operation :
  forall tool rt calls st,
    Forall (fun c => exists z, timestamp (snd c) = inr z) calls ->
    length (posts (trace (perform_all tool rt calls st)))
    = length (posts (trace st)) + length calls.
Proof.
  intros tool rt calls.
  induction calls as [| [op out] calls IH]; intros st Hall.
  - cbn. lia.
  - inversion Hall as [| ? ? [z Hz] Hrest]; subst.
    cbn [perform_all length]. rewrite IH by exact Hrest.
    cbn [snd] in Hz. rewrite (perform_posts _ _ _ _ _ _ Hz). lia.
Qed.

Lemma one_request_per_operation_witness :
  length (posts (trace (perform_all Standins.tool Standins.rt
                          [ (QueryTrack ["ABC123"],
                             Standins.carrier (Failed TimedOut "timed out"));
                            (CancelOrder "NG000660" "NG0206830525525" None,
                             Cases.answering (inr (Standins.envelope true))) ]
                          Standins.start)))
  = 2.
Proof.
  apply (one_request_per_operation Standins.tool Standins.rt
           [ (QueryTrack ["ABC123"],
              Standins.carrier (Failed TimedOut "timed out"));
             (CancelOrder "NG000660" "NG0206830525525" None,
              Cases.answering (inr (Standins.envelope true))) ]
           Standins.start).
  repeat constructor; exists 1730000000625%Z; reflexivity.
Defined.

Lemma handler_raises {A : Type} (e : exc) out st :
  exists e', fst (handler (A := A) e out st) = inl e'.
Proof.
  unfold handler, raise.
  destruct (is_instance _ RequestException); [eauto |].
  destruct (is_instance _ JSONDecodeError); eauto.
Qed.

(** A returned value comes from an accepted envelope. *)
Lemma make_request_returns :
  forall tool rt endpoint data out st j,
    fst (_make_request tool rt endpoint data out st) = inr j ->
    exists z r d enc b text,
      timestamp out = inr z
      /\ requests_post out (request_of tool (self st) endpoint data z) = Responded r
      /\ http_error_msg r = None
      /\ resp_json r = inr (VDict d)
      /\ truthy (default VNone (lookup_key d "success")) = true
      /\ lookup_key d "data" = Some enc
      /\ truthy enc = true
      /\ triple_des_decrypt tool enc = inr b
      /\ bytes_decode rt b = inr text
      /\ json_loads rt text = inr j.
Proof.
  intros tool rt endpoint data out st j Hret.
  destruct (timestamp out) as [e | z] eqn:Hz.
  { rewrite (make_request_clock_error _ _ _ _ _ _ _ Hz) in Hret. discriminate Hret. }
  rewrite (make_request_unfold _ _ _ _ _ _ _ Hz) in Hret. cbv zeta in Hret.
  destruct (requests_post out _) as [r | f message] eqn:Hpost; [| discriminate Hret].
  destruct (http_error_msg r) eqn:Hstatus; [discriminate Hret |].
  destruct (resp_json r) as [message | result] eqn:Hjson; [discriminate Hret |].
  destruct result as [| b | n | f | s | l | d]; try discriminate Hret.
  destruct (truthy (default VNone (lookup_key d "success"))
            && truthy (default VNone (lookup_key d "data"))) eqn:Hok.
  - apply andb_true_iff in Hok as [Hs Hd].
    destruct (truthy_lookup _ _ Hd) as (enc & Hlk & He).
    rewrite (on_result_accepted _ _ _ _ _ _ Hs Hlk He) in Hret.
    destruct (triple_des_decrypt tool enc) as [e | b] eqn:Hdec.
    { destruct (handler_raises (A := value) e out
                  (decrypted enc (sent tool endpoint data z st))) as [e' He'].
      rewrite He' in Hret. discriminate Hret. }
    destruct (bytes_decode rt b) as [message | text] eqn:Hb; [discriminate Hret |].
    destruct (json_loads rt text) as [message | j'] eqn:Hl; [discriminate Hret |].
    cbn in Hret. injection Hret as <-.
    exists z, r, d, enc, b, text. repeat (split; [assumption || reflexivity |]).
    exact Hl.
  - rewrite (on_result_rejected _ _ _ _ _ Hok) in Hret. discriminate Hret.
Qed.

(** X9: a call returns a value only when the response passed
    [raise_for_status], parsed to an object with truthy [success] and
    [data], and that [data] decrypted, decoded and parsed; the value is
    what [json.loads] gave. *)
Theorem result_only_from_accepted_envelope :
  forall tool rt endpoint data out st j,
    fst (_make_request tool rt endpoint data out st) = inr j ->
    exists z r d enc b text,
      timestamp out = inr z
      /\ requests_post out (request_of tool (self st) endpoint data z) = Responded r
      /\ http_error_msg r = None
      /\ resp_json r = inr (VDict d)
      /\ truthy (default VNone (lookup_key d "success")) = true
      /\ lookup_key d "data" = Some enc
      /\ truthy enc = true
      /\ triple_des_decrypt tool enc = inr b
      /\ bytes_decode rt b = inr text
      /\ json_loads rt text = inr j.
Proof.
  intros tool rt endpoint data out st j Hret.
  destruct (make_request_returns tool rt endpoint data out st j Hret)
    as (z & r & d & enc & b & text & H).
  now exists z, r, d, enc, b, text.
Qed.

Lemma result_only_from_accepted_envelope_witness :
  exists text,
    json_loads Standins.rt text = inr (VDict []).
Proof.
  destruct (result_only_from_accepted_envelope Standins.tool Standins.rt
              "/open-api/express/track/query" (VDict [])
              (Cases.answering (inr (Standins.envelope true))) Standins.start
              (VDict []) eq_refl)
    as (z & r & d & enc & b & text & _ & _ & _ & _ & _ & _ & _ & _ & _ & H).
  exists text. exact H.
Defined.

End ClientExtras.

(** * Further properties of the order builder *)

Module BuilderExtras.
Import Py Builder BuilderKeys BuilderFacts BuilderKeyFacts.

Lemma entry_of_data self h d k :
  data self h = Some d -> entry_of self h k = dict_get d k.
Proof. unfold entry_of. now intros ->. Qed.

(** A new builder after [before], then after [calls]: both runs end
    without raising, and the second writes keys of its calls only. *)
Lemma two_runs h0 before calls :
  exists self h1 h2 h3 d2 d3,
    OrderBuilder__init__ h0 = (inr self, h1)
    /\ perform_all self before h1 = (inr tt, h2)
    /\ perform_all self calls h2 = (inr tt, h3)
    /\ at_dict self (added before) h0 d2 h2
    /\ at_dict self (added before ++ added calls) h0 d3 h3
    /\ changes_only (concat (written <$> calls)) d2 d3.
Proof.
  destruct (init_at h0) as (self & h1 & Hinit & Hat1).
  destruct (ok_perform_all_effect self before [] h0 [] h1 Hat1)
    as ([] & h2 & Hrun & d2 & Hat2 & _).
  destruct (ok_perform_all_effect self calls _ h0 d2 h2 Hat2)
    as ([] & h3 & Hrun' & d3 & Hat3 & Hch).
  exists self, h1, h2, h3, d2, d3.
  repeat (split; [assumption |]). assumption.
Qed.

Lemma not_written_by_any k calls :
  Forall (fun c => k ∉ written c) calls -> k ∉ concat (written <$> calls).
Proof.
  induction 1 as [| c calls Hc _ IH]; cbn; [apply not_elem_of_nil |].
  rewrite elem_of_app. tauto.
Qed.

(** X10: a run of calls on a builder changes, in [order_data], only the keys
    its calls write: the entry under any other key is the same before and
    after (so [set_parcel_info] without a volume leaves an earlier
    [parcelVolume] in place, and one party's setter leaves the other
    party's fields alone).  No call of the run raises. *)
Theorem calls_write_only_their_keys :
  forall h0 before calls,
    exists self h1 h2 h3,
      OrderBuilder__init__ h0 = (inr self, h1)
      /\ perform_all self before h1 = (inr tt, h2)
      /\ perform_all self calls h2 = (inr tt, h3)
      /\ forall k,
           Forall (fun c => k ∉ written c) calls ->
           entry_of self h3 k = entry_of self h2 k.
Proof.
  intros h0 before calls.
  destruct (two_runs h0 before calls)
    as (self & h1 & h2 & h3 & d2 & d3 & Hinit & Hrun & Hrun' & Hat2 & Hat3 & Hch).
  exists self, h1, h2, h3. repeat (split; [assumption |]).
  intros k Hk.
  rewrite (entry_of_data _ _ _ _ (proj2 Hat2)), (entry_of_data _ _ _ _ (proj2 Hat3)).
  apply Hch, not_written_by_any, Hk.
Qed.

(** X11: no call removes a key: a key [order_data] has before a run of
    calls, it has after it. *)
Theorem no_call_removes_a_key :
  forall h0 before calls,
    exists self h1 h2 h3,
      OrderBuilder__init__ h0 = (inr self, h1)
      /\ perform_all self before h1 = (inr tt, h2)
      /\ perform_all self calls h2 = (inr tt, h3)
      /\ forall k,
           is_Some (entry_of self h2 k) -> is_Some (entry_of self h3 k).
Proof.
  intros h0 before calls.
  destruct (two_runs h0 before calls)
    as (self & h1 & h2 & h3 & d2 & d3 & Hinit & Hrun & Hrun' & Hat2 & Hat3 & Hch).
  exists self, h1, h2, h3. repeat (split; [assumption |]).
  intros k.
  rewrite (entry_of_data _ _ _ _ (proj2 Hat2)), (entry_of_data _ _ _ _ (proj2 Hat3)).
  apply Hch.
Qed.

Ltac not_listed :=
  let H := fresh in
  intros H;
  repeat (apply elem_of_cons in H; destruct H as [H | H]; [discriminate H |]);
  now apply elem_of_nil in H.

(** While no item was added, no call touches ["itemList"] or ["goodsQTY"]. *)
Lemma effect_without_items c d d' :
  effect c [] d d' -> added [c] = [] ->
  dict_get d' "itemList" = dict_get d "itemList"
  /\ dict_get d' "goodsQTY" = dict_get d "goodsQTY".
Proof.
  intros [[Hframe _] Hc] Hadded.
  destruct c; try discriminate Hadded;
    try (split; apply Hframe; cbn; not_listed).
  - (* set_parcel_info *)
    split; apply Hframe; cbn;
      destruct volume, length, width, height; cbn; not_listed.
  - (* build *)
    cbn in Hc. now subst d'.
Qed.

Lemma run_without_items self calls : forall frame d,
  added calls = [] ->
  ok (at_dict self [] frame d) (perform_all self calls)
     (fun _ h =>
        exists d', at_dict self [] frame d' h
                   /\ dict_get d' "itemList" = dict_get d "itemList"
                   /\ dict_get d' "goodsQTY" = dict_get d "goodsQTY").
Proof.
  induction calls as [| c calls IH]; intros frame d Hadded.
  - apply ok_ret. intros h H. now exists d.
  - assert (Hc : added [c] = [] /\ added calls = []).
    { change (c :: calls) with ([c] ++ calls) in Hadded.
      unfold added in *. rewrite omap_app in Hadded.
      now apply app_eq_nil in Hadded. }
    destruct Hc as [Hc Hrest]. cbn [perform_all].
    intros h Hat.
    destruct (ok_perform_effect self [] frame d c h Hat)
      as ([] & h1 & E1 & d1 & Hat1 & Heff).
    rewrite Hc in Hat1. cbn [app] in Hat1.
    destruct (effect_without_items c d d1 Heff Hc) as [Hi Hq].
    destruct (IH frame d1 Hrest h1 Hat1) as ([] & h2 & E2 & d2 & Hat2 & Hi2 & Hq2).
    exists tt, h2. split.
    + unfold mbind, B_bind. now rewrite E1.
    + exists d2. split; [exact Hat2 |]. split; congruence.
Qed.

(** X12: [build] on a builder no item was added to returns a mapping
    without ["goodsQTY"] and without ["itemList"]: the total is written
    only when there are items. *)
Theorem build_without_items :
  forall h0 calls,
    added calls = [] ->
    exists self h1 h2 r h3 d,
      OrderBuilder__init__ h0 = (inr self, h1)
      /\ perform_all self calls h1 = (inr tt, h2)
      /\ build self h2 = (inr r, h3)
      /\ h3 !! r = Some (DictObj d)
      /\ dict_get d "goodsQTY" = None
      /\ dict_get d "itemList" = None.
Proof.
  intros h0 calls Hadded.
  destruct (init_at h0) as (self & h1 & Hinit & Hat1).
  destruct (run_without_items self calls h0 [] Hadded h1 Hat1)
    as ([] & h2 & Hrun & d2 & Hat2 & Hi & Hq).
  destruct (ok_build_effect self [] h0 d2 h2 Hat2) as (r & h3 & Hbuild & _ & _ & _ & Hr).
  exists self, h1, h2, r, h3, d2. cbn [counted] in Hr.
  repeat (split; [assumption |]). exact Hi.
Qed.

Lemma build_without_items_witness :
  exists r h3 d,
    build Sample.builder
      (snd (perform_all Sample.builder [SetCustomerCode "MA000027"] Sample.store0))
    = (inr r, h3)
    /\ h3 !! r = Some (DictObj d)
    /\ dict_get d "goodsQTY" = None.
Proof.
  destruct (build_without_items ∅ [SetCustomerCode "MA000027"] eq_refl)
    as (self & h1 & h2 & r & h3 & d & Hinit & Hrun & Hbuild & Hr & Hq & _).
  injection Hinit as <- <-.
  exists r, h3, d.
  assert (Hs : snd (perform_all Sample.builder [SetCustomerCode "MA000027"]
                      Sample.store0) = h2)
    by exact (f_equal snd Hrun).
  rewrite Hs. split; [exact Hbuild | split; assumption].
Defined.

(** X13: [add_item] accumulates: after any run of calls on a new builder
    the list under ["itemList"] holds one dictionary per [add_item] call,
    in the order of the calls, whatever setters and [build]s came between;
    without any [add_item] the key is not there. *)
Theorem items_in_call_order :
  forall h0 calls,
    exists self h1 h2,
      OrderBuilder__init__ h0 = (inr self, h1)
      /\ perform_all self calls h1 = (inr tt, h2)
      /\ item_list self h2
         = match added calls with
           | [] => None
           | _ => Some (make_item <$> added calls)
           end.
Proof.
  intros h0 calls.
  destruct (init_at h0) as (self & h1 & Hinit & Hat1).
  destruct (ok_perform_all_effect self calls [] h0 [] h1 Hat1)
    as ([] & h2 & Hrun & d2 & Hat2 & _).
  exists self, h1, h2. repeat (split; [assumption |]).
  cbn [app] in Hat2.
  destruct (added calls) as [| a items] eqn:Hadded.
  - destruct (run_without_items self calls h0 [] Hadded h1 Hat1)
      as ([] & h2' & Hrun' & d2' & [_ Hdata] & Hi & _).
    rewrite Hrun in Hrun'. injection Hrun' as <-.
    apply data_lookup in Hdata. unfold item_list. rewrite Hdata.
    cbn in Hi. now rewrite Hi.
  - destruct Hat2 as [(_ & _ & d & Hd & Hitems) _].
    unfold item_list. rewrite Hd.
    destruct (dict_get d "itemList") as [[v | l] |];
      [destruct Hitems | | discriminate Hitems].
    destruct Hitems as [_ ->]. reflexivity.
Qed.

(** The entry under ["customerCode"] after a run of calls. *)
Lemma run_customer_code self calls : forall items frame d,
  ok (at_dict self items frame d) (perform_all self calls)
     (fun _ h =>
        exists d', at_dict self (items ++ added calls) frame d' h
                   /\ dict_get d' "customerCode"
                      = match last_customer_code calls with
                        | Some s => Some (Imm (VStr s))
                        | None => dict_get d "customerCode"
                        end).
Proof.
  induction calls as [| c calls IH]; intros items frame d.
  - cbn. rewrite app_nil_r. apply ok_ret. intros h H. now exists d.
  - cbn [perform_all]. intros h Hat.
    destruct (ok_perform_effect self items frame d c h Hat)
      as ([] & h1 & E1 & d1 & Hat1 & [[Hframe _] Hc]).
    destruct (IH _ frame d1 h1 Hat1) as ([] & h2 & E2 & d2 & Hat2 & Hcc).
    exists tt, h2. split; [unfold mbind, B_bind; now rewrite E1 |].
    exists d2. split.
    + replace (added (c :: calls)) with (added [c] ++ added calls)
        by (unfold added; now rewrite <- omap_app).
      now rewrite app_assoc.
    + rewrite Hcc. unfold last_customer_code.
      destruct c; cbn [omap list_omap]; rewrite ?last_cons;
        try (destruct (last _); [reflexivity |];
             apply Hframe; cbn; not_listed).
      * (* set_customer_code *)
        destruct (last _); [reflexivity | exact Hc].
      * (* set_parcel_info *)
        destruct (last _); [reflexivity |].
        apply Hframe; cbn.
        destruct volume, length, width, height; cbn; not_listed.
Qed.

(** X14: the mapping [build] returns has under ["customerCode"] the
    argument of the last [set_customer_code] call, whatever other calls
    came before, between or after; it has no such key when the setter was
    never called. *)
Theorem last_customer_code_wins :
  forall h0 calls,
    exists self h1 h2 r h3 d,
      OrderBuilder__init__ h0 = (inr self, h1)
      /\ perform_all self calls h1 = (inr tt, h2)
      /\ build self h2 = (inr r, h3)
      /\ h3 !! r = Some (DictObj d)
      /\ dict_get d "customerCode"
         = (fun s => Imm (VStr s)) <$> last_customer_code calls.
Proof.
  intros h0 calls.
  destruct (init_at h0) as (self & h1 & Hinit & Hat1).
  destruct (run_customer_code self calls [] h0 [] h1 Hat1)
    as ([] & h2 & Hrun & d2 & Hat2 & Hcc).
  destruct (ok_build_effect self _ h0 d2 h2 Hat2) as (r & h3 & Hbuild & _ & _ & _ & Hr).
  exists self, h1, h2, r, h3, (counted ([] ++ added calls) d2).
  repeat (split; [assumption |]).
  assert (Hsame : dict_get (counted ([] ++ added calls) d2) "customerCode"
                  = dict_get d2 "customerCode").
  { unfold counted. destruct ([] ++ added calls); [reflexivity |].
    now apply dict_get_set_ne. }
  rewrite Hsame, Hcc. now destruct (last_customer_code calls).
Qed.

Lemma at_dict_frame_insert self items frame d h r dr :
  at_dict self items frame d h ->
  h !! r = Some (DictObj dr) ->
  r <> order_data self ->
  at_dict self items (<[r := DictObj dr]> frame) d h.
Proof.
  intros [Hinv Hdata] Hr Hne. split; [| exact Hdata].
  now apply inv_frame_insert.
Qed.

(** X15: the copy [build] returns shares the list under ["itemList"] with
    the builder: after a later [add_item] the earlier copy still has the
    old total under ["goodsQTY"], while the list it refers to has the new
    item as well. *)
Theorem earlier_copy_shares_the_list :
  forall h0 before a,
    added before <> [] ->
    exists self h1 h2 r h3 h4 d l,
      OrderBuilder__init__ h0 = (inr self, h1)
      /\ perform_all self before h1 = (inr tt, h2)
      /\ build self h2 = (inr r, h3)
      /\ perform self (AddItem a) h3 = (inr tt, h4)
      /\ h4 !! r = Some (DictObj d)
      /\ dict_get d "goodsQTY" = Some (Imm (VInt (total (added before))))
      /\ dict_get d "itemList" = Some (Ref l)
      /\ h4 !! l = Some (ListObj (make_item <$> (added before ++ [a]))).
Proof.
  intros h0 before a Hadded.
  destruct (init_at h0) as (self & h1 & Hinit & Hat1).
  destruct (ok_perform_all_effect self before [] h0 [] h1 Hat1)
    as ([] & h2 & Hrun & d2 & Hat2 & _).
  cbn [app] in Hat2.
  destruct (ok_build_effect self _ h0 d2 h2 Hat2)
    as (r & h3 & Hbuild & Hat3 & _ & Hne & Hr).
  set (d := counted (added before) d2) in *.
  pose proof (at_dict_frame_insert _ _ _ _ _ _ _ Hat3 Hr Hne) as Hat3'.
  destruct (ok_perform_effect self _ _ d (AddItem a) h3 Hat3')
    as ([] & h4 & Hadd & d4 & Hat4 & [_ Hkeep]).
  assert (Hqty : dict_get d "goodsQTY" = Some (Imm (VInt (total (added before))))).
  { unfold d, counted. destruct (added before); [now destruct Hadded |].
    apply dict_get_set_eq. }
  (* the list is there at the time of [build] *)
  destruct Hat3 as [(_ & _ & d3 & Hd3 & Hitems3) Hdata3].
  apply data_lookup in Hdata3. rewrite Hdata3 in Hd3. injection Hd3 as <-.
  destruct (dict_get d "itemList") as [[v | l] |] eqn:Hget;
    [destruct Hitems3 | | now destruct Hadded].
  cbn in Hkeep. specialize (Hkeep ltac:(eauto)). subst d4.
  destruct Hat4 as [(Hsub & _ & d4 & Hd4 & Hitems4) Hdata4].
  apply data_lookup in Hdata4. rewrite Hdata4 in Hd4. injection Hd4 as <-.
  rewrite Hget in Hitems4. destruct Hitems4 as [_ Hlist].
  exists self, h1, h2, r, h3, h4, d, l.
  repeat (split; [assumption |]).
  split; [eapply lookup_weaken; [apply lookup_insert_eq | exact Hsub] |].
  repeat (split; [assumption || reflexivity |]). exact Hlist.
Qed.

Lemma earlier_copy_shares_the_list_witness :
  added Sample.calls <> []
  /\ exists r h3 h4 d l,
       build Sample.builder Sample.store1 = (inr r, h3)
       /\ perform Sample.builder (AddItem (Sample.plain_item "hat" 10 1 1)) h3
          = (inr tt, h4)
       /\ h4 !! r = Some (DictObj d)
       /\ dict_get d "goodsQTY" = Some (Imm (VInt 5))
       /\ dict_get d "itemList" = Some (Ref l)
       /\ length <$> (match h4 !! l with
                       | Some (ListObj items) => Some items
                       | _ => None
                       end) = Some 3.
Proof.
  split; [discriminate |].
  destruct (earlier_copy_shares_the_list ∅ Sample.calls
              (Sample.plain_item "hat" 10 1 1) ltac:(discriminate))
    as (self & h1 & h2 & r & h3 & h4 & d & l
        & Hinit & Hrun & Hbuild & Hadd & Hr & Hq & Hi & Hl).
  injection Hinit as <- <-.
  assert (Hs : Sample.store1 = h2) by exact (f_equal snd Hrun).
  exists r, h3, h4, d, l. rewrite Hs, Hl.
  repeat (split; [assumption |]). reflexivity.
Defined.

Lemma counted_twice items d : counted items (counted items d) = counted items d.
Proof.
  unfold counted. destruct items; [reflexivity |].
  apply dict_set_same, dict_get_set_eq.
Qed.

(** X16: two [build]s in a row return two different dictionaries with the
    same entries: the second call finds the total already in place and
    changes nothing. *)
Theorem build_twice :
  forall h0 calls,
    exists self h1 h2 r1 h3 r2 h4 d,
      OrderBuilder__init__ h0 = (inr self, h1)
      /\ perform_all self calls h1 = (inr tt, h2)
      /\ build self h2 = (inr r1, h3)
      /\ build self h3 = (inr r2, h4)
      /\ r1 <> r2
      /\ h4 !! r1 = Some (DictObj d)
      /\ h4 !! r2 = Some (DictObj d).
Proof.
  intros h0 calls.
  destruct (init_at h0) as (self & h1 & Hinit & Hat1).
  destruct (ok_perform_all_effect self calls [] h0 [] h1 Hat1)
    as ([] & h2 & Hrun & d2 & Hat2 & _).
  cbn [app] in Hat2.
  destruct (ok_build_effect self _ h0 d2 h2 Hat2)
    as (r1 & h3 & Hbuild1 & Hat3 & _ & Hne1 & Hr1).
  pose proof (at_dict_frame_insert _ _ _ _ _ _ _ Hat3 Hr1 Hne1) as Hat3'.
  destruct (ok_build_effect self _ _ _ h3 Hat3')
    as (r2 & h4 & Hbuild2 & Hat4 & Hfr2 & _ & Hr2).
  rewrite counted_twice in Hat4, Hr2.
  exists self, h1, h2, r1, h3, r2, h4, (counted (added calls) d2).
  repeat (split; [assumption |]).
  split; [| split; [| exact Hr2]].
  - intros ->. rewrite lookup_insert_eq in Hfr2. discriminate Hfr2.
  - destruct Hat4 as [(Hsub & _) _].
    eapply lookup_weaken; [apply lookup_insert_eq | exact Hsub].
Qed.

(** The dictionary [add_item] makes for an item: the dialect name
    falls back to the name when it is left out or empty, and each of the
    four dimension keys is there exactly when its argument was given. *)
Theorem item_dictionary :
  forall a kvs,
    make_item a = VDict kvs ->
    lookup_key kvs "goodsNameDialect"
    = Some (VStr (match goods_name_dialect a with
                  | None | Some "" => goods_name a
                  | Some dialect => dialect
                  end))
    /\ lookup_key kvs "goodsLength" = VInt <$> goods_length a
    /\ lookup_key kvs "goodsWidth" = VInt <$> goods_width a
    /\ lookup_key kvs "goodsHigh" = VInt <$> goods_height a
    /\ lookup_key kvs "goodsVolume" = VFloat <$> goods_volume a.
Proof.
  intros a kvs [= <-].
  split.
  - cbn. destruct (goods_name_dialect a) as [[| c s] |]; reflexivity.
  - destruct (goods_length a), (goods_width a), (goods_height a), (goods_volume a);
      repeat split; reflexivity.
Qed.

Lemma item_dictionary_witness :
  exists kvs,
    make_item (Sample.plain_item "shirt" 2 190 1.5) = VDict kvs
    /\ lookup_key kvs "goodsNameDialect" = Some (VStr "shirt")
    /\ lookup_key kvs "goodsLength" = None.
Proof.
  eexists. split; [reflexivity |].
  destruct (item_dictionary (Sample.plain_item "shirt" 2 190 1.5) _ eq_refl)
    as (Hd & Hl & _).
  split; [exact Hd | exact Hl].
Defined.

End BuilderExtras.

(** * Properties of the endpoints *)

Module ServiceExtras.
Import Py Client Call ClientFacts Service.

Lemma lookup_set_key_eq d k v : lookup_key (set_key d k v) k = Some v.
Proof.
  induction d as [| [k' v'] d IH]; cbn.
  - now rewrite String.eqb_refl.
  - destruct (String.eqb k' k) eqn:E; cbn; rewrite E; [reflexivity | exact IH].
Qed.

Lemma lookup_set_key_ne d k k' v :
  k <> k' -> lookup_key (set_key d k v) k' = lookup_key d k'.
Proof.
  intros Hne. induction d as [| [k0 v0] d IH]; cbn.
  - apply String.eqb_neq in Hne. now rewrite Hne.
  - destruct (String.eqb k0 k) eqn:E; cbn.
    + apply String.eqb_eq in E. subst k0.
      apply String.eqb_neq in Hne. now rewrite Hne.
    + now rewrite IH.
Qed.

Lemma lookup_update_keys_ne kvs k' : forall d,
  Forall (fun kv => fst kv <> k') kvs ->
  lookup_key (update_keys d kvs) k' = lookup_key d k'.
Proof.
  unfold update_keys.
  induction kvs as [| [k v] kvs IH]; intros d H; [reflexivity |].
  inversion H as [| ? ? Hk Hrest]; subst. cbn [fold_left fst snd].
  rewrite IH by exact Hrest. now apply lookup_set_key_ne.
Qed.

(** What an endpoint answers, from what the client call ends with. *)
Lemma guarded_result message call out st result :
  fst (call out st) = inr result ->
  fst (guarded message call out st)
  = inr (VDict [ ("success", VBool true); ("data", result);
                 ("message", VStr message) ]).
Proof.
  unfold guarded. destruct (call out st) as [[e | r] st']; cbn; congruence.
Qed.

Lemma guarded_raise message call out st e :
  fst (call out st) = inl e ->
  fst (guarded message call out st)
  = inl {| exc_status := 500; exc_detail := exc_str e |}.
Proof.
  unfold guarded. destruct (call out st) as [[e' | r] st']; cbn; congruence.
Qed.

Lemma guarded_state message call out st :
  snd (guarded message call out st) = snd (call out st).
Proof. unfold guarded. now destruct (call out st) as [[e | r] st']. Qed.

(** X17: the track endpoint answers [success: True] only with the mapping
    an accepted response of the carrier decrypted to; whatever else the
    call ends with (a rejection by the carrier, a network failure, a body
    that is no object) it raises [HTTPException] with status 500 and the
    text of the exception as detail. *)
Theorem track_endpoint_answer :
  forall tool rt request out st,
    match fst (Service.query_track tool rt request out st) with
    | inr body =>
        exists j z r d enc b text,
          body = VDict [ ("success", VBool true); ("data", j);
                         ("message", VStr "查询成功") ]
          /\ requests_post out
               (request_of tool (self st) "/open-api/express/track/query"
                  (VDict [("mailNoList", VList (map VStr (mail_no_list request)))]) z)
             = Responded r
          /\ http_error_msg r = None
          /\ resp_json r = inr (VDict d)
          /\ truthy (default VNone (lookup_key d "success")) = true
          /\ lookup_key d "data" = Some enc
          /\ triple_des_decrypt tool enc = inr b
          /\ bytes_decode rt b = inr text
          /\ json_loads rt text = inr j
    | inl h =>
        exc_status h = 500%Z
        /\ exists e,
             fst (Client.query_track tool rt (mail_no_list request) out st) = inl e
             /\ exc_detail h = exc_str e
    end.
Proof.
  intros tool rt request out st. unfold Service.query_track.
  destruct (fst (Client.query_track tool rt (mail_no_list request) out st))
    as [e | j] eqn:Hcall.
  - rewrite (guarded_raise _ _ _ _ _ Hcall). split; [reflexivity |]. now exists e.
  - rewrite (guarded_result _ _ _ _ _ Hcall).
    unfold Client.query_track in Hcall. cbv zeta in Hcall.
    destruct (ClientExtras.make_request_returns _ _ _ _ _ _ _ Hcall)
      as (z & r & d & enc & b & text & _ & Hpost & Hst & Hjs & Hs & Hd & _ & Hdec & Hb & Hl).
    exists j, z, r, d, enc, b, text. repeat (split; [assumption || reflexivity |]).
    exact Hl.
Qed.

(** X18: when the carrier rejects a cancellation (falsy [success] or
    [data] in a response that passed [raise_for_status]), the cancel
    endpoint raises [HTTPException] with status 500 whose detail carries
    the carrier's whole response. *)
Theorem cancel_endpoint_rejection :
  forall tool rt request out st z r d,
    timestamp out = inr z ->
    requests_post out
      (request_of tool (self st) "/open-api/express/order/cancelOrder"
         (VList [ VDict [ ("customerCode", VStr (cancel_customer_code request));
                          ("billCode", VStr (cancel_bill_code request));
                          ("cancelReason", VStr (cancel_reason request)) ] ]) z)
    = Responded r ->
    http_error_msg r = None ->
    resp_json r = inr (VDict d) ->
    truthy (default VNone (lookup_key d "success")) = false
    \/ truthy (default VNone (lookup_key d "data")) = false ->
    fst (Service.cancel_order tool rt request out st)
    = inl {| exc_status := 500;
             exc_detail := "API调用失败: " +:+ py_repr rt (VDict d) |}.
Proof.
  intros tool rt request out st z r d Hz Hpost Hstatus Hjson Hfalsy.
  unfold Service.cancel_order.
  apply guarded_raise with
    (e := Raise Exception ("API调用失败: " +:+ py_repr rt (VDict d))).
  unfold Client.cancel_order. cbv zeta.
  change (default "customer cancel" (Some (cancel_reason request)))
    with (cancel_reason request).
  rewrite (make_request_unfold _ _ _ _ _ _ _ Hz). cbv zeta.
  rewrite Hpost, Hstatus, Hjson, on_result_rejected; [reflexivity |].
  destruct Hfalsy as [-> | ->]; [reflexivity | apply andb_false_r].
Qed.

Lemma cancel_endpoint_rejection_witness :
  fst (Service.cancel_order Standins.tool Standins.rt
         {| cancel_customer_code := "NG000660";
            cancel_bill_code := "NG0206830525525";
            cancel_reason := "customer cancel" |}
         (Cases.answering (inr (VDict [("success", VBool false)])))
         Standins.start)
  = inl {| exc_status := 500;
           exc_detail := "API调用失败: {'success': False}" |}.
Proof.
  rewrite (cancel_endpoint_rejection Standins.tool Standins.rt
             {| cancel_customer_code := "NG000660";
                cancel_bill_code := "NG0206830525525";
                cancel_reason := "customer cancel" |}
             (Cases.answering (inr (VDict [("success", VBool false)])))
             Standins.start 1730000000625%Z
             (Cases.ok_response (inr (VDict [("success", VBool false)])))
             [("success", VBool false)]);
    try reflexivity.
  now left.
Defined.

Ltac other_key :=
  repeat first
    [ rewrite lookup_set_key_ne by discriminate
    | rewrite lookup_update_keys_ne
        by (repeat (apply List.Forall_cons; [discriminate |]); apply List.Forall_nil) ].

(** X19: the update endpoint hands to the encryption step a list of one
    mapping that always has the request's [billCode] and [customerCode],
    whatever optional parts the request gives. *)
Theorem update_endpoint_payload :
  forall tool rt request out st z,
    timestamp out = inr z ->
    encrypts (trace (snd (Service.update_order tool rt request out st)))
    = encrypts (trace st) ++ [ (VList [VDict (update_data request)], str_of_int z) ]
    /\ lookup_key (update_data request) "billCode"
       = Some (VStr (update_bill_code request))
    /\ lookup_key (update_data request) "customerCode"
       = Some (VStr (update_customer_code request)).
Proof.
  intros tool rt request out st z Hz. split.
  - unfold Service.update_order. rewrite guarded_state.
    unfold Client.update_order. cbv zeta.
    apply make_request_encrypts, Hz.
  - unfold update_data.
    destruct (nonempty (update_custom_order_no request)),
      (update_sender request), (update_receiver request),
      (update_parcel request) as [p |],
      (update_items request) as [[| i items] |],
      (update_service request);
      try destruct (parcel_volume p) as [v |];
      try destruct (nonzero (Some v));
      cbv zeta; other_key; split; reflexivity.
Qed.

Lemma update_endpoint_payload_witness :
  encrypts (trace (snd (Service.update_order Standins.tool Standins.rt
                          {| update_bill_code := "47234208672823";
                             update_customer_code := "MA000027";
                             update_custom_order_no := None;
                             update_sender := None; update_receiver := None;
                             update_parcel := None; update_items := None;
                             update_service := None |}
                          (Cases.answering (inr (Standins.envelope true)))
                          Standins.start)))
  = [ (VList [ VDict [ ("billCode", VStr "47234208672823");
                       ("customerCode", VStr "MA000027") ] ],
       "1730000000625") ].
Proof.
  apply (update_endpoint_payload Standins.tool Standins.rt
           {| update_bill_code := "47234208672823";
              update_customer_code := "MA000027";
              update_custom_order_no := None;
              update_sender := None; update_receiver := None;
              update_parcel := None; update_items := None;
              update_service := None |}
           (Cases.answering (inr (Standins.envelope true)))
           Standins.start 1730000000625%Z).
  reflexivity.
Defined.

(** X20: the update endpoint leaves out what is falsy: an empty
    [custom_order_no], a parcel volume of zero and an empty item list are
    not sent, so they cannot be set through it; a [null] remark of a given
    service part is sent as [None]. *)
Theorem update_endpoint_drops_falsy :
  forall request,
    lookup_key (update_data request) "customOrderNo"
    = match update_custom_order_no request with
      | Some s => if String.eqb s "" then None else Some (VStr s)
      | None => None
      end
    /\ lookup_key (update_data request) "parcelVolume"
       = match update_parcel request with
         | Some p =>
             match parcel_volume p with
             | Some v => if PrimFloat.eqb v 0 then None else Some (VFloat v)
             | None => None
             end
         | None => None
         end
    /\ lookup_key (update_data request) "itemList"
       = match update_items request with
         | Some (i :: items) =>
             Some (VList
                     (map (fun item =>
                             VDict [ ("goodsName", VStr (item_goods_name item));
                                     ("goodsQTY", VInt (item_goods_qty item));
                                     ("goodsValue", VFloat (item_goods_value item));
                                     ("goodsWeight", VFloat (item_goods_weight item)) ])
                          (i :: items)))
         | _ => None
         end
    /\ lookup_key (update_data request) "remark"
       = match update_service request with
         | Some s => Some (text_or_none (service_remark s))
         | None => None
         end.
Proof.
  intros request. unfold update_data, nonempty, nonzero, truthy.
  destruct (update_custom_order_no request) as [s |];
    [destruct (String.eqb s "") |];
    destruct (update_sender request), (update_receiver request),
      (update_parcel request) as [p |],
      (update_items request) as [[| i items] |],
      (update_service request);
    try destruct (parcel_volume p) as [v |];
    try destruct (PrimFloat.eqb v 0);
    cbv zeta; cbn [negb];
    repeat split;
    repeat first [ rewrite lookup_set_key_eq | progress other_key ];
    reflexivity.
Qed.

End ServiceExtras.

(** * Properties of the endpoint that creates an order *)

Module CreateExtras.
Import Py Client Call ClientFacts Builder Service ServiceCreate CreateFacts.

(** What the endpoint hands to the encryption step. *)
Lemma create_order_encrypts tool rt request out h st z r h' :
  timestamp out = inr z ->
  order_of request h = (inr r, h') ->
  encrypts (trace (snd (snd (ServiceCreate.create_order tool rt request out (h, st)))))
  = encrypts (trace st) ++ [ (snapshot h' r, str_of_int z) ].
Proof.
  intros Hz E. rewrite (create_order_unfold _ _ _ _ _ _ _ _ E). cbn [snd].
  rewrite ServiceExtras.guarded_state.
  unfold Client.create_order. apply make_request_encrypts, Hz.
Qed.

(** X21: the order the create endpoint sends holds the items of the
    request in their order, each as the dictionary [add_item] makes of it,
    and under [goodsQTY] the sum of their quantities. *)
Theorem create_endpoint_items :
  forall tool rt request out h st z,
    timestamp out = inr z ->
    create_items request <> [] ->
    exists payload,
      encrypts (trace (snd (snd (ServiceCreate.create_order tool rt request out
                                   (h, st)))))
      = encrypts (trace st) ++ [ (VDict payload, str_of_int z) ]
      /\ lookup_key payload "itemList"
         = Some (VList (item_of <$> create_items request))
      /\ lookup_key payload "goodsQTY"
         = Some (VInt (quantity (create_items request))).
Proof.
  intros tool rt request out h st z Hz Hitems.
  destruct (order_payload request h)
    as (r & h' & payload & E & Hsnap & _ & Hlist & Htotal).
  exists payload. rewrite (create_order_encrypts _ _ _ _ _ _ _ _ _ Hz E), Hsnap.
  split; [reflexivity |].
  destruct (create_items request); [contradiction | now split].
Qed.

Lemma create_endpoint_items_witness :
  exists payload,
    encrypts (trace (snd (snd (ServiceCreate.create_order Standins.tool Standins.rt
                                 sample_request
                                 (Cases.answering (inr (Standins.envelope true)))
                                 (∅, Standins.start)))))
    = [ (VDict payload, "1730000000625") ]
    /\ lookup_key payload "itemList"
       = Some (VList (item_of <$> create_items sample_request))
    /\ lookup_key payload "goodsQTY" = Some (VInt 5).
Proof.
  apply (create_endpoint_items Standins.tool Standins.rt sample_request
           (Cases.answering (inr (Standins.envelope true)))
           ∅ Standins.start 1730000000625%Z).
  - reflexivity.
  - discriminate.
Defined.

(** X22: a request without items is sent all the same: the order then has
    neither [itemList] nor [goodsQTY]. *)
Theorem create_endpoint_without_items :
  forall tool rt request out h st z,
    timestamp out = inr z ->
    create_items request = [] ->
    exists payload,
      encrypts (trace (snd (snd (ServiceCreate.create_order tool rt request out
                                   (h, st)))))
      = encrypts (trace st) ++ [ (VDict payload, str_of_int z) ]
      /\ lookup_key payload "itemList" = None
      /\ lookup_key payload "goodsQTY" = None.
Proof.
  intros tool rt request out h st z Hz Hitems.
  destruct (order_payload request h)
    as (r & h' & payload & E & Hsnap & _ & Hlist & Htotal).
  exists payload. rewrite (create_order_encrypts _ _ _ _ _ _ _ _ _ Hz E), Hsnap.
  split; [reflexivity |].
  rewrite Hitems in Hlist, Htotal. now split.
Qed.

Lemma create_endpoint_without_items_witness :
  exists payload,
    encrypts (trace (snd (snd (ServiceCreate.create_order Standins.tool Standins.rt
                                 sample_without_items
                                 (Cases.answering (inr (Standins.envelope true)))
                                 (∅, Standins.start)))))
    = [ (VDict payload, "1730000000625") ]
    /\ lookup_key payload "itemList" = None
    /\ lookup_key payload "goodsQTY" = None.
Proof.
  apply (create_endpoint_without_items Standins.tool Standins.rt
           sample_without_items
           (Cases.answering (inr (Standins.envelope true)))
           ∅ Standins.start 1730000000625%Z).
  - reflexivity.
  - reflexivity.
Defined.

(** The entries of the order that do not depend on the items. *)
Lemma plain_fields request :
  dict_get (plain request) "customOrderNo"
  = Some (Imm (VStr (create_custom_order_no request)))
  /\ dict_get (plain request) "customerCode"
     = Some (Imm (VStr (create_customer_code request)))
  /\ dict_get (plain request) "sendCompanyName"
     = Some (Imm (text_or_none (sender_company_name (create_sender request))))
  /\ dict_get (plain request) "acceptEmail"
     = Some (Imm (text_or_none (receiver_email (create_receiver request))))
  /\ dict_get (plain request) "piece"
     = Some (Imm (VInt (parcel_piece (create_parcel request))))
  /\ dict_get (plain request) "remark"
     = Some (Imm (match create_service request with
                  | Some o => text_or_none (service_remark o)
                  | None => VStr ""
                  end)).
Proof.
  destruct request as [no code s r [w v l wd ht p] items svc].
  destruct v, l, wd, ht, svc; repeat split; reflexivity.
Qed.



(** X24: the builder part of the create endpoint never raises: the
    endpoint answers [success: True] with what the client returned for the
    order, and every [HTTPException] it raises has status 500 and carries
    the text of an exception of the client's call. *)
Theorem create_endpoint_answer :
  forall tool rt request out h st,
    exists payload,
      lookup_key payload "customerCode"
      = Some (VStr (create_customer_code request))
      /\ match fst (ServiceCreate.create_order tool rt request out (h, st)) with
         | inr body =>
             exists j,
               fst (Client.create_order tool rt (VDict payload) out st) = inr j
               /\ body = VDict [ ("success", VBool true); ("data", j);
                                 ("message", VStr "订单创建成功") ]
         | inl e =>
             exc_status e = 500%Z
             /\ exists e',
                  fst (Client.create_order tool rt (VDict payload) out st) = inl e'
                  /\ exc_detail e = exc_str e'
         end.
Proof.
  intros tool rt request out h st.
  destruct (order_payload request h)
    as (r & h' & payload & E & Hsnap & Hplain & _).
  destruct (plain_fields request) as (_ & H2 & _).
  exists payload. split.
  - eapply Hplain; [discriminate | discriminate | exact H2].
  - rewrite (create_order_unfold _ _ _ _ _ _ _ _ E), Hsnap. cbn [fst].
    unfold guarded.
    destruct (Client.create_order tool rt (VDict payload) out st) as [[e | j] st'];
      cbn [fst exc_status exc_detail].
    + split; [reflexivity |]. now exists e.
    + now exists j.
Qed.

End CreateExtras.
